(** * Livestream state endpoint: state selection, cache lifetime, error handling

  A shallow embedding of the serverless handlers of the repository
  (the grace-window revision, the playlist-based revision in
  [api/livestream.js], and the search-based revision with the debug flag),
  followed by the properties of the specification proved about them. *)

From Stdlib Require Import ZArith List String Ascii Bool Lia DecimalString.
Import ListNotations.
Local Open Scope string_scope.
Local Open Scope list_scope.
Local Open Scope Z_scope.

(** ** JavaScript primitives used by the handlers *)

Module Js.

(** Truthiness of an optional string ([undefined], [null] and the empty
    string are falsy).  A field is "present" for the handlers exactly when
    this test succeeds, and "absent" otherwise. *)
Definition truthy (o : option string) : bool :=
  match o with
  | Some s => negb (String.eqb s "")
  | None => false
  end.

(** Optional chaining [o?.f]. *)
Definition chain {A B : Type} (o : option A) (f : A -> option B) : option B :=
  match o with
  | Some a => f a
  | None => None
  end.

(** The value of an optional string when it is truthy. *)
Definition whenTruthy (o : option string) : option string :=
  match o with
  | Some s => if String.eqb s "" then None else Some s
  | None => None
  end.

(** [l.filter(Boolean)] on optional strings. *)
Definition filterBoolean (l : list (option string)) : list string :=
  flat_map (fun o => match whenTruthy o with Some s => [s] | None => [] end) l.

(** [l || []] for an optional array. *)
Definition or_nil {A : Type} (l : option (list A)) : list A :=
  match l with
  | Some x => x
  | None => []
  end.

(** [o || ""] for an optional string. *)
Definition or_empty (o : option string) : string :=
  match o with
  | Some s => s
  | None => ""
  end.

(** [x || y] for two optional objects (objects are always truthy). *)
Definition or_else {A : Type} (x y : option A) : option A :=
  match x with
  | Some a => Some a
  | None => y
  end.

(** Numbers that are either a finite integer or [NaN] (here [None]):
    what [Date.parse] returns. *)
Definition Num := option Z.

Definition isFinite (n : Num) : bool :=
  match n with
  | Some _ => true
  | None => false
  end.

Definition sub (a b : Num) : Num :=
  match a, b with
  | Some x, Some y => Some (x - y)
  | _, _ => None
  end.

(** Comparisons with [NaN] are false. *)
Definition gt (a b : Num) : bool :=
  match a, b with
  | Some x, Some y => x >? y
  | _, _ => false
  end.

Definition le (a b : Num) : bool :=
  match a, b with
  | Some x, Some y => x <=? y
  | _, _ => false
  end.

(** Truthiness of a number: [0] and [NaN] are falsy. *)
Definition truthy_num (n : Num) : bool :=
  match n with
  | Some x => negb (x =? 0)
  | None => false
  end.

(** The integer held by a number that has been tested to be finite. *)
Definition value (n : Num) : Z :=
  match n with
  | Some x => x
  | None => 0
  end.

(** A comparator result as [Array.prototype.sort] reads it: [NaN] counts
    as [0]. *)
Definition cmp_value (n : Num) : Z :=
  match n with
  | Some x => x
  | None => 0
  end.

Section Arrays.
Context {A : Type}.

(** [Array.prototype.find]. *)
Fixpoint find (p : A -> bool) (l : list A) : option A :=
  match l with
  | [] => None
  | x :: l' => if p x then Some x else find p l'
  end.

(** [Array.prototype.sort] with a comparator.  The sort is stable: an
    element moves in front of a later one only when the comparator is
    positive on the pair in input order.  Stable insertion from the
    right computes that order. *)
Variable cmp : A -> A -> Z.

Fixpoint insert (x : A) (l : list A) : list A :=
  match l with
  | [] => [x]
  | y :: l' => if cmp x y <=? 0 then x :: y :: l' else y :: insert x l'
  end.

Definition sort (l : list A) : list A := fold_right insert [] l.

(** [l[0]]. *)
Definition first (l : list A) : option A :=
  match l with
  | [] => None
  | x :: _ => Some x
  end.

End Arrays.

(** Thrown values: an [Error] object with its name and message. *)
Record Error := mkError { name : string; message : string }.

(** [String(e)] for an error object, as [Error.prototype.toString]. *)
Definition Error_toString (e : Error) : string :=
  if String.eqb (name e) "" then message e
  else if String.eqb (message e) "" then name e
  else String.append (name e) (String.append ": " (message e)).

End Js.

(** ** [Date.parse] on UTC timestamps of the form [YYYY-MM-DDTHH:mm:ssZ]

  The handlers are parameterised by [Date.parse]; this is the instance used
  to run them on concrete inputs.  It covers the timestamp format of the
  video metadata and maps every other string to [NaN]. *)

Module IsoDate.

Definition digit (c : ascii) : option Z :=
  let n := Z.of_nat (nat_of_ascii c) in
  if (48 <=? n) && (n <=? 57) then Some (n - 48) else None.

Definition two (a b : ascii) : option Z :=
  match digit a, digit b with
  | Some x, Some y => Some (10 * x + y)
  | _, _ => None
  end.

Definition four (a b c d : ascii) : option Z :=
  match two a b, two c d with
  | Some x, Some y => Some (100 * x + y)
  | _, _ => None
  end.

Definition leap (y : Z) : bool :=
  ((y mod 4 =? 0) && negb (y mod 100 =? 0)) || (y mod 400 =? 0).

Definition days_in_month (y m : Z) : Z :=
  if m =? 2 then (if leap y then 29 else 28)
  else if (m =? 4) || (m =? 6) || (m =? 9) || (m =? 11) then 30
  else 31.

(** Days from 1970-01-01 to the given civil date. *)
Definition days_from_civil (y m d : Z) : Z :=
  let y' := if m <=? 2 then y - 1 else y in
  let era := y' / 400 in
  let yoe := y' - era * 400 in
  let mp := (m + 9) mod 12 in
  let doy := (153 * mp + 2) / 5 + d - 1 in
  let doe := yoe * 365 + yoe / 4 - yoe / 100 + doy in
  era * 146097 + doe - 719468.

Definition make_time (y m d h mi s : Z) : Js.Num :=
  if (1 <=? m) && (m <=? 12) && (1 <=? d) && (d <=? days_in_month y m)
     && (h <=? 23) && (mi <=? 59) && (s <=? 59)
  then Some ((((days_from_civil y m d * 24 + h) * 60 + mi) * 60 + s) * 1000)
  else None.

Definition parse (s : string) : Js.Num :=
  match list_ascii_of_string s with
  | [y1; y2; y3; y4; "-"; m1; m2; "-"; d1; d2; "T";
     h1; h2; ":"; n1; n2; ":"; s1; s2; "Z"]%char =>
      match four y1 y2 y3 y4, two m1 m2, two d1 d2,
            two h1 h2, two n1 n2, two s1 s2 with
      | Some y, Some m, Some d, Some h, Some mi, Some sec =>
          make_time y m d h mi sec
      | _, _, _, _, _, _ => None
      end
  | _ => None
  end.

End IsoDate.


(** ** Data model: video metadata and the state record *)

Module Yt.

(** [liveStreamingDetails] of a video resource; every field is optional. *)
Record LiveStreamingDetails := mkDetails {
  scheduledStartTime : option string;
  actualStartTime : option string;
  actualEndTime : option string
}.

(** An item of the [videos.list] response. *)
Record Video := mkVideo {
  id : string;
  liveStreamingDetails : option LiveStreamingDetails
}.

Inductive State := live | upcoming | replay | none.

Definition State_eqb (a b : State) : bool :=
  match a, b with
  | live, live | upcoming, upcoming | replay, replay | none, none => true
  | _, _ => false
  end.

(** [{ state, videoId, upcomingStartMs }]; [None] is [null]. *)
Record StateResult := mkResult {
  state : State;
  videoId : option string;
  upcomingStartMs : Js.Num
}.

(** [v.liveStreamingDetails?.scheduledStartTime] and its siblings. *)
Definition scheduledStart (v : Video) : option string :=
  Js.chain (liveStreamingDetails v) scheduledStartTime.

Definition actualStart (v : Video) : option string :=
  Js.chain (liveStreamingDetails v) actualStartTime.

Definition actualEnd (v : Video) : option string :=
  Js.chain (liveStreamingDetails v) actualEndTime.

End Yt.

(** ** State selection of the grace-window revision
    ([pickStateFromVideos] and the cache lifetime of src/unnamed/part_001) *)

Module Grace.

(** [GRACE_MS = Math.max(0, GRACE_MINUTES) * 60 * 1000]. *)
Definition GRACE_MS_of (GRACE_MINUTES : Z) : Z :=
  Z.max 0 GRACE_MINUTES * 60 * 1000.

(** The objects built by [videos.map(...)] before the upcoming rules. *)
Record Scheduled := mkScheduled {
  id : string;
  t : Js.Num;
  hasActualStart : bool;
  hasActualEnd : bool
}.

Section Selection.

(** [Date.parse], the constant [GRACE_MS] and the reading of [Date.now()]. *)
Variable Date_parse : string -> Js.Num.
Variable GRACE_MS : Z.
Variable now : Z.

(** The predicate of [videos.find] in rule 1. *)
Definition isLiveNow (v : Yt.Video) : bool :=
  Js.truthy (Yt.actualStart v) && negb (Js.truthy (Yt.actualEnd v)).

Definition toScheduled (v : Yt.Video) : Scheduled :=
  {| id := Yt.id v;
     t := Date_parse (Js.or_empty (Yt.scheduledStart v));
     hasActualStart := Js.truthy (Yt.actualStart v);
     hasActualEnd := Js.truthy (Yt.actualEnd v) |}.

Definition scheduled (videos : list Yt.Video) : list Scheduled :=
  filter (fun x => Js.isFinite (t x)) (map toScheduled videos).

Definition isFuture (x : Scheduled) : bool :=
  negb (hasActualEnd x) && Js.gt (t x) (Some now).

Definition isGrace (x : Scheduled) : bool :=
  negb (hasActualEnd x) && negb (hasActualStart x)
  && Js.le (t x) (Some now)
  && Js.le (Js.sub (Some now) (t x)) (Some GRACE_MS).

(** [(a, b) => a.t - b.t] and [(a, b) => b.t - a.t]. *)
Definition soonestFirst (a b : Scheduled) : Z := Js.cmp_value (Js.sub (t a) (t b)).
Definition latestFirst (a b : Scheduled) : Z := Js.cmp_value (Js.sub (t b) (t a)).

Definition upcomingFuture (videos : list Yt.Video) : option Scheduled :=
  Js.first (Js.sort soonestFirst (filter isFuture (scheduled videos))).

Definition upcomingGrace (videos : list Yt.Video) : option Scheduled :=
  Js.first (Js.sort latestFirst (filter isGrace (scheduled videos))).

(** [Date.parse(v.liveStreamingDetails.actualEndTime)]; a missing argument
    parses to [NaN]. *)
Definition endTime (v : Yt.Video) : Js.Num :=
  match Yt.actualEnd v with
  | Some s => Date_parse s
  | None => None
  end.

(** [Number.isFinite(x) ? x : 0]. *)
Definition finiteOr0 (x : Js.Num) : Z :=
  if Js.isFinite x then Js.value x else 0.

Definition mostRecentEndFirst (a b : Yt.Video) : Z :=
  let ta := endTime a in
  let tb := endTime b in
  finiteOr0 tb - finiteOr0 ta.

Definition completed (videos : list Yt.Video) : option Yt.Video :=
  Js.first (Js.sort mostRecentEndFirst
              (filter (fun v => Js.truthy (Yt.actualEnd v)) videos)).

Definition pickStateFromVideos (videos : list Yt.Video) : Yt.StateResult :=
  match Js.find isLiveNow videos with
  | Some liveNow =>
      {| Yt.state := Yt.live; Yt.videoId := Some (Yt.id liveNow);
         Yt.upcomingStartMs := None |}
  | None =>
      match Js.or_else (upcomingGrace videos) (upcomingFuture videos) with
      | Some upcomingPick =>
          {| Yt.state := Yt.upcoming; Yt.videoId := Some (id upcomingPick);
             Yt.upcomingStartMs := t upcomingPick |}
      | None =>
          match completed videos with
          | Some c =>
              {| Yt.state := Yt.replay; Yt.videoId := Some (Yt.id c);
                 Yt.upcomingStartMs := None |}
          | None =>
              {| Yt.state := Yt.none; Yt.videoId := None;
                 Yt.upcomingStartMs := None |}
          end
      end
  end.

(** The [s-maxage] the handler derives from the selected state; here [now]
    is the handler's own reading of [Date.now()], taken after the selection.
    First the guard [result.state === "upcoming" && result.upcomingStartMs]. *)
Definition isUpcomingWithStart (result : Yt.StateResult) : bool :=
  Yt.State_eqb (Yt.state result) Yt.upcoming
  && Js.truthy_num (Yt.upcomingStartMs result).

Definition upcomingCacheSeconds (upcomingStartMs : Js.Num) : Z :=
  let diff := Js.value upcomingStartMs - now in
  let absLate := if diff <? 0 then Z.abs diff else 0 in
  if (diff <=? 0) && (absLate <=? GRACE_MS) then 5
  else if diff >? 2 * 60 * 60 * 1000 then 1800
  else if diff >? 30 * 60 * 1000 then 300
  else 20.

Definition otherCacheSeconds (result : Yt.StateResult) : Z :=
  if Yt.State_eqb (Yt.state result) Yt.live then 10
  else if Yt.State_eqb (Yt.state result) Yt.replay then 600
  else 600.

Definition cacheSeconds (result : Yt.StateResult) : Z :=
  if isUpcomingWithStart result
  then upcomingCacheSeconds (Yt.upcomingStartMs result)
  else otherCacheSeconds result.

End Selection.

End Grace.

(** ** State selection of the playlist revision
    ([pickStateFromVideos] of src/api/livestream.js) *)

Module Playlist.

Record Upcoming := mkUpcoming { id : string; t : Js.Num }.

Section Selection.

Variable Date_parse : string -> Js.Num.
Variable now : Z.

Definition isLiveNow (v : Yt.Video) : bool :=
  Js.truthy (Yt.actualStart v) && negb (Js.truthy (Yt.actualEnd v)).

Definition toUpcoming (v : Yt.Video) : Upcoming :=
  {| id := Yt.id v;
     t := Date_parse (Js.or_empty (Yt.scheduledStart v)) |}.

Definition soonestFirst (a b : Upcoming) : Z := Js.cmp_value (Js.sub (t a) (t b)).

Definition upcoming (videos : list Yt.Video) : option Upcoming :=
  Js.first (Js.sort soonestFirst
              (filter (fun x => Js.isFinite (t x) && Js.gt (t x) (Some now))
                      (map toUpcoming videos))).

Definition endTime (v : Yt.Video) : Js.Num :=
  match Yt.actualEnd v with
  | Some s => Date_parse s
  | None => None
  end.

Definition finiteOr0 (x : Js.Num) : Z :=
  if Js.isFinite x then Js.value x else 0.

Definition mostRecentEndFirst (a b : Yt.Video) : Z :=
  let ta := endTime a in
  let tb := endTime b in
  finiteOr0 tb - finiteOr0 ta.

Definition completed (videos : list Yt.Video) : option Yt.Video :=
  Js.first (Js.sort mostRecentEndFirst
              (filter (fun v => Js.truthy (Yt.actualEnd v)) videos)).

Definition pickStateFromVideos (videos : list Yt.Video) : Yt.StateResult :=
  match Js.find isLiveNow videos with
  | Some liveNow =>
      {| Yt.state := Yt.live; Yt.videoId := Some (Yt.id liveNow);
         Yt.upcomingStartMs := None |}
  | None =>
      match upcoming videos with
      | Some u =>
          {| Yt.state := Yt.upcoming; Yt.videoId := Some (id u);
             Yt.upcomingStartMs := t u |}
      | None =>
          match completed videos with
          | Some c =>
              {| Yt.state := Yt.replay; Yt.videoId := Some (Yt.id c);
                 Yt.upcomingStartMs := None |}
          | None =>
              {| Yt.state := Yt.none; Yt.videoId := None;
                 Yt.upcomingStartMs := None |}
          end
      end
  end.

End Selection.

End Playlist.

(** ** Runtime: process state, exceptions, external calls, responses *)

Module Rt.

(** An external call, identified by its endpoint and query. *)
Inductive Call :=
| channels_list
| playlistItems_list (playlistId : string) (maxResults : Z)
| videos_list (ids : list string)
| search_list (eventType : string) (maxResults : Z).

(** The running process: the module-level variable
    [cachedUploadsPlaylistId], the number of clock readings taken so far,
    and, as a record of what happened, every external call performed with
    the error it raised, if any. *)
Record Proc := mkProc {
  cachedUploadsPlaylistId : option string;
  ticks : nat;
  trace : list (Call * option Js.Error)
}.

Inductive Outcome (A : Type) :=
| Returned (a : A)
| Thrown (e : Js.Error).

Arguments Returned {A} a.
Arguments Thrown {A} e.

(** Computations that read and write the process state and may throw; a
    throw keeps the state reached so far. *)
Definition M (A : Type) : Type := Proc -> Outcome A * Proc.

Definition ret {A : Type} (a : A) : M A := fun p => (Returned a, p).

Definition throw {A : Type} (e : Js.Error) : M A := fun p => (Thrown e, p).

Definition bind {A B : Type} (m : M A) (k : A -> M B) : M B :=
  fun p =>
    match m p with
    | (Returned a, p') => k a p'
    | (Thrown e, p') => (Thrown e, p')
    end.

(** [try { m } catch (e) { h e }]. *)
Definition try_catch {A : Type} (m : M A) (h : Js.Error -> M A) : M A :=
  fun p =>
    match m p with
    | (Returned a, p') => (Returned a, p')
    | (Thrown e, p') => h e p'
    end.

(** [Date.now()] (and [new Date()]): the next reading of the clock. *)
Definition Date_now (clock : nat -> Z) : M Z :=
  fun p =>
    (Returned (clock (ticks p)),
     {| cachedUploadsPlaylistId := cachedUploadsPlaylistId p;
        ticks := S (ticks p);
        trace := trace p |}).

Definition record_call (c : Call) (e : option Js.Error) (p : Proc) : Proc :=
  {| cachedUploadsPlaylistId := cachedUploadsPlaylistId p;
     ticks := ticks p;
     trace := trace p ++ [(c, e)] |}.

(** What the remote API does with one request: [fetch] (or reading the
    response text) rejects, or a response arrives with its [ok] flag, status
    and text, together with what [JSON.parse] makes of the text.  These are
    the calls that settle; [fetchJson] awaits without a timeout, and a call
    that never settles is not an inhabitant of this type. *)
Inductive Fetch (A : Type) :=
| Rejected (e : Js.Error)
| Responded (ok : bool) (status : Z) (text : string) (parsed : Js.Error + A).

Arguments Rejected {A} e.
Arguments Responded {A} ok status text parsed.

(** Decimal rendering of an integer in a template string. *)
Definition show (z : Z) : string := NilZero.string_of_int (Z.to_int z).

(** [fetchJson(url)]. *)
Definition fetchJson {A : Type} (c : Call) (r : Fetch A) : M A :=
  fun p =>
    match r with
    | Rejected e => (Thrown e, record_call c (Some e) p)
    | Responded ok status text parsed =>
        if negb ok then
          let e := Js.mkError "Error"
                     (String.append (show status) (String.append " :: " text)) in
          (Thrown e, record_call c (Some e) p)
        else
          match parsed with
          | inl e => (Thrown e, record_call c (Some e) p)
          | inr a => (Returned a, record_call c None p)
          end
    end.

(** Response headers, set by name. *)
Definition setHeader (k v : string) (hs : list (string * string))
  : list (string * string) :=
  filter (fun h => negb (String.eqb (fst h) k)) hs ++ [(k, v)].

Definition setCors (hs : list (string * string)) : list (string * string) :=
  setHeader "Access-Control-Allow-Headers" "Content-Type"
    (setHeader "Access-Control-Allow-Methods" "GET, OPTIONS"
       (setHeader "Access-Control-Allow-Origin" "*" hs)).

Record Response (B : Type) := mkResponse {
  statusCode : Z;
  headers : list (string * string);
  body : option B
}.

Arguments mkResponse {B} statusCode headers body.
Arguments statusCode {B} r.
Arguments headers {B} r.
Arguments body {B} r.

(** [json(res, status, body, cacheSeconds)] on a fresh response. *)
Definition json {B : Type} (status : Z) (b : B) (cacheSeconds : Z) : Response B :=
  {| statusCode := status;
     headers :=
       setHeader "Cache-Control"
         (String.append "s-maxage="
            (String.append (show cacheSeconds) ", stale-while-revalidate=30"))
         (setCors []);
     body := Some b |}.

(** [setCors(res); res.status(204).end()]. *)
Definition preflight {B : Type} : Response B :=
  {| statusCode := 204; headers := setCors []; body := None |}.

Definition header {B : Type} (k : string) (r : Response B) : option string :=
  match Js.find (fun h => String.eqb (fst h) k) (headers r) with
  | Some h => Some (snd h)
  | None => None
  end.

(** The request: its method and the [debug] entry of its query. *)
Record Query := mkQuery { debug : option string }.

Record Request := mkRequest {
  method : string;
  query : option Query
}.

(** [process.env]: the API key, the channel id and the grace minutes. *)
Record Config := mkConfig {
  API_KEY : option string;
  CHANNEL_ID : option string;
  GRACE_MINUTES : Z
}.

End Rt.

Declare Scope js_scope.
Delimit Scope js_scope with js.
Notation "x <- c ;; k" := (Rt.bind c (fun x => k))
  (at level 100, c at next level, right associativity) : js_scope.
Local Open Scope js_scope.

(** ** Shapes of the API responses *)

Module Channels.
Record RelatedPlaylists := mkRelated { uploads : option string }.
Record ContentDetails := mkContent { relatedPlaylists : option RelatedPlaylists }.
Record Item := mkItem { contentDetails : option ContentDetails }.
Record Data := mkData { items : option (list Item) }.
End Channels.

Module PlaylistItems.
Record ContentDetails := mkContent { videoId : option string }.
Record Item := mkItem { contentDetails : option ContentDetails }.
Record Data := mkData { items : option (list Item) }.
End PlaylistItems.

Module Videos.
Record Data := mkData { items : option (list Yt.Video) }.
End Videos.

Module SearchList.
Record Id := mkId { videoId : option string }.
Record Item := mkItem { id : option Id }.
Record Data := mkData { items : option (list Item) }.
End SearchList.

(** The remote API and the clock, as one request sees them. *)
Record Env := mkEnv {
  clock : nat -> Z;
  channels : Rt.Fetch Channels.Data;
  playlistItems : string -> Z -> Rt.Fetch PlaylistItems.Data;
  videos : list string -> Rt.Fetch Videos.Data;
  search : string -> Z -> Rt.Fetch SearchList.Data
}.

(** ** The grace-window revision: uploads lookup and request handler
    (src/unnamed/part_001) *)

Module GraceApi.

(** The JSON body of this revision: the state record with the two freshness
    stamps (the instants that [toISOString] prints), and [error] on the
    missing-configuration response. *)
Record Body := mkBody {
  error : option string;
  result : Yt.StateResult;
  generatedAt : Z;
  youtubeFetchedAt : option Z
}.

Definition noneResult : Yt.StateResult :=
  {| Yt.state := Yt.none; Yt.videoId := None; Yt.upcomingStartMs := None |}.

Section Handler.

Variable Date_parse : string -> Js.Num.
Variable cfg : Rt.Config.
Variable env : Env.

Definition GRACE_MS : Z := Grace.GRACE_MS_of (Rt.GRACE_MINUTES cfg).

Definition set_cached (uploads : string) : Rt.M unit :=
  fun p =>
    (Rt.Returned tt,
     {| Rt.cachedUploadsPlaylistId := Some uploads;
        Rt.ticks := Rt.ticks p;
        Rt.trace := Rt.trace p |}).

(** [data?.items?.[0]?.contentDetails?.relatedPlaylists?.uploads]. *)
Definition uploadsOf (data : Channels.Data) : option string :=
  Js.chain
    (Js.chain
       (Js.chain (Js.chain (Channels.items data) Js.first)
                 Channels.contentDetails)
       Channels.relatedPlaylists)
    Channels.uploads.

Definition getUploadsPlaylistId : Rt.M string :=
  fun p =>
    match Js.whenTruthy (Rt.cachedUploadsPlaylistId p) with
    | Some cached => (Rt.Returned cached, p)
    | None =>
        (data <- Rt.fetchJson Rt.channels_list (channels env) ;;
         match Js.whenTruthy (uploadsOf data) with
         | None =>
             Rt.throw (Js.mkError "Error" "Could not resolve uploads playlist ID")
         | Some uploads =>
             _ <- set_cached uploads ;;
             Rt.ret uploads
         end) p
    end.

Definition listRecentUploadVideoIds (maxResults : Z) : Rt.M (list string) :=
  (uploadsPlaylistId <- getUploadsPlaylistId ;;
   data <- Rt.fetchJson (Rt.playlistItems_list uploadsPlaylistId maxResults)
             (playlistItems env uploadsPlaylistId maxResults) ;;
   Rt.ret (Js.filterBoolean
             (map (fun it => Js.chain (PlaylistItems.contentDetails it)
                                      PlaylistItems.videoId)
                  (Js.or_nil (PlaylistItems.items data))))).

Definition getLiveStreamingDetails (ids : list string) : Rt.M (list Yt.Video) :=
  match ids with
  | [] => Rt.ret []
  | _ :: _ =>
      (data <- Rt.fetchJson (Rt.videos_list ids) (videos env ids) ;;
       Rt.ret (Js.or_nil (Videos.items data)))
  end.

(** [pickStateFromVideos(videos)], reading [Date.now()] once. *)
Definition pickStateFromVideos (vs : list Yt.Video) : Rt.M Yt.StateResult :=
  (now <- Rt.Date_now (clock env) ;;
   Rt.ret (Grace.pickStateFromVideos Date_parse GRACE_MS now vs)).

(** The response for a selected state: the cache lifetime follows the state
    and, for [upcoming] with a start time, a fresh reading of [Date.now()]. *)
Definition respond (body : Body) : Rt.M (Rt.Response Body) :=
  if Grace.isUpcomingWithStart (result body) then
    now <- Rt.Date_now (clock env) ;;
    Rt.ret (Rt.json 200 body
              (Grace.upcomingCacheSeconds GRACE_MS now
                 (Yt.upcomingStartMs (result body))))
  else
    Rt.ret (Rt.json 200 body (Grace.otherCacheSeconds (result body))).

Definition handler (req : Rt.Request) : Rt.M (Rt.Response Body) :=
  if String.eqb (Rt.method req) "OPTIONS" then Rt.ret Rt.preflight
  else
    (generatedAt <- Rt.Date_now (clock env) ;;
     Rt.try_catch
       (if negb (Js.truthy (Rt.API_KEY cfg)) || negb (Js.truthy (Rt.CHANNEL_ID cfg))
        then
          Rt.ret (Rt.json 500
                    {| error := Some "Missing env vars"; result := noneResult;
                       generatedAt := generatedAt; youtubeFetchedAt := None |}
                    60)
        else
          ids <- listRecentUploadVideoIds 20 ;;
          youtubeFetchedAt <- Rt.Date_now (clock env) ;;
          match ids with
          | [] =>
              Rt.ret (Rt.json 200
                        {| error := None; result := noneResult;
                           generatedAt := generatedAt;
                           youtubeFetchedAt := Some youtubeFetchedAt |}
                        600)
          | _ :: _ =>
              vs <- getLiveStreamingDetails ids ;;
              result <- pickStateFromVideos vs ;;
              respond {| error := None; result := result;
                         generatedAt := generatedAt;
                         youtubeFetchedAt := Some youtubeFetchedAt |}
          end)
       (fun e =>
          Rt.ret (Rt.json 200
                    {| error := None; result := noneResult;
                       generatedAt := generatedAt; youtubeFetchedAt := None |}
                    600))).

End Handler.

End GraceApi.

(** ** The search revision with the debug flag: request handler
    (src/unnamed/part_000) *)

Module SearchApi.

(** The JSON bodies of this revision. *)
Inductive Body :=
| error_body (error : string)
| state_body (r : Yt.StateResult)
| debug_body (r : Yt.StateResult) (debugError : string).

Definition noneResult : Yt.StateResult :=
  {| Yt.state := Yt.none; Yt.videoId := None; Yt.upcomingStartMs := None |}.

Record Soonest := mkSoonest { id : string; t : Js.Num }.

Section Handler.

Variable Date_parse : string -> Js.Num.
Variable cfg : Rt.Config.
Variable env : Env.

Definition ytSearch (eventType : string) (maxResults : Z) : Rt.M SearchList.Data :=
  Rt.fetchJson (Rt.search_list eventType maxResults)
    (search env eventType maxResults).

Definition toSoonest (v : Yt.Video) : Soonest :=
  {| id := Yt.id v;
     t := Date_parse (Js.or_empty (Yt.scheduledStart v)) |}.

Definition soonestFirst (a b : Soonest) : Z := Js.cmp_value (Js.sub (t a) (t b)).

Definition pickSoonestUpcoming (limit : Z) : Rt.M (option Soonest) :=
  (upcoming <- ytSearch "upcoming" limit ;;
   let ids :=
     Js.filterBoolean
       (map (fun x => Js.chain (SearchList.id x) SearchList.videoId)
            (Js.or_nil (SearchList.items upcoming))) in
   match ids with
   | [] => Rt.ret None
   | _ :: _ =>
       details <- Rt.fetchJson (Rt.videos_list ids) (videos env ids) ;;
       now <- Rt.Date_now (clock env) ;;
       Rt.ret
         (Js.first
            (Js.sort soonestFirst
               (filter (fun x => Js.truthy_num (t x) && Js.gt (t x) (Some now))
                       (map toSoonest (Js.or_nil (Videos.items details))))))
   end).

(** [items[0].id.videoId] of a search response with at least one item; the
    access throws a [TypeError] when the item has no [id]. *)
Definition firstVideoId (it : SearchList.Item) : Rt.M (option string) :=
  match SearchList.id it with
  | Some i => Rt.ret (SearchList.videoId i)
  | None =>
      Rt.throw (Js.mkError "TypeError"
                  "Cannot read properties of undefined (reading 'videoId')")
  end.

(** [String(e && e.message ? e.message : e)]. *)
Definition debugText (e : Js.Error) : string :=
  if negb (String.eqb (Js.message e) "") then Js.message e
  else Js.Error_toString e.

(** [req.query && String(req.query.debug || "") === "1"]. *)
Definition debugFlag (req : Rt.Request) : bool :=
  match Rt.query req with
  | Some q => String.eqb (Js.or_empty (Rt.debug q)) "1"
  | None => false
  end.

(** Rules 3 and 4 of the handler, reached when there is no upcoming pick. *)
Definition replayOrNone : Rt.M (Rt.Response Body) :=
  (completed <- ytSearch "completed" 1 ;;
   match Js.or_nil (SearchList.items completed) with
   | it :: _ =>
       videoId <- firstVideoId it ;;
       Rt.ret (Rt.json 200
                 (state_body
                    {| Yt.state := Yt.replay; Yt.videoId := videoId;
                       Yt.upcomingStartMs := None |})
                 600)
   | [] => Rt.ret (Rt.json 200 (state_body noneResult) 600)
   end).

Definition handler (req : Rt.Request) : Rt.M (Rt.Response Body) :=
  if String.eqb (Rt.method req) "OPTIONS" then Rt.ret Rt.preflight
  else
    let debug := debugFlag req in
    Rt.try_catch
      (if negb (Js.truthy (Rt.API_KEY cfg)) || negb (Js.truthy (Rt.CHANNEL_ID cfg))
       then Rt.ret (Rt.json 500 (error_body "Missing env vars") 60)
       else
         live <- ytSearch "live" 1 ;;
         match Js.or_nil (SearchList.items live) with
         | it :: _ =>
             videoId <- firstVideoId it ;;
             Rt.ret (Rt.json 200
                       (state_body
                          {| Yt.state := Yt.live; Yt.videoId := videoId;
                             Yt.upcomingStartMs := None |})
                       30)
         | [] =>
             soonest <- pickSoonestUpcoming 10 ;;
             match soonest with
             | Some s =>
                 if negb (String.eqb (id s) "") then
                   now <- Rt.Date_now (clock env) ;;
                   let diff := Js.value (t s) - now in
                   let cacheSeconds :=
                     if diff >? 2 * 60 * 60 * 1000 then 1800
                     else if diff >? 30 * 60 * 1000 then 300
                     else 30 in
                   Rt.ret (Rt.json 200
                             (state_body
                                {| Yt.state := Yt.upcoming;
                                   Yt.videoId := Some (id s);
                                   Yt.upcomingStartMs := t s |})
                             cacheSeconds)
                 else replayOrNone
             | None => replayOrNone
             end
         end)
      (fun e =>
         if debug then
           Rt.ret {| Rt.statusCode := 200;
                     Rt.headers := Rt.setHeader "Cache-Control" "no-store"
                                     (Rt.setCors []);
                     Rt.body := Some (debug_body noneResult (debugText e)) |}
         else Rt.ret (Rt.json 200 (state_body noneResult) 600)).

End Handler.

End SearchApi.

(** ** Vocabulary of the specification *)

Module Claims.

(** A timestamp field is present when the handlers' own test of it
    succeeds, and absent when it fails. *)
Definition present (o : option string) : Prop := Js.truthy o = true.
Definition absent (o : option string) : Prop := Js.truthy o = false.

Section Vocabulary.

Variable Date_parse : string -> Js.Num.
Variable graceMs : Z.
Variable now : Z.

(** The field holds a string that parses to the instant [t]. *)
Definition parsesTo (o : option string) (t : Z) : Prop :=
  exists s, o = Some s /\ Date_parse s = Some t.

(** Rule 1: started and not ended. *)
Definition liveCandidate (v : Yt.Video) : Prop :=
  present (Yt.actualStart v) /\ absent (Yt.actualEnd v).

(** Rule 2: not ended, scheduled strictly after [now]. *)
Definition futureCandidate (v : Yt.Video) (t : Z) : Prop :=
  absent (Yt.actualEnd v) /\ parsesTo (Yt.scheduledStart v) t /\ now < t.

(** Rule 3: not ended, not started, due at most [graceMs] ago. *)
Definition graceCandidate (v : Yt.Video) (t : Z) : Prop :=
  absent (Yt.actualEnd v) /\ absent (Yt.actualStart v) /\
  parsesTo (Yt.scheduledStart v) t /\ t <= now /\ now - t <= graceMs.

(** The order of end times in the words of the specification: an
    unparseable end time is earlier than every parseable one. *)
Definition endsNoLaterThan (a b : Js.Num) : Prop :=
  match a, b with
  | None, _ => True
  | Some _, None => False
  | Some x, Some y => x <= y
  end.

End Vocabulary.

(** The external call [c] failed with the error [e] between the process
    states [p] and [p']. *)
Definition failedDuring (p p' : Rt.Proc) (c : Rt.Call) (e : Js.Error) : Prop :=
  exists new, Rt.trace p' = Rt.trace p ++ new /\ In (c, Some e) new.

(** Entries of calls that succeeded. *)
Definition successes (l : list (Rt.Call * option Js.Error)) : Prop :=
  Forall (fun ce => snd ce = None) l.

(** A computation that stops at the first external call that fails, throwing
    the error of that call. *)
Definition failStop {A : Type} (m : Rt.M A) : Prop :=
  forall p, exists new,
    Rt.trace (snd (m p)) = Rt.trace p ++ new /\
    match fst (m p) with
    | Rt.Returned _ => successes new
    | Rt.Thrown e =>
        successes new \/
        exists pre c, new = pre ++ [(c, Some e)] /\ successes pre
    end.

(** A computation that leaves a memoized identifier in place. *)
Definition keepsMemo {A : Type} (m : Rt.M A) : Prop :=
  forall p id,
    Rt.cachedUploadsPlaylistId p = Some id -> Js.truthy (Some id) = true ->
    Rt.cachedUploadsPlaylistId (snd (m p)) = Some id.

(** The lifetime tiers of the cache derivation, in seconds. *)
Definition singleDigitSeconds (s : Z) : Prop := 1 <= s <= 9.
Definition tensOfSeconds (s : Z) : Prop := 10 <= s < 60.
Definition minutes (s : Z) : Prop := 60 <= s < 600.
Definition tensOfMinutes (s : Z) : Prop := 600 <= s < 3600.

End Claims.

(** ** The playlist revision: request handler (src/api/livestream.js)

    Its [getUploadsPlaylistId], [listRecentUploadVideoIds] and
    [getLiveStreamingDetails] are, word for word, those of the grace-window
    revision; its bodies have the shapes of the search revision. *)

Module PlaylistApi.

Section Handler.

Variable Date_parse : string -> Js.Num.
Variable cfg : Rt.Config.
Variable env : Env.

(** [pickStateFromVideos(videos)], reading [Date.now()] once. *)
Definition pickStateFromVideos (vs : list Yt.Video) : Rt.M Yt.StateResult :=
  (now <- Rt.Date_now (clock env) ;;
   Rt.ret (Playlist.pickStateFromVideos Date_parse now vs)).

(** The lifetime of an [upcoming] result with a start time. *)
Definition upcomingCacheSeconds (now : Z) (upcomingStartMs : Js.Num) : Z :=
  let diff := Js.value upcomingStartMs - now in
  if diff >? 2 * 60 * 60 * 1000 then 1800
  else if diff >? 30 * 60 * 1000 then 300
  else 20.

Definition otherCacheSeconds (result : Yt.StateResult) : Z :=
  if Yt.State_eqb (Yt.state result) Yt.live then 60
  else if Yt.State_eqb (Yt.state result) Yt.replay then 600
  else 600.

Definition respond (result : Yt.StateResult) : Rt.M (Rt.Response SearchApi.Body) :=
  if Grace.isUpcomingWithStart result then
    now <- Rt.Date_now (clock env) ;;
    Rt.ret (Rt.json 200 (SearchApi.state_body result)
              (upcomingCacheSeconds now (Yt.upcomingStartMs result)))
  else
    Rt.ret (Rt.json 200 (SearchApi.state_body result) (otherCacheSeconds result)).

Definition handler (req : Rt.Request) : Rt.M (Rt.Response SearchApi.Body) :=
  if String.eqb (Rt.method req) "OPTIONS" then Rt.ret Rt.preflight
  else
    Rt.try_catch
      (if negb (Js.truthy (Rt.API_KEY cfg)) || negb (Js.truthy (Rt.CHANNEL_ID cfg))
       then Rt.ret (Rt.json 500 (SearchApi.error_body "Missing env vars") 60)
       else
         ids <- GraceApi.listRecentUploadVideoIds env 20 ;;
         match ids with
         | [] => Rt.ret (Rt.json 200 (SearchApi.state_body SearchApi.noneResult) 600)
         | _ :: _ =>
             vs <- GraceApi.getLiveStreamingDetails env ids ;;
             result <- pickStateFromVideos vs ;;
             respond result
         end)
      (fun e =>
         Rt.ret (Rt.json 200 (SearchApi.state_body SearchApi.noneResult) 600)).

End Handler.

End PlaylistApi.

(** ** The search revision without the debug flag: request handler
    (src/unnamed/part_002)

    Its [ytSearch] and [pickSoonestUpcoming] are, word for word, those of the
    revision with the debug flag. *)

Module SearchApi2.

Section Handler.

Variable Date_parse : string -> Js.Num.
Variable cfg : Rt.Config.
Variable env : Env.

(** Rules 3 and 4 of the handler, reached when there is no upcoming pick. *)
Definition replayOrNone : Rt.M (Rt.Response SearchApi.Body) :=
  (completed <- SearchApi.ytSearch env "completed" 1 ;;
   match Js.or_nil (SearchList.items completed) with
   | it :: _ =>
       videoId <- SearchApi.firstVideoId it ;;
       Rt.ret (Rt.json 200
                 (SearchApi.state_body
                    {| Yt.state := Yt.replay; Yt.videoId := videoId;
                       Yt.upcomingStartMs := None |})
                 600)
   | [] => Rt.ret (Rt.json 200 (SearchApi.state_body SearchApi.noneResult) 600)
   end).

Definition handler (req : Rt.Request) : Rt.M (Rt.Response SearchApi.Body) :=
  if String.eqb (Rt.method req) "OPTIONS" then Rt.ret Rt.preflight
  else
    Rt.try_catch
      (if negb (Js.truthy (Rt.API_KEY cfg)) || negb (Js.truthy (Rt.CHANNEL_ID cfg))
       then Rt.ret (Rt.json 500 (SearchApi.error_body "Missing env vars") 60)
       else
         live <- SearchApi.ytSearch env "live" 1 ;;
         match Js.or_nil (SearchList.items live) with
         | it :: _ =>
             videoId <- SearchApi.firstVideoId it ;;
             Rt.ret (Rt.json 200
                       (SearchApi.state_body
                          {| Yt.state := Yt.live; Yt.videoId := videoId;
                             Yt.upcomingStartMs := None |})
                       60)
         | [] =>
             soonest <- SearchApi.pickSoonestUpcoming Date_parse env 10 ;;
             match soonest with
             | Some s =>
                 if negb (String.eqb (SearchApi.id s) "") then
                   now <- Rt.Date_now (clock env) ;;
                   let diff := Js.value (SearchApi.t s) - now in
                   let cacheSeconds :=
                     if diff >? 2 * 60 * 60 * 1000 then 1800
                     else if diff >? 30 * 60 * 1000 then 300
                     else 60 in
                   Rt.ret (Rt.json 200
                             (SearchApi.state_body
                                {| Yt.state := Yt.upcoming;
                                   Yt.videoId := Some (SearchApi.id s);
                                   Yt.upcomingStartMs := SearchApi.t s |})
                             cacheSeconds)
                 else replayOrNone
             | None => replayOrNone
             end
         end)
      (fun e =>
         Rt.ret (Rt.json 200 (SearchApi.state_body SearchApi.noneResult) 600)).

End Handler.

End SearchApi2.

(** ** Vocabulary for the behaviour of the handlers *)

Module Behaviour.

(** The computation returns, from every process state, a value with [Q]. *)
Definition returns {A : Type} (m : Rt.M A) (Q : A -> Prop) : Prop :=
  forall p, exists a, fst (m p) = Rt.Returned a /\ Q a.

(** Whatever the computation returns has [Q]. *)
Definition yields {A : Type} (m : Rt.M A) (Q : A -> Prop) : Prop :=
  forall p a, fst (m p) = Rt.Returned a -> Q a.

(** From a process state with [I], the computation keeps [I] and performs
    at most [n] external calls, all of them [allowed]. *)
Definition callsUnder {A : Type} (I : Rt.Proc -> Prop) (n : nat)
           (allowed : Rt.Call -> Prop) (m : Rt.M A) : Prop :=
  forall p, I p ->
    I (snd (m p)) /\
    exists new,
      Rt.trace (snd (m p)) = Rt.trace p ++ new /\
      (List.length new <= n)%nat /\
      Forall (fun ce => allowed (fst ce)) new.

(** The memo holds the identifier [id]. *)
Definition memoIs (id : string) (p : Rt.Proc) : Prop :=
  Rt.cachedUploadsPlaylistId p = Some id.

(** The three cross-origin headers of [setCors]. *)
Definition hasCors {B : Type} (r : Rt.Response B) : Prop :=
  Rt.header "Access-Control-Allow-Origin" r = Some "*" /\
  Rt.header "Access-Control-Allow-Methods" r = Some "GET, OPTIONS" /\
  Rt.header "Access-Control-Allow-Headers" r = Some "Content-Type".

Definition isSearch (c : Rt.Call) : Prop :=
  match c with
  | Rt.search_list _ _ => True
  | _ => False
  end.

Definition isVideos (c : Rt.Call) : Prop :=
  match c with
  | Rt.videos_list _ => True
  | _ => False
  end.

Definition isChannels (c : Rt.Call) : Prop :=
  match c with
  | Rt.channels_list => True
  | _ => False
  end.

(** Two optional values: both absent, or both present and related. *)
Definition related_option {A B : Type} (R : A -> B -> Prop)
           (x : option A) (y : option B) : Prop :=
  match x, y with
  | Some a, Some b => R a b
  | None, None => True
  | _, _ => False
  end.

(** Two runs of a handler that end in the same process state and answer
    with the same status and body. *)
Definition sameAnswer {B : Type}
           (x y : Rt.Outcome (Rt.Response B) * Rt.Proc) : Prop :=
  snd x = snd y /\
  exists r1 r2,
    fst x = Rt.Returned r1 /\ fst y = Rt.Returned r2 /\
    Rt.statusCode r1 = Rt.statusCode r2 /\ Rt.body r1 = Rt.body r2.

(** The process state after the grace-window handler has served the given
    requests in turn, each against the remote API as it was then. *)
Definition serve (Date_parse : string -> Js.Num) (cfg : Rt.Config)
           (reqs : list (Env * Rt.Request)) (p : Rt.Proc) : Rt.Proc :=
  fold_left
    (fun q er => snd (GraceApi.handler Date_parse cfg (fst er) (snd er) q))
    reqs p.

End Behaviour.

(** ** Sample inputs *)

Module Samples.

Definition video (id : string) (scheduled started ended : option string)
  : Yt.Video :=
  Yt.mkVideo id (Some (Yt.mkDetails scheduled started ended)).

(** 2024-01-01T00:00:00Z, and a grace window of ten minutes. *)
Definition now : Z := 1704067200000.
Definition tenMinutes : Z := 600000.

(** Two broadcasts on air, behind a scheduled one. *)
Definition onAir : list Yt.Video :=
  [ video "a" (Some "2024-01-01T03:00:00Z") None None;
    video "b" (Some "2023-12-31T23:00:00Z") (Some "2023-12-31T23:01:00Z") None;
    video "c" (Some "2023-12-31T23:30:00Z") (Some "2023-12-31T23:30:05Z") None ].

(** A broadcast due four minutes ago, not started, and one in three hours. *)
Definition lateStart : list Yt.Video :=
  [ video "far" (Some "2024-01-01T03:00:00Z") None None;
    video "due" (Some "2023-12-31T23:56:00Z") None None ].

(** A broadcast in two hours and one in ten minutes. *)
Definition twoScheduled : list Yt.Video :=
  [ video "later" (Some "2024-01-01T02:00:00Z") None None;
    video "soon" (Some "2024-01-01T00:10:00Z") None None ].

(** A broadcast due exactly ten minutes ago, not started. *)
Definition dueTenMinutesAgo : list Yt.Video :=
  [ video "due" (Some "2023-12-31T23:50:00Z") None None ].

(** A broadcast due fifteen minutes ago and never started, and one that ended
    an hour ago. *)
Definition missedAndEnded : list Yt.Video :=
  [ video "missed" (Some "2023-12-31T23:45:00Z") None None;
    video "ended" (Some "2023-12-31T22:00:00Z")
      (Some "2023-12-31T22:00:10Z") (Some "2023-12-31T23:00:00Z") ].

(** Two ended broadcasts: one whose end time does not parse, one that ended
    the day before the epoch. *)
Definition brokenAndOld : list Yt.Video :=
  [ video "broken" None (Some "2023-12-31T22:00:00Z") (Some "garbage");
    video "old" None (Some "1969-12-30T23:00:00Z") (Some "1969-12-31T00:00:00Z") ].

(** A broadcast scheduled for 01:00 that went on air early and has already
    ended at 23:00 the evening before. *)
Definition endedEarly : list Yt.Video :=
  [ video "early" (Some "2024-01-01T01:00:00Z")
      (Some "2023-12-31T22:00:00Z") (Some "2023-12-31T23:00:00Z") ].

Definition config : Rt.Config :=
  {| Rt.API_KEY := Some "key"; Rt.CHANNEL_ID := Some "channel";
     Rt.GRACE_MINUTES := 10 |}.

Definition quotaExceeded {A : Type} : Rt.Fetch A :=
  Rt.Responded false 403 "quotaExceeded" (inl (Js.mkError "SyntaxError" "Unexpected token")).

(** A remote API that refuses every request. *)
Definition failing : Env :=
  {| clock := fun n => now + Z.of_nat n;
     channels := quotaExceeded;
     playlistItems := fun _ _ => quotaExceeded;
     videos := fun _ => quotaExceeded;
     search := fun _ _ => quotaExceeded |}.

(** A remote API whose channel lookup answers with no item. *)
Definition noChannel : Env :=
  {| clock := fun n => now + Z.of_nat n;
     channels := Rt.Responded true 200 "{}" (inr (Channels.mkData None));
     playlistItems := fun _ _ => quotaExceeded;
     videos := fun _ => quotaExceeded;
     search := fun _ _ => quotaExceeded |}.

(** A remote API whose channel lookup names the uploads playlist. *)
Definition withChannel : Env :=
  {| clock := fun n => now + Z.of_nat n;
     channels :=
       Rt.Responded true 200 "{...}"
         (inr (Channels.mkData
                 (Some [Channels.mkItem
                          (Some (Channels.mkContent
                                   (Some (Channels.mkRelated (Some "UU123")))))])));
     playlistItems := fun _ _ => quotaExceeded;
     videos := fun _ => quotaExceeded;
     search := fun _ _ => quotaExceeded |}.

Definition fresh : Rt.Proc :=
  {| Rt.cachedUploadsPlaylistId := None; Rt.ticks := 0; Rt.trace := [] |}.

Definition get : Rt.Request :=
  {| Rt.method := "GET"; Rt.query := None |}.

Definition getDebug : Rt.Request :=
  {| Rt.method := "GET"; Rt.query := Some (Rt.mkQuery (Some "1")) |}.

End Samples.

(** ** Sample inputs for whole runs *)

Module Scenarios.

Import Samples.

(** Two broadcasts scheduled for the same instant, one hour ahead. *)
Definition sameHour : list Yt.Video :=
  [ video "first" (Some "2024-01-01T01:00:00Z") None None;
    video "second" (Some "2024-01-01T01:00:00Z") None None ].

(** Three ended broadcasts, the first with an end time that does not parse,
    the last one the most recent, behind a broadcast that was due fifteen
    minutes ago and never started. *)
Definition endedThrice : list Yt.Video :=
  [ video "missed" (Some "2023-12-31T23:45:00Z") None None;
    video "broken" None (Some "2023-12-31T21:00:00Z") (Some "garbage");
    video "earlier" None (Some "2023-12-31T20:00:00Z") (Some "2023-12-31T22:00:00Z");
    video "latest" None (Some "2023-12-31T22:30:00Z") (Some "2023-12-31T23:00:00Z") ].

(** A broadcast scheduled ninety minutes ahead. *)
Definition inNinetyMinutes : list Yt.Video :=
  [ video "show" (Some "2024-01-01T01:30:00Z") None None ].

(** [endedEarly] with the schedule of the ended broadcast removed. *)
Definition endedEarlyUnscheduled : list Yt.Video :=
  [ video "early" None
      (Some "2023-12-31T22:00:00Z") (Some "2023-12-31T23:00:00Z") ].

(** An [upcoming] result due four minutes ago, and one ten minutes ahead. *)
Definition dueResult : Yt.StateResult :=
  Yt.mkResult Yt.upcoming (Some "due") (Some 1704066960000).
Definition soonResult : Yt.StateResult :=
  Yt.mkResult Yt.upcoming (Some "soon") (Some 1704067800000).

(** The uploads playlist: four items, one without [contentDetails] and one
    with an empty [videoId]. *)
Definition uploads : PlaylistItems.Data :=
  PlaylistItems.mkData
    (Some [ PlaylistItems.mkItem (Some (PlaylistItems.mkContent (Some "far")));
            PlaylistItems.mkItem None;
            PlaylistItems.mkItem (Some (PlaylistItems.mkContent (Some "")));
            PlaylistItems.mkItem (Some (PlaylistItems.mkContent (Some "due"))) ]).

Definition details : Videos.Data := Videos.mkData (Some lateStart).

(** A remote API that serves the uploads playlist [UU123] and the details of
    its videos, and has no search. *)
Definition serving : Env :=
  {| clock := fun n => now + Z.of_nat n;
     channels := channels withChannel;
     playlistItems := fun pid _ =>
       if String.eqb pid "UU123"
       then Rt.Responded true 200 "{...}" (inr uploads)
       else quotaExceeded;
     videos := fun _ => Rt.Responded true 200 "{...}" (inr details);
     search := fun _ _ => quotaExceeded |}.

(** A remote API whose search finds one broadcast on air. *)
Definition streaming : Env :=
  {| clock := fun n => now + Z.of_nat n;
     channels := quotaExceeded;
     playlistItems := fun _ _ => quotaExceeded;
     videos := fun _ => quotaExceeded;
     search := fun eventType _ =>
       if String.eqb eventType "live"
       then Rt.Responded true 200 "{...}"
              (inr (SearchList.mkData
                      (Some [SearchList.mkItem
                               (Some (SearchList.mkId (Some "vid")))])))
       else quotaExceeded |}.

(** A process that has looked the uploads playlist up before. *)
Definition warm : Rt.Proc :=
  {| Rt.cachedUploadsPlaylistId := Some "UU123"; Rt.ticks := 0; Rt.trace := [] |}.

Definition options : Rt.Request :=
  {| Rt.method := "OPTIONS"; Rt.query := None |}.

(** A deployment without API key. *)
Definition unconfigured : Rt.Config :=
  {| Rt.API_KEY := None; Rt.CHANNEL_ID := Some "channel";
     Rt.GRACE_MINUTES := 10 |}.

End Scenarios.

(** * Properties *)

(** ** The ISO instance of [Date.parse] on sample timestamps *)

Example iso_epoch : IsoDate.parse "1970-01-01T00:00:00Z" = Some 0.
Proof. reflexivity. Qed.

Example iso_2024 : IsoDate.parse "2024-01-01T00:00:00Z" = Some 1704067200000.
Proof. reflexivity. Qed.

Example iso_1969 : IsoDate.parse "1969-12-31T00:00:00Z" = Some (-86400000).
Proof. reflexivity. Qed.

Example iso_not_a_date : IsoDate.parse "garbage" = None.
Proof. reflexivity. Qed.

Example iso_empty : IsoDate.parse "" = None.
Proof. reflexivity. Qed.

(** ** Arrays: [find], and the first element of a sorted array *)

Section ArrayFacts.

Context {A : Type}.

Lemma find_some (p : A -> bool) (l : list A) (x : A) :
  Js.find p l = Some x ->
  exists l1 l2, l = l1 ++ x :: l2 /\ p x = true /\
                (forall u, In u l1 -> p u = false).
Proof.
  induction l as [|y l IH]; simpl; [discriminate|].
  destruct (p y) eqn:Hy; intros H.
  - injection H as <-. exists [], l. repeat split; auto.
    intros u [].
  - destruct (IH H) as (l1 & l2 & -> & Hx & Hl1).
    exists (y :: l1), l2. repeat split; auto.
    intros u [<-|Hu]; auto.
Qed.

Lemma find_none (p : A -> bool) (l : list A) :
  Js.find p l = None -> forall u, In u l -> p u = false.
Proof.
  induction l as [|y l IH]; simpl; intros H u Hu; [contradiction|].
  destruct (p y) eqn:Hy; [discriminate|].
  destruct Hu as [<-|Hu]; auto.
Qed.

Lemma find_exists (p : A -> bool) (l : list A) (u : A) :
  In u l -> p u = true -> exists x, Js.find p l = Some x.
Proof.
  intros Hu Hp. destruct (Js.find p l) eqn:E; [eauto|].
  rewrite (find_none _ _ E u Hu) in Hp. discriminate.
Qed.

Variable cmp : A -> A -> Z.

Lemma first_insert (x : A) (l : list A) :
  Js.first (Js.insert cmp x l) =
  Some (match Js.first l with
        | None => x
        | Some m => if cmp x m <=? 0 then x else m
        end).
Proof.
  destruct l as [|y l]; simpl; [reflexivity|].
  destruct (cmp x y <=? 0); reflexivity.
Qed.

Lemma first_sort_cons (x : A) (l : list A) :
  Js.first (Js.sort cmp (x :: l)) =
  Some (match Js.first (Js.sort cmp l) with
        | None => x
        | Some m => if cmp x m <=? 0 then x else m
        end).
Proof. unfold Js.sort; simpl. apply first_insert. Qed.

Lemma first_sort_none (l : list A) :
  Js.first (Js.sort cmp l) = None -> l = [].
Proof.
  destruct l as [|x l]; [reflexivity|].
  rewrite first_sort_cons. discriminate.
Qed.

Lemma first_sort_In (l : list A) (m : A) :
  Js.first (Js.sort cmp l) = Some m -> In m l.
Proof.
  revert m. induction l as [|x l IH]; intros m; [discriminate|].
  rewrite first_sort_cons.
  destruct (Js.first (Js.sort cmp l)) as [m'|] eqn:E.
  - destruct (cmp x m' <=? 0); intros [= <-]; [left; reflexivity|].
    right. apply IH. reflexivity.
  - intros [= <-]. left; reflexivity.
Qed.

(** When the comparator orders the elements of the array by an integer key,
    the first element after sorting has the least key, and it is the earliest
    such element of the input. *)
Variable key : A -> Z.
Variable ok : A -> Prop.
Hypothesis cmp_key : forall a b, ok a -> ok b -> (cmp a b <= 0 <-> key a <= key b).

Lemma first_sort_least (l : list A) (m : A) :
  Forall ok l ->
  Js.first (Js.sort cmp l) = Some m ->
  exists l1 l2, l = l1 ++ m :: l2 /\
                (forall y, In y l1 -> key m < key y) /\
                (forall y, In y l2 -> key m <= key y).
Proof.
  revert m. induction l as [|x l IH]; intros m Hok; [discriminate|].
  inversion Hok as [|? ? Hx Hl]; subst.
  rewrite first_sort_cons.
  destruct (Js.first (Js.sort cmp l)) as [m'|] eqn:E.
  - destruct (IH m' Hl eq_refl) as (l1 & l2 & -> & H1 & H2).
    assert (Hm' : ok m').
    { rewrite Forall_forall in Hl. apply Hl, in_elt. }
    destruct (cmp x m' <=? 0) eqn:C; intros [= <-].
    + apply Z.leb_le in C. apply cmp_key in C; auto.
      exists [], (l1 ++ m' :: l2). repeat split; auto.
      * intros y [].
      * intros y Hy. apply in_app_or in Hy.
        destruct Hy as [Hy|[<-|Hy]]; auto.
        -- specialize (H1 y Hy). lia.
        -- specialize (H2 y Hy). lia.
    + apply Z.leb_gt in C.
      assert (key m' < key x).
      { destruct (Z.le_gt_cases (key x) (key m')) as [L|G]; [|lia].
        apply cmp_key in L; auto. lia. }
      exists (x :: l1), l2. repeat split; auto.
      intros y [<-|Hy]; auto.
  - apply first_sort_none in E. subst l. intros [= <-].
    exists [], []. repeat split; auto; intros y [].
Qed.

Lemma first_sort_min (l : list A) (m : A) :
  Forall ok l ->
  Js.first (Js.sort cmp l) = Some m ->
  forall y, In y l -> key m <= key y.
Proof.
  intros Hok Hm y Hy.
  destruct (first_sort_least l m Hok Hm) as (l1 & l2 & -> & H1 & H2).
  apply in_app_or in Hy. destruct Hy as [Hy|[<-|Hy]].
  - specialize (H1 y Hy). lia.
  - lia.
  - auto.
Qed.

End ArrayFacts.

(** ** State selection of the grace-window revision *)

Section GraceSelection.

Variable Date_parse : string -> Js.Num.
Variable GRACE_MS : Z.
Variable now : Z.

(** [Date.parse("")] is [NaN]. *)
Hypothesis Date_parse_empty : Date_parse "" = None.

Local Abbreviation toScheduled := (Grace.toScheduled Date_parse).
Local Abbreviation scheduled := (Grace.scheduled Date_parse).
Local Abbreviation liveCandidate := Claims.liveCandidate.
Local Abbreviation futureCandidate := (Claims.futureCandidate Date_parse now).
Local Abbreviation graceCandidate := (Claims.graceCandidate Date_parse GRACE_MS now).

Lemma truthy_false_not_true (o : option string) :
  Js.truthy o = false <-> ~ Js.truthy o = true.
Proof. destruct (Js.truthy o); split; congruence. Qed.

Lemma isLiveNow_iff (v : Yt.Video) :
  Grace.isLiveNow v = true <-> liveCandidate v.
Proof.
  unfold Grace.isLiveNow, Claims.liveCandidate, Claims.present, Claims.absent.
  rewrite andb_true_iff, negb_true_iff. reflexivity.
Qed.

Lemma parsesTo_iff (o : option string) (t : Z) :
  Claims.parsesTo Date_parse o t <-> Date_parse (Js.or_empty o) = Some t.
Proof.
  unfold Claims.parsesTo. destruct o as [s|]; simpl.
  - split; [intros (s' & [= <-] & H); exact H | eauto].
  - rewrite Date_parse_empty. split; [intros (s & H & _)|]; discriminate.
Qed.

Lemma isGrace_iff (v : Yt.Video) (tv : Z) :
  Grace.t (toScheduled v) = Some tv /\
  Grace.isGrace GRACE_MS now (toScheduled v) = true <->
  graceCandidate v tv.
Proof.
  unfold Grace.isGrace, Claims.graceCandidate, Claims.absent. simpl.
  rewrite parsesTo_iff. split.
  - intros (Ht & H). rewrite Ht in H. simpl in H.
    rewrite !andb_true_iff, !negb_true_iff, !Z.leb_le in H. tauto.
  - intros (He & Hs & Ht & H1 & H2). split; [exact Ht|].
    rewrite Ht. simpl.
    rewrite !andb_true_iff, !negb_true_iff, !Z.leb_le. tauto.
Qed.

Lemma isFuture_iff (v : Yt.Video) (tv : Z) :
  Grace.t (toScheduled v) = Some tv /\
  Grace.isFuture now (toScheduled v) = true <->
  futureCandidate v tv.
Proof.
  unfold Grace.isFuture, Claims.futureCandidate, Claims.absent. simpl.
  rewrite parsesTo_iff. split.
  - intros (Ht & H). rewrite Ht in H. simpl in H.
    rewrite andb_true_iff, negb_true_iff, Z.gtb_ltb, Z.ltb_lt in H. tauto.
  - intros (He & Ht & H1). split; [exact Ht|].
    rewrite Ht. simpl.
    rewrite andb_true_iff, negb_true_iff, Z.gtb_ltb, Z.ltb_lt. tauto.
Qed.

(** What [scheduled.filter(p).sort(cmp)[0]] returns. *)
Section Pick.

Variable p : Grace.Scheduled -> bool.
Variable cmp : Grace.Scheduled -> Grace.Scheduled -> Z.

Local Abbreviation chosen videos := (Js.first (Js.sort cmp (filter p (scheduled videos)))).

Lemma chosen_in (videos : list Yt.Video) (x : Grace.Scheduled) :
  chosen videos = Some x ->
  exists v tv, In v videos /\ x = toScheduled v /\
               Grace.t x = Some tv /\ p x = true.
Proof.
  intros H. apply first_sort_In in H.
  apply filter_In in H. destruct H as (H & Hp).
  apply filter_In in H. destruct H as (H & Hf).
  apply in_map_iff in H. destruct H as (v & <- & Hv).
  destruct (Grace.t (toScheduled v)) as [tv|] eqn:E; [|discriminate].
  exists v, tv. auto.
Qed.

Lemma in_filtered (videos : list Yt.Video) (v : Yt.Video) (tv : Z) :
  In v videos -> Grace.t (toScheduled v) = Some tv -> p (toScheduled v) = true ->
  In (toScheduled v) (filter p (scheduled videos)).
Proof.
  intros Hv Ht Hp. apply filter_In. split; [|exact Hp].
  apply filter_In. split; [apply in_map; exact Hv|].
  rewrite Ht. reflexivity.
Qed.

Lemma chosen_none (videos : list Yt.Video) :
  chosen videos = None ->
  forall v tv, In v videos -> Grace.t (toScheduled v) = Some tv ->
               p (toScheduled v) = false.
Proof.
  intros H v tv Hv Ht. apply first_sort_none in H.
  destruct (p (toScheduled v)) eqn:Hp; [|reflexivity].
  pose proof (in_filtered videos v tv Hv Ht Hp) as Hin.
  rewrite H in Hin. contradiction.
Qed.

Variable key : Grace.Scheduled -> Z.
Hypothesis cmp_key : forall a b,
  Js.isFinite (Grace.t a) = true -> Js.isFinite (Grace.t b) = true ->
  (cmp a b <= 0 <-> key a <= key b).

Lemma chosen_least (videos : list Yt.Video) (x : Grace.Scheduled) :
  chosen videos = Some x ->
  forall v tv, In v videos -> Grace.t (toScheduled v) = Some tv ->
               p (toScheduled v) = true -> key x <= key (toScheduled v).
Proof.
  intros H v tv Hv Ht Hp.
  apply (first_sort_min cmp key (fun a => Js.isFinite (Grace.t a) = true) cmp_key
           (filter p (scheduled videos)) x); auto.
  - apply Forall_forall. intros a Ha.
    apply filter_In in Ha. destruct Ha as (Ha & _).
    apply filter_In in Ha. tauto.
  - eapply in_filtered; eauto.
Qed.

End Pick.

Lemma soonestFirst_key (a b : Grace.Scheduled) :
  Js.isFinite (Grace.t a) = true -> Js.isFinite (Grace.t b) = true ->
  (Grace.soonestFirst a b <= 0 <->
   Js.value (Grace.t a) <= Js.value (Grace.t b)).
Proof.
  unfold Grace.soonestFirst.
  destruct (Grace.t a), (Grace.t b); simpl; try discriminate. lia.
Qed.

Lemma latestFirst_key (a b : Grace.Scheduled) :
  Js.isFinite (Grace.t a) = true -> Js.isFinite (Grace.t b) = true ->
  (Grace.latestFirst a b <= 0 <->
   - Js.value (Grace.t a) <= - Js.value (Grace.t b)).
Proof.
  unfold Grace.latestFirst.
  destruct (Grace.t a), (Grace.t b); simpl; try discriminate. lia.
Qed.

(** The grace pick is a grace candidate with the largest due time. *)
Lemma upcomingGrace_some (videos : list Yt.Video) (x : Grace.Scheduled) :
  Grace.upcomingGrace Date_parse GRACE_MS now videos = Some x ->
  exists v tv, In v videos /\ x = toScheduled v /\ Grace.t x = Some tv /\
               graceCandidate v tv /\
               (forall v' t', In v' videos -> graceCandidate v' t' -> t' <= tv).
Proof.
  intros H. destruct (chosen_in _ _ _ _ H) as (v & tv & Hv & -> & Ht & Hp).
  exists v, tv.
  split; [exact Hv|]. split; [reflexivity|]. split; [exact Ht|]. split.
  - apply isGrace_iff. auto.
  - intros v' t' Hv' Hc. apply isGrace_iff in Hc. destruct Hc as (Ht' & Hp').
    pose proof (chosen_least _ _ _ latestFirst_key _ _ H v' t' Hv' Ht' Hp') as L.
    cbv beta in L. rewrite Ht, Ht' in L. simpl in L. lia.
Qed.

Lemma upcomingGrace_none (videos : list Yt.Video) :
  Grace.upcomingGrace Date_parse GRACE_MS now videos = None ->
  forall v tv, In v videos -> ~ graceCandidate v tv.
Proof.
  intros H v tv Hv Hc. apply isGrace_iff in Hc. destruct Hc as (Ht & Hp).
  rewrite (chosen_none _ _ _ H v tv Hv Ht) in Hp. discriminate.
Qed.

(** The future pick is a future candidate with the smallest start time. *)
Lemma upcomingFuture_some (videos : list Yt.Video) (x : Grace.Scheduled) :
  Grace.upcomingFuture Date_parse now videos = Some x ->
  exists v tv, In v videos /\ x = toScheduled v /\ Grace.t x = Some tv /\
               futureCandidate v tv /\
               (forall v' t', In v' videos -> futureCandidate v' t' -> tv <= t').
Proof.
  intros H. destruct (chosen_in _ _ _ _ H) as (v & tv & Hv & -> & Ht & Hp).
  exists v, tv.
  split; [exact Hv|]. split; [reflexivity|]. split; [exact Ht|]. split.
  - apply isFuture_iff. auto.
  - intros v' t' Hv' Hc. apply isFuture_iff in Hc. destruct Hc as (Ht' & Hp').
    pose proof (chosen_least _ _ _ soonestFirst_key _ _ H v' t' Hv' Ht' Hp') as L.
    cbv beta in L. rewrite Ht, Ht' in L. simpl in L. lia.
Qed.

Lemma upcomingFuture_none (videos : list Yt.Video) :
  Grace.upcomingFuture Date_parse now videos = None ->
  forall v tv, In v videos -> ~ futureCandidate v tv.
Proof.
  intros H v tv Hv Hc. apply isFuture_iff in Hc. destruct Hc as (Ht & Hp).
  rewrite (chosen_none _ _ _ H v tv Hv Ht) in Hp. discriminate.
Qed.

Lemma no_live_find (videos : list Yt.Video) :
  (forall v, In v videos -> ~ liveCandidate v) ->
  Js.find Grace.isLiveNow videos = None.
Proof.
  intros H. destruct (Js.find Grace.isLiveNow videos) as [x|] eqn:E; [|reflexivity].
  destruct (find_some _ _ _ E) as (l1 & l2 & -> & Hx & _).
  exfalso. apply (H x); [apply in_elt | apply isLiveNow_iff; exact Hx].
Qed.

(** C1.  If some candidate has [actualStartTime] present and [actualEndTime]
    absent, the result is [live] with the id of the first such candidate in
    input order and no [upcomingStartMs], whatever the other candidates and
    their scheduled times are. *)
Theorem live_first_candidate_wins (videos : list Yt.Video) :
  (exists v, In v videos /\ liveCandidate v) ->
  exists l1 v l2,
    videos = l1 ++ v :: l2 /\ liveCandidate v /\
    (forall u, In u l1 -> ~ liveCandidate u) /\
    Grace.pickStateFromVideos Date_parse GRACE_MS now videos = Yt.mkResult Yt.live (Some (Yt.id v)) None.
Proof.
  intros (v0 & Hin & Hlive). apply isLiveNow_iff in Hlive.
  destruct (find_exists _ _ _ Hin Hlive) as (v & E).
  destruct (find_some _ _ _ E) as (l1 & l2 & Hsplit & Hv & Hbefore).
  exists l1, v, l2. split; [exact Hsplit|]. split; [apply isLiveNow_iff; exact Hv|].
  split.
  - intros u Hu Hc. apply isLiveNow_iff in Hc.
    rewrite (Hbefore u Hu) in Hc. discriminate.
  - unfold Grace.pickStateFromVideos. rewrite E. reflexivity.
Qed.

(** C2.  With no live candidate: if some candidate is within the grace
    window (not ended, not started, due at most [GRACE_MS] ago), the result is
    [upcoming] with the id and scheduled time of a grace candidate whose
    scheduled time is the largest, even when future candidates exist;
    otherwise, if some candidate is not ended and scheduled strictly after
    [now], the result is [upcoming] with the id and scheduled time of a
    future candidate whose scheduled time is the smallest. *)
Theorem upcoming_grace_then_future (videos : list Yt.Video) :
  (forall v, In v videos -> ~ liveCandidate v) ->
  ((exists v t, In v videos /\ graceCandidate v t) ->
   exists v t, In v videos /\ graceCandidate v t /\
     (forall v' t', In v' videos -> graceCandidate v' t' -> t' <= t) /\
     Grace.pickStateFromVideos Date_parse GRACE_MS now videos = Yt.mkResult Yt.upcoming (Some (Yt.id v)) (Some t))
  /\
  (~ (exists v t, In v videos /\ graceCandidate v t) ->
   (exists v t, In v videos /\ futureCandidate v t) ->
   exists v t, In v videos /\ futureCandidate v t /\
     (forall v' t', In v' videos -> futureCandidate v' t' -> t <= t') /\
     Grace.pickStateFromVideos Date_parse GRACE_MS now videos = Yt.mkResult Yt.upcoming (Some (Yt.id v)) (Some t)).
Proof.
  intros Hnolive. apply no_live_find in Hnolive. split.
  - intros (v0 & t0 & Hin & Hc).
    destruct (Grace.upcomingGrace Date_parse GRACE_MS now videos) as [x|] eqn:E.
    + destruct (upcomingGrace_some _ _ E) as (v & tv & Hv & -> & Ht & Hg & Hmax).
      exists v, tv. split; [exact Hv|]. split; [exact Hg|]. split; [exact Hmax|].
      unfold Grace.pickStateFromVideos. rewrite Hnolive, E. simpl.
      simpl in Ht. rewrite Ht. reflexivity.
    + exfalso. exact (upcomingGrace_none _ E v0 t0 Hin Hc).
  - intros Hnograce (v0 & t0 & Hin & Hc).
    destruct (Grace.upcomingGrace Date_parse GRACE_MS now videos) as [x|] eqn:E.
    { exfalso. apply Hnograce.
      destruct (upcomingGrace_some _ _ E) as (v & tv & Hv & _ & _ & Hg & _).
      eauto. }
    destruct (Grace.upcomingFuture Date_parse now videos) as [x|] eqn:F.
    + destruct (upcomingFuture_some _ _ F) as (v & tv & Hv & -> & Ht & Hf & Hmin).
      exists v, tv. split; [exact Hv|]. split; [exact Hf|]. split; [exact Hmin|].
      unfold Grace.pickStateFromVideos. rewrite Hnolive, E, F. simpl.
      simpl in Ht. rewrite Ht. reflexivity.
    + exfalso. exact (upcomingFuture_none _ F v0 t0 Hin Hc).
Qed.

Lemma no_grace_pick (videos : list Yt.Video) :
  (forall v t, In v videos -> ~ graceCandidate v t) ->
  Grace.upcomingGrace Date_parse GRACE_MS now videos = None.
Proof.
  intros H.
  destruct (Grace.upcomingGrace Date_parse GRACE_MS now videos) as [x|] eqn:E;
    [|reflexivity].
  destruct (upcomingGrace_some _ _ E) as (v & tv & Hv & _ & _ & Hg & _).
  exfalso. exact (H v tv Hv Hg).
Qed.

Lemma no_future_pick (videos : list Yt.Video) :
  (forall v t, In v videos -> ~ futureCandidate v t) ->
  Grace.upcomingFuture Date_parse now videos = None.
Proof.
  intros H.
  destruct (Grace.upcomingFuture Date_parse now videos) as [x|] eqn:E;
    [|reflexivity].
  destruct (upcomingFuture_some _ _ E) as (v & tv & Hv & _ & _ & Hf & _).
  exfalso. exact (H v tv Hv Hf).
Qed.

(** The rank of a completed broadcast in the replay rule: its parsed end
    time, or [0] when the end time does not parse. *)
Local Abbreviation endRank v := (Grace.finiteOr0 (Grace.endTime Date_parse v)).

Lemma mostRecentEndFirst_key (a b : Yt.Video) :
  True -> True ->
  (Grace.mostRecentEndFirst Date_parse a b <= 0 <-> - endRank a <= - endRank b).
Proof. intros _ _. unfold Grace.mostRecentEndFirst. lia. Qed.

Lemma completed_some (videos : list Yt.Video) (c : Yt.Video) :
  Grace.completed Date_parse videos = Some c ->
  In c videos /\ Claims.present (Yt.actualEnd c) /\
  (forall u, In u videos -> Claims.present (Yt.actualEnd u) ->
             endRank u <= endRank c).
Proof.
  intros H. unfold Grace.completed in H.
  pose proof (first_sort_In _ _ _ H) as Hin. apply filter_In in Hin.
  destruct Hin as (Hin & Hc). split; [exact Hin|]. split; [exact Hc|].
  intros u Hu Hpu.
  pose proof (first_sort_min _ (fun v => - endRank v) (fun _ => True)
                mostRecentEndFirst_key
                (filter (fun v => Js.truthy (Yt.actualEnd v)) videos) c) as L.
  cbv beta in L.
  assert (- endRank c <= - endRank u); [|lia].
  apply L; auto.
  - apply Forall_forall. auto.
  - apply filter_In. auto.
Qed.

Lemma completed_exists (videos : list Yt.Video) (u : Yt.Video) :
  In u videos -> Claims.present (Yt.actualEnd u) ->
  exists c, Grace.completed Date_parse videos = Some c.
Proof.
  intros Hu Hp. unfold Grace.completed.
  destruct (Js.first _) as [c|] eqn:E; [eauto|].
  apply first_sort_none in E.
  assert (Hin : In u (filter (fun v => Js.truthy (Yt.actualEnd v)) videos)).
  { apply filter_In. auto. }
  rewrite E in Hin. contradiction.
Qed.

(** The replay rule on arbitrary end times.  When no candidate matches the
    live rule or either upcoming rule and some candidate has [actualEndTime]
    present, the result is [replay], without [upcomingStartMs], with the id
    of a candidate whose end time ranks highest, where an end time that does
    not parse ranks as the instant [0]: whenever an ended candidate has a
    parseable end time after the epoch, the selected one has a parseable end
    time too, at least as late. *)
Theorem replay_latest_end_unparseable_as_zero (videos : list Yt.Video) :
  (forall v, In v videos -> ~ liveCandidate v) ->
  (forall v t, In v videos -> ~ graceCandidate v t) ->
  (forall v t, In v videos -> ~ futureCandidate v t) ->
  (exists v, In v videos /\ Claims.present (Yt.actualEnd v)) ->
  exists v, In v videos /\ Claims.present (Yt.actualEnd v) /\
    (forall u, In u videos -> Claims.present (Yt.actualEnd u) ->
               endRank u <= endRank v) /\
    (forall u tu, In u videos -> Claims.present (Yt.actualEnd u) ->
                  Grace.endTime Date_parse u = Some tu -> 0 < tu ->
                  exists tv, Grace.endTime Date_parse v = Some tv /\ tu <= tv) /\
    Grace.pickStateFromVideos Date_parse GRACE_MS now videos = Yt.mkResult Yt.replay (Some (Yt.id v)) None.
Proof.
  intros Hlive Hgrace Hfuture (u0 & Hu0 & Hp0).
  destruct (completed_exists _ _ Hu0 Hp0) as (c & E).
  destruct (completed_some _ _ E) as (Hc & Hpc & Hmax).
  exists c. split; [exact Hc|]. split; [exact Hpc|]. split; [exact Hmax|]. split.
  - intros u tu Hu Hpu Htu Hpos. specialize (Hmax u Hu Hpu).
    rewrite Htu in Hmax. unfold Grace.finiteOr0 in Hmax.
    destruct (Grace.endTime Date_parse c) as [tc|]; simpl in Hmax; [|lia].
    exists tc. split; [reflexivity | lia].
  - unfold Grace.pickStateFromVideos.
    rewrite (no_live_find _ Hlive), (no_grace_pick _ Hgrace),
      (no_future_pick _ Hfuture), E. reflexivity.
Qed.

(** C3.  On broadcasts whose end times, where they parse, lie after the
    epoch (as every end time reported for a real broadcast does): when no
    candidate matches the live rule or either upcoming rule and some
    candidate has [actualEndTime] present, the result is [replay], without
    [upcomingStartMs], with the id of an ended candidate whose end time is
    the largest, an end time that does not parse counting as earlier than
    every end time that parses. *)
Theorem replay_picks_latest_end (videos : list Yt.Video) :
  (forall v, In v videos -> ~ liveCandidate v) ->
  (forall v t, In v videos -> ~ graceCandidate v t) ->
  (forall v t, In v videos -> ~ futureCandidate v t) ->
  (forall v t, In v videos -> Claims.present (Yt.actualEnd v) ->
               Grace.endTime Date_parse v = Some t -> 0 < t) ->
  (exists v, In v videos /\ Claims.present (Yt.actualEnd v)) ->
  exists v, In v videos /\ Claims.present (Yt.actualEnd v) /\
    (forall u, In u videos -> Claims.present (Yt.actualEnd u) ->
               Claims.endsNoLaterThan (Grace.endTime Date_parse u)
                                      (Grace.endTime Date_parse v)) /\
    Grace.pickStateFromVideos Date_parse GRACE_MS now videos = Yt.mkResult Yt.replay (Some (Yt.id v)) None.
Proof.
  intros Hlive Hgrace Hfuture Hepoch (u0 & Hu0 & Hp0).
  destruct (completed_exists _ _ Hu0 Hp0) as (c & E).
  destruct (completed_some _ _ E) as (Hc & Hpc & Hmax).
  exists c. split; [exact Hc|]. split; [exact Hpc|]. split.
  - intros u Hu Hpu. specialize (Hmax u Hu Hpu).
    unfold Claims.endsNoLaterThan.
    destruct (Grace.endTime Date_parse u) as [tu|] eqn:Eu; [|exact I].
    pose proof (Hepoch u tu Hu Hpu Eu) as Hpos.
    unfold Grace.finiteOr0 in Hmax.
    destruct (Grace.endTime Date_parse c) as [tc|]; simpl in Hmax; lia.
  - unfold Grace.pickStateFromVideos.
    rewrite (no_live_find _ Hlive), (no_grace_pick _ Hgrace),
      (no_future_pick _ Hfuture), E. reflexivity.
Qed.

(** What the upcoming rules can return: an entry of a candidate that is not
    ended, with a finite scheduled time. *)
Lemma upcoming_pick_cases (videos : list Yt.Video) (x : Grace.Scheduled) :
  Js.or_else (Grace.upcomingGrace Date_parse GRACE_MS now videos)
             (Grace.upcomingFuture Date_parse now videos) = Some x ->
  exists v tv, In v videos /\ x = toScheduled v /\ Grace.t x = Some tv /\
    ((Grace.upcomingGrace Date_parse GRACE_MS now videos = Some x /\
      Grace.isGrace GRACE_MS now x = true) \/
     (Grace.upcomingGrace Date_parse GRACE_MS now videos = None /\
      Grace.isFuture now x = true)).
Proof.
  destruct (Grace.upcomingGrace Date_parse GRACE_MS now videos) as [g|] eqn:E;
    simpl; intros H.
  - injection H as <-.
    destruct (chosen_in _ _ _ _ E) as (v & tv & Hv & Hx & Ht & Hp).
    exists v, tv. auto 6.
  - destruct (chosen_in _ _ _ _ H) as (v & tv & Hv & Hx & Ht & Hp).
    exists v, tv. auto 6.
Qed.

Lemma same_id_same_video (videos : list Yt.Video) (a b : Yt.Video) :
  NoDup (map Yt.id videos) -> In a videos -> In b videos ->
  Yt.id a = Yt.id b -> a = b.
Proof.
  induction videos as [|x l IH]; simpl; intros Hnd Ha Hb E; [contradiction|].
  inversion Hnd as [|? ? Hx Hl]; subst.
  destruct Ha as [<-|Ha], Hb as [<-|Hb]; auto.
  - exfalso. apply Hx. rewrite E. apply in_map. exact Hb.
  - exfalso. apply Hx. rewrite <- E. apply in_map. exact Ha.
Qed.

(** The invariant of claim C4 on the grace-window revision: the candidate
    selected by a [live] or an [upcoming] result (by the future rule or by the
    grace rule) has no [actualEndTime]; with distinct ids, the selected id is
    the id of no ended candidate. *)
Theorem grace_selected_candidate_not_ended (videos : list Yt.Video) :
  Yt.state (Grace.pickStateFromVideos Date_parse GRACE_MS now videos) = Yt.live \/
  Yt.state (Grace.pickStateFromVideos Date_parse GRACE_MS now videos) = Yt.upcoming ->
  exists v, In v videos /\ Yt.videoId (Grace.pickStateFromVideos Date_parse GRACE_MS now videos) = Some (Yt.id v) /\
    Claims.absent (Yt.actualEnd v) /\
    (NoDup (map Yt.id videos) ->
     forall u, In u videos -> Claims.present (Yt.actualEnd u) ->
               Yt.videoId (Grace.pickStateFromVideos Date_parse GRACE_MS now videos) <> Some (Yt.id u)).
Proof.
  intros Hstate.
  assert (Hsel : exists v, In v videos /\
            Yt.videoId (Grace.pickStateFromVideos Date_parse GRACE_MS now videos) = Some (Yt.id v) /\
            Claims.absent (Yt.actualEnd v)).
  { unfold Grace.pickStateFromVideos in *.
    destruct (Js.find Grace.isLiveNow videos) as [lv|] eqn:E.
    - destruct (find_some _ _ _ E) as (l1 & l2 & -> & Hlv & _).
      exists lv. split; [apply in_elt|]. split; [reflexivity|].
      apply isLiveNow_iff in Hlv. apply Hlv.
    - destruct (Js.or_else _ _) as [x|] eqn:U.
      + destruct (upcoming_pick_cases _ _ U) as (v & tv & Hv & -> & _ & Hrule).
        exists v. split; [exact Hv|]. split; [reflexivity|].
        unfold Claims.absent, Grace.isGrace, Grace.isFuture in *. simpl in Hrule.
        destruct (Js.truthy (Yt.actualEnd v)); [|reflexivity].
        simpl in Hrule. destruct Hrule as [(_ & F)|(_ & F)]; discriminate.
      + destruct (Grace.completed Date_parse videos); simpl in Hstate;
          destruct Hstate; discriminate. }
  destruct Hsel as (v & Hv & Hid & Habs).
  exists v. split; [exact Hv|]. split; [exact Hid|]. split; [exact Habs|].
  intros Hnd u Hu Hpu Heq. rewrite Hid in Heq. injection Heq as Heq.
  assert (v = u) by (eapply same_id_same_video; eauto). subst u.
  unfold Claims.present, Claims.absent in *. congruence.
Qed.

(** C8.  The empty candidate list yields
    [{state: none, videoId: absent, upcomingStartMs: absent}], for every
    [now] and every grace window. *)
Theorem empty_candidates_none :
  Grace.pickStateFromVideos Date_parse GRACE_MS now [] = Yt.mkResult Yt.none None None.
Proof. reflexivity. Qed.

(** C9.  In every result, [upcomingStartMs] is present exactly when the state
    is [upcoming], and [videoId] is present exactly when the state is not
    [none]. *)
Theorem result_fields_follow_state (videos : list Yt.Video) :
  (Yt.upcomingStartMs (Grace.pickStateFromVideos Date_parse GRACE_MS now videos) <> None <->
   Yt.state (Grace.pickStateFromVideos Date_parse GRACE_MS now videos) = Yt.upcoming) /\
  (Yt.videoId (Grace.pickStateFromVideos Date_parse GRACE_MS now videos) <> None <->
   Yt.state (Grace.pickStateFromVideos Date_parse GRACE_MS now videos) <> Yt.none).
Proof.
  unfold Grace.pickStateFromVideos.
  destruct (Js.find Grace.isLiveNow videos) as [lv|]; simpl.
  { split; split; congruence. }
  destruct (Js.or_else _ _) as [x|] eqn:U; simpl.
  { destruct (upcoming_pick_cases _ _ U) as (v & tv & _ & _ & Ht & _).
    rewrite Ht. split; split; congruence. }
  destruct (Grace.completed Date_parse videos); simpl;
    split; split; congruence.
Qed.

(** C10, as the code has it.  With a grace window that is not negative,
    whenever the result is [upcoming] the returned [upcomingStartMs] is at
    least [now - GRACE_MS] (the bound is attained); it is at most [now]
    exactly when the grace rule selected the candidate, and then the result
    reports a scheduled start up to [GRACE_MS] in the past. *)
Theorem upcoming_start_at_least_now_minus_grace (videos : list Yt.Video) :
  0 <= GRACE_MS ->
  Yt.state (Grace.pickStateFromVideos Date_parse GRACE_MS now videos) = Yt.upcoming ->
  exists v t, In v videos /\
    Grace.pickStateFromVideos Date_parse GRACE_MS now videos = Yt.mkResult Yt.upcoming (Some (Yt.id v)) (Some t) /\
    now - GRACE_MS <= t /\
    (t <= now <->
     Grace.upcomingGrace Date_parse GRACE_MS now videos = Some (toScheduled v)).
Proof.
  intros Hg Hstate. unfold Grace.pickStateFromVideos in *.
  destruct (Js.find Grace.isLiveNow videos) as [lv|]; [discriminate|].
  destruct (Js.or_else _ _) as [x|] eqn:U.
  - destruct (upcoming_pick_cases _ _ U) as (v & tv & Hv & -> & Ht & Hrule).
    exists v, tv. split; [exact Hv|]. split; [rewrite Ht; reflexivity|].
    unfold Grace.isGrace, Grace.isFuture in Hrule. rewrite Ht in Hrule.
    simpl in Hrule.
    destruct Hrule as [(E & R)|(E & R)]; rewrite E.
    + rewrite !andb_true_iff, !Z.leb_le in R. split; [lia|]. tauto.
    + rewrite andb_true_iff, Z.gtb_ltb, Z.ltb_lt in R. split; [lia|].
      split; [lia | discriminate].
  - destruct (Grace.completed Date_parse videos); discriminate.
Qed.

End GraceSelection.

(** The grace window computed from the environment is never negative. *)
Lemma GRACE_MS_nonneg (GRACE_MINUTES : Z) : 0 <= Grace.GRACE_MS_of GRACE_MINUTES.
Proof. unfold Grace.GRACE_MS_of. lia. Qed.

(** ** Cache lifetime of the grace-window revision *)

Section CacheLifetime.

Variable GRACE_MS : Z.
Variable now : Z.

Local Abbreviation cacheSeconds := (Grace.cacheSeconds GRACE_MS now).

(** The derivation on an arbitrary result.  For the state [upcoming] with a
    non-zero [upcomingStartMs] and [diff = upcomingStartMs - now], the lifetime is
    1800 s (tens of minutes) when [diff > 2h], 300 s (minutes) when
    [30m < diff <= 2h], 20 s (tens of seconds) when [0 < diff <= 30m] and
    5 s (single-digit seconds) when [diff <= 0] within the grace window;
    [live] gets 10 s, and [replay] and [none] get 600 s (tens of minutes).
    An [upcoming] result whose [upcomingStartMs] is [0] is handled like a
    result without start time and gets 600 s. *)
Theorem cache_lifetime_tiers (result : Yt.StateResult) :
  (forall start,
     Yt.state result = Yt.upcoming ->
     Yt.upcomingStartMs result = Some start ->
     start <> 0 ->
     (2 * 60 * 60 * 1000 < start - now ->
      cacheSeconds result = 1800 /\ Claims.tensOfMinutes (cacheSeconds result)) /\
     (30 * 60 * 1000 < start - now <= 2 * 60 * 60 * 1000 ->
      cacheSeconds result = 300 /\ Claims.minutes (cacheSeconds result)) /\
     (0 < start - now <= 30 * 60 * 1000 ->
      cacheSeconds result = 20 /\ Claims.tensOfSeconds (cacheSeconds result)) /\
     (start - now <= 0 -> now - start <= GRACE_MS ->
      cacheSeconds result = 5 /\ Claims.singleDigitSeconds (cacheSeconds result))) /\
  (Yt.state result = Yt.upcoming -> Yt.upcomingStartMs result = Some 0 ->
   cacheSeconds result = 600) /\
  (Yt.state result = Yt.live ->
   cacheSeconds result = 10 /\ Claims.tensOfSeconds (cacheSeconds result)) /\
  (Yt.state result = Yt.replay \/ Yt.state result = Yt.none ->
   cacheSeconds result = 600 /\ Claims.tensOfMinutes (cacheSeconds result)).
Proof.
  unfold Grace.cacheSeconds, Grace.isUpcomingWithStart,
    Grace.upcomingCacheSeconds, Grace.otherCacheSeconds,
    Claims.tensOfMinutes, Claims.minutes, Claims.tensOfSeconds,
    Claims.singleDigitSeconds.
  split; [|split; [|split]].
  - intros start Hs Ht Hz. rewrite Hs, Ht.
    unfold Yt.State_eqb, Js.truthy_num, Js.value.
    destruct (Z.eqb_spec start 0) as [|_]; [contradiction|].
    cbv [andb negb].
    change (2 * 60 * 60 * 1000) with 7200000.
    change (30 * 60 * 1000) with 1800000.
    rewrite !Z.gtb_ltb.
    destruct (Z.ltb_spec (start - now) 0);
      destruct (Z.leb_spec (start - now) 0); cbv [andb];
      try destruct (Z.leb_spec (Z.abs (start - now)) GRACE_MS);
      try destruct (Z.leb_spec 0 GRACE_MS);
      destruct (Z.ltb_spec 7200000 (start - now));
      destruct (Z.ltb_spec 1800000 (start - now));
      repeat split; intros; lia.
  - intros Hs Ht. rewrite Hs, Ht. reflexivity.
  - intros Hs. rewrite Hs. simpl. lia.
  - intros [Hs|Hs]; rewrite Hs; simpl; lia.
Qed.

End CacheLifetime.

(** The lifetime of a state that the selection returned.  The handler reads
    the clock once for the selection ([selectedAt]) and once more for the
    lifetime ([now]). *)
Section CacheLifetimeOfSelection.

Variable Date_parse : string -> Js.Num.
Variable GRACE_MS : Z.
Variable selectedAt : Z.
Variable now : Z.

(** With a grace window shorter than the time since the epoch, the selection
    never reports the instant [0] as a start time. *)
Lemma selected_start_not_epoch (videos : list Yt.Video) :
  0 <= GRACE_MS < selectedAt ->
  Yt.state (Grace.pickStateFromVideos Date_parse GRACE_MS selectedAt videos) =
    Yt.upcoming ->
  exists start,
    Yt.upcomingStartMs
      (Grace.pickStateFromVideos Date_parse GRACE_MS selectedAt videos) =
      Some start /\
    start <> 0.
Proof.
  intros Hg Hs. unfold Grace.pickStateFromVideos in *.
  destruct (Js.find Grace.isLiveNow videos); [discriminate|].
  destruct (Js.or_else _ _) as [x|] eqn:U.
  - destruct (upcoming_pick_cases _ _ _ _ _ U) as (v & t & _ & -> & Ht & Hrule).
    exists t. split; [exact Ht|].
    unfold Grace.isGrace, Grace.isFuture in Hrule. rewrite Ht in Hrule.
    simpl in Hrule. destruct Hrule as [(_ & R)|(_ & R)].
    + rewrite !andb_true_iff, !Z.leb_le in R. lia.
    + rewrite andb_true_iff, Z.gtb_ltb, Z.ltb_lt in R. lia.
  - destruct (Grace.completed Date_parse videos); discriminate.
Qed.

(** C5.  With a grace window shorter than the time since the epoch (any
    window against a present-day clock), the lifetime derived from a
    selected state is tiered by state and time-to-start.  For [upcoming],
    with [diff = upcomingStartMs - now]: tens of minutes (1800 s) when
    [diff > 2h], minutes (300 s) when [30m < diff <= 2h], tens of seconds
    (20 s) when [0 < diff <= 30m], and single-digit seconds (5 s) when
    [diff <= 0] within the grace window.  [live] gets tens of seconds (10 s);
    [replay] and [none] get tens of minutes (600 s). *)
Theorem selected_state_lifetime_tiers (videos : list Yt.Video) :
  0 <= GRACE_MS < selectedAt ->
  (Yt.state (Grace.pickStateFromVideos Date_parse GRACE_MS selectedAt videos) =
     Yt.upcoming ->
   exists start,
     Yt.upcomingStartMs
       (Grace.pickStateFromVideos Date_parse GRACE_MS selectedAt videos) =
       Some start /\
     (2 * 60 * 60 * 1000 < start - now ->
      Grace.cacheSeconds GRACE_MS now
        (Grace.pickStateFromVideos Date_parse GRACE_MS selectedAt videos) = 1800 /\
      Claims.tensOfMinutes
        (Grace.cacheSeconds GRACE_MS now
           (Grace.pickStateFromVideos Date_parse GRACE_MS selectedAt videos))) /\
     (30 * 60 * 1000 < start - now <= 2 * 60 * 60 * 1000 ->
      Grace.cacheSeconds GRACE_MS now
        (Grace.pickStateFromVideos Date_parse GRACE_MS selectedAt videos) = 300 /\
      Claims.minutes
        (Grace.cacheSeconds GRACE_MS now
           (Grace.pickStateFromVideos Date_parse GRACE_MS selectedAt videos))) /\
     (0 < start - now <= 30 * 60 * 1000 ->
      Grace.cacheSeconds GRACE_MS now
        (Grace.pickStateFromVideos Date_parse GRACE_MS selectedAt videos) = 20 /\
      Claims.tensOfSeconds
        (Grace.cacheSeconds GRACE_MS now
           (Grace.pickStateFromVideos Date_parse GRACE_MS selectedAt videos))) /\
     (start - now <= 0 -> now - start <= GRACE_MS ->
      Grace.cacheSeconds GRACE_MS now
        (Grace.pickStateFromVideos Date_parse GRACE_MS selectedAt videos) = 5 /\
      Claims.singleDigitSeconds
        (Grace.cacheSeconds GRACE_MS now
           (Grace.pickStateFromVideos Date_parse GRACE_MS selectedAt videos)))) /\
  (Yt.state (Grace.pickStateFromVideos Date_parse GRACE_MS selectedAt videos) =
     Yt.live ->
   Grace.cacheSeconds GRACE_MS now
     (Grace.pickStateFromVideos Date_parse GRACE_MS selectedAt videos) = 10 /\
   Claims.tensOfSeconds
     (Grace.cacheSeconds GRACE_MS now
        (Grace.pickStateFromVideos Date_parse GRACE_MS selectedAt videos))) /\
  (Yt.state (Grace.pickStateFromVideos Date_parse GRACE_MS selectedAt videos) =
     Yt.replay \/
   Yt.state (Grace.pickStateFromVideos Date_parse GRACE_MS selectedAt videos) =
     Yt.none ->
   Grace.cacheSeconds GRACE_MS now
     (Grace.pickStateFromVideos Date_parse GRACE_MS selectedAt videos) = 600 /\
   Claims.tensOfMinutes
     (Grace.cacheSeconds GRACE_MS now
        (Grace.pickStateFromVideos Date_parse GRACE_MS selectedAt videos))).
Proof.
  intros Hg.
  destruct (cache_lifetime_tiers GRACE_MS now
              (Grace.pickStateFromVideos Date_parse GRACE_MS selectedAt videos))
    as (Hup & _ & Hlive & Hrest).
  split; [|split; [exact Hlive | exact Hrest]].
  intros Hs.
  destruct (selected_start_not_epoch videos Hg Hs) as (start & Ht & Hz).
  exists start. split; [exact Ht|].
  exact (Hup start Hs Ht Hz).
Qed.

End CacheLifetimeOfSelection.

(** The handler of the grace-window revision answers a selected state with
    the lifetime [Grace.cacheSeconds], computed at its next clock reading. *)
Lemma respond_lifetime (cfg : Rt.Config) (env : Env) (body : GraceApi.Body)
      (p : Rt.Proc) :
  fst (GraceApi.respond cfg env body p) =
  Rt.Returned
    (Rt.json 200 body
       (Grace.cacheSeconds (GraceApi.GRACE_MS cfg) (clock env (Rt.ticks p))
          (GraceApi.result body))).
Proof.
  unfold GraceApi.respond, Grace.cacheSeconds.
  destruct (Grace.isUpcomingWithStart (GraceApi.result body)); reflexivity.
Qed.

(** ** The memoized uploads-playlist lookup *)

Section UploadsPlaylist.

Lemma whenTruthy_some (o : option string) (s : string) :
  Js.whenTruthy o = Some s -> o = Some s /\ Js.truthy o = true.
Proof.
  destruct o as [x|]; simpl; [|discriminate].
  destruct (String.eqb x ""); simpl; [discriminate|].
  intros [= <-]. split; reflexivity.
Qed.

Lemma whenTruthy_hit (s : string) :
  Js.truthy (Some s) = true -> Js.whenTruthy (Some s) = Some s.
Proof. simpl. destruct (String.eqb s ""); [discriminate|reflexivity]. Qed.

Lemma whenTruthy_falsy (o : option string) :
  Js.whenTruthy o = None <-> Js.truthy o = false.
Proof.
  destruct o as [x|]; simpl; [|tauto].
  destruct (String.eqb x ""); simpl; split; congruence.
Qed.

(** Once the memo holds an identifier, a call returns it and leaves the
    whole process state, trace of external calls included, as it was. *)
Lemma getUploadsPlaylistId_hit (env : Env) (q : Rt.Proc) (id : string) :
  Rt.cachedUploadsPlaylistId q = Some id -> Js.truthy (Some id) = true ->
  GraceApi.getUploadsPlaylistId env q = (Rt.Returned id, q).
Proof.
  intros Hc Ht. unfold GraceApi.getUploadsPlaylistId.
  rewrite Hc, (whenTruthy_hit _ Ht). reflexivity.
Qed.

Lemma keepsMemo_same {A : Type} (m : Rt.M A) :
  (forall p, Rt.cachedUploadsPlaylistId (snd (m p)) = Rt.cachedUploadsPlaylistId p) ->
  Claims.keepsMemo m.
Proof. intros H p id Hc _. rewrite H. exact Hc. Qed.

Lemma keepsMemo_ret {A : Type} (a : A) : Claims.keepsMemo (Rt.ret a).
Proof. apply keepsMemo_same. reflexivity. Qed.

Lemma keepsMemo_throw {A : Type} (e : Js.Error) : Claims.keepsMemo (@Rt.throw A e).
Proof. apply keepsMemo_same. reflexivity. Qed.

Lemma keepsMemo_Date_now (clock : nat -> Z) : Claims.keepsMemo (Rt.Date_now clock).
Proof. apply keepsMemo_same. reflexivity. Qed.

Lemma keepsMemo_fetchJson {A : Type} (c : Rt.Call) (r : Rt.Fetch A) :
  Claims.keepsMemo (Rt.fetchJson c r).
Proof.
  apply keepsMemo_same. intros p. unfold Rt.fetchJson.
  destruct r as [e|ok status text [e|a]]; try destruct ok; reflexivity.
Qed.

Lemma keepsMemo_bind {A B : Type} (m : Rt.M A) (k : A -> Rt.M B) :
  Claims.keepsMemo m -> (forall a, Claims.keepsMemo (k a)) ->
  Claims.keepsMemo (Rt.bind m k).
Proof.
  intros Hm Hk p id Hc Ht. unfold Rt.bind.
  specialize (Hm p id Hc Ht).
  destruct (m p) as [[a|e] p1]; simpl in *; [|exact Hm].
  apply Hk; assumption.
Qed.

Lemma keepsMemo_try_catch {A : Type} (m : Rt.M A) (h : Js.Error -> Rt.M A) :
  Claims.keepsMemo m -> (forall e, Claims.keepsMemo (h e)) ->
  Claims.keepsMemo (Rt.try_catch m h).
Proof.
  intros Hm Hh p id Hc Ht. unfold Rt.try_catch.
  specialize (Hm p id Hc Ht).
  destruct (m p) as [[a|e] p1]; simpl in *; [exact Hm|].
  apply Hh; assumption.
Qed.

Lemma keepsMemo_getUploadsPlaylistId (env : Env) :
  Claims.keepsMemo (GraceApi.getUploadsPlaylistId env).
Proof.
  intros p id Hc Ht. rewrite (getUploadsPlaylistId_hit env p id Hc Ht). exact Hc.
Qed.

Create HintDb memo.

#[local] Hint Resolve keepsMemo_ret keepsMemo_throw keepsMemo_Date_now
  keepsMemo_fetchJson keepsMemo_getUploadsPlaylistId : memo.

(** Proves [keepsMemo] for a computation built from the primitives. *)
Ltac keepsmemo :=
  repeat first
    [ progress eauto with memo nocore
    | apply keepsMemo_bind; [|intros ?]
    | apply keepsMemo_try_catch; [|intros ?]
    | match goal with
      | |- Claims.keepsMemo (match ?x with _ => _ end) => destruct x
      | |- Claims.keepsMemo (if ?b then _ else _) => destruct b
      end ].

(** Handling a request leaves a memoized identifier in place. *)
Lemma keepsMemo_handler (Date_parse : string -> Js.Num) (cfg : Rt.Config)
      (env : Env) (req : Rt.Request) :
  Claims.keepsMemo (GraceApi.handler Date_parse cfg env req).
Proof.
  unfold GraceApi.handler, GraceApi.listRecentUploadVideoIds,
    GraceApi.getLiveStreamingDetails, GraceApi.pickStateFromVideos,
    GraceApi.respond.
  keepsmemo.
Qed.

(** C7.  [getUploadsPlaylistId] throws when the lookup yields no uploads
    playlist identifier, and whenever it throws the memoized value is left as
    it was, unset; after a successful call the memo holds the returned
    identifier, handling further requests leaves it in place, and every later
    call, whatever the remote API would answer, returns that same identifier
    and performs no external call (the process state, with its trace of
    calls, is unchanged). *)
Theorem getUploadsPlaylistId_memoizes (env : Env) (p : Rt.Proc) :
  (forall status text data,
     Js.truthy (Rt.cachedUploadsPlaylistId p) = false ->
     channels env = Rt.Responded true status text (inr data) ->
     Js.truthy (GraceApi.uploadsOf data) = false ->
     exists p',
       GraceApi.getUploadsPlaylistId env p =
         (Rt.Thrown (Js.mkError "Error" "Could not resolve uploads playlist ID"), p')
       /\ Rt.cachedUploadsPlaylistId p' = Rt.cachedUploadsPlaylistId p) /\
  (forall e p',
     GraceApi.getUploadsPlaylistId env p = (Rt.Thrown e, p') ->
     Rt.cachedUploadsPlaylistId p' = Rt.cachedUploadsPlaylistId p /\
     Js.truthy (Rt.cachedUploadsPlaylistId p') = false) /\
  (forall id p',
     GraceApi.getUploadsPlaylistId env p = (Rt.Returned id, p') ->
     Rt.cachedUploadsPlaylistId p' = Some id /\
     (forall Date_parse cfg env' req q,
        Rt.cachedUploadsPlaylistId q = Rt.cachedUploadsPlaylistId p' ->
        Rt.cachedUploadsPlaylistId
          (snd (GraceApi.handler Date_parse cfg env' req q)) =
        Rt.cachedUploadsPlaylistId p') /\
     forall env' q,
       Rt.cachedUploadsPlaylistId q = Rt.cachedUploadsPlaylistId p' ->
       GraceApi.getUploadsPlaylistId env' q = (Rt.Returned id, q)).
Proof.
  unfold GraceApi.getUploadsPlaylistId at 1 2 3.
  destruct (Js.whenTruthy (Rt.cachedUploadsPlaylistId p)) as [cached|] eqn:C.
  - apply whenTruthy_some in C. destruct C as (C & T).
    split; [|split].
    + intros ? ? ? F. congruence.
    + intros e p' [=].
    + intros id p' [= <- <-]. split; [exact C|]. split.
      * intros Date_parse cfg env' req q Hq. rewrite C in *.
        apply keepsMemo_handler; assumption.
      * intros env' q Hq. apply getUploadsPlaylistId_hit; congruence.
  - apply whenTruthy_falsy in C.
    unfold Rt.bind, Rt.fetchJson.
    split; [|split].
    + intros status text data _ R U. rewrite R. simpl.
      apply whenTruthy_falsy in U. rewrite U. simpl.
      eexists. split; reflexivity.
    + intros e p'.
      destruct (channels env) as [e0|ok status text [e0|data]]; simpl.
      * intros [= <- <-]. auto.
      * destruct ok; simpl; intros [= <- <-]; auto.
      * destruct ok; simpl; [|intros [= <- <-]; auto].
        destruct (Js.whenTruthy (GraceApi.uploadsOf data)); simpl;
          [discriminate | intros [= <- <-]; auto].
    + intros id p'.
      destruct (channels env) as [e0|ok status text [e0|data]]; simpl.
      * discriminate.
      * destruct ok; discriminate.
      * destruct ok; simpl; [|discriminate].
        destruct (Js.whenTruthy (GraceApi.uploadsOf data)) as [u|] eqn:U;
          simpl; [|discriminate].
        intros [= <- <-]. simpl.
        apply whenTruthy_some in U. destruct U as (U & T). rewrite U in T.
        split; [reflexivity|]. split.
        -- intros Date_parse cfg env' req q Hq.
           apply keepsMemo_handler; assumption.
        -- intros env' q Hq. apply getUploadsPlaylistId_hit; assumption.
Qed.

End UploadsPlaylist.

(** ** Failing external calls *)

Section FailStop.

Lemma successes_app (l1 l2 : list (Rt.Call * option Js.Error)) :
  Claims.successes l1 -> Claims.successes l2 -> Claims.successes (l1 ++ l2).
Proof. unfold Claims.successes. intros. apply Forall_app. auto. Qed.

Lemma successes_no_failure (l : list (Rt.Call * option Js.Error))
      (c : Rt.Call) (e : Js.Error) :
  Claims.successes l -> ~ In (c, Some e) l.
Proof.
  unfold Claims.successes. rewrite Forall_forall. intros H Hin.
  specialize (H _ Hin). discriminate.
Qed.

Lemma failStop_quiet {A : Type} (m : Rt.M A) :
  (forall p, Rt.trace (snd (m p)) = Rt.trace p) -> Claims.failStop m.
Proof.
  intros H p. exists []. rewrite app_nil_r. split; [apply H|].
  destruct (fst (m p)); [|left]; constructor.
Qed.

Lemma failStop_ret {A : Type} (a : A) : Claims.failStop (Rt.ret a).
Proof. apply failStop_quiet. reflexivity. Qed.

Lemma failStop_throw {A : Type} (e : Js.Error) : Claims.failStop (@Rt.throw A e).
Proof. apply failStop_quiet. reflexivity. Qed.

Lemma failStop_Date_now (clock : nat -> Z) : Claims.failStop (Rt.Date_now clock).
Proof. apply failStop_quiet. reflexivity. Qed.

Lemma failStop_set_cached (u : string) : Claims.failStop (GraceApi.set_cached u).
Proof. apply failStop_quiet. reflexivity. Qed.

Lemma failStop_fetchJson {A : Type} (c : Rt.Call) (r : Rt.Fetch A) :
  Claims.failStop (Rt.fetchJson c r).
Proof.
  intros p. unfold Rt.fetchJson.
  destruct r as [e|ok status text [e|a]]; [| destruct ok | destruct ok]; simpl;
    eexists; (split; [reflexivity|]);
    try (right; exists [], c; split; [reflexivity | constructor]).
  repeat constructor.
Qed.

Lemma failStop_bind {A B : Type} (m : Rt.M A) (k : A -> Rt.M B) :
  Claims.failStop m -> (forall a, Claims.failStop (k a)) ->
  Claims.failStop (Rt.bind m k).
Proof.
  intros Hm Hk p. unfold Rt.bind.
  destruct (Hm p) as (new1 & T1 & O1).
  destruct (m p) as [[a|e] p1]; simpl in *.
  - destruct (Hk a p1) as (new2 & T2 & O2).
    exists (new1 ++ new2). rewrite T2, T1, app_assoc. split; [reflexivity|].
    destruct (fst (k a p1)) as [b|e].
    + apply successes_app; assumption.
    + destruct O2 as [O2|(pre & c & -> & O2)].
      * left. apply successes_app; assumption.
      * right. exists (new1 ++ pre), c. rewrite app_assoc.
        split; [reflexivity | apply successes_app; assumption].
  - exists new1. auto.
Qed.

(** A failed call inside [try { m } catch (e) { h e }] hands its error to
    the handler [h], when [h] performs no external call itself. *)
Lemma try_catch_failed {A : Type} (m : Rt.M A) (h : Js.Error -> Rt.M A)
      (p : Rt.Proc) (c : Rt.Call) (e : Js.Error) :
  Claims.failStop m ->
  (forall e' q, Rt.trace (snd (h e' q)) = Rt.trace q) ->
  Claims.failedDuring p (snd (Rt.try_catch m h p)) c e ->
  exists q, Rt.try_catch m h p = h e q.
Proof.
  intros Hm Hh (new & T & Hin). unfold Rt.try_catch in *.
  destruct (Hm p) as (new1 & T1 & O1).
  destruct (m p) as [[a|e1] p1]; simpl in *.
  - rewrite T1 in T. apply app_inv_head in T. subst new1.
    exfalso. exact (successes_no_failure _ c e O1 Hin).
  - rewrite Hh, T1 in T. apply app_inv_head in T. subst new1.
    destruct O1 as [O1|(pre & c1 & -> & O1)].
    + exfalso. exact (successes_no_failure _ c e O1 Hin).
    + apply in_app_or in Hin. destruct Hin as [Hin|[Hin|[]]].
      * exfalso. exact (successes_no_failure _ c e O1 Hin).
      * injection Hin as -> ->. exists p1. reflexivity.
Qed.

(** The same with a clock reading taken before the [try]. *)
Lemma stamped_try_catch_failed {A : Type} (clock : nat -> Z)
      (m : Z -> Rt.M A) (h : Z -> Js.Error -> Rt.M A)
      (p : Rt.Proc) (c : Rt.Call) (e : Js.Error) :
  (forall g, Claims.failStop (m g)) ->
  (forall g e' q, Rt.trace (snd (h g e' q)) = Rt.trace q) ->
  Claims.failedDuring p
    (snd (Rt.bind (Rt.Date_now clock) (fun g => Rt.try_catch (m g) (h g)) p)) c e ->
  exists q,
    Rt.bind (Rt.Date_now clock) (fun g => Rt.try_catch (m g) (h g)) p =
    h (clock (Rt.ticks p)) e q.
Proof.
  intros Hm Hh F. unfold Rt.bind, Rt.Date_now in *. simpl in *.
  eapply try_catch_failed; [apply Hm | apply Hh | exact F].
Qed.

Lemma no_call_no_failure (p p' : Rt.Proc) (c : Rt.Call) (e : Js.Error) :
  Rt.trace p' = Rt.trace p -> ~ Claims.failedDuring p p' c e.
Proof.
  intros E (new & T & Hin). rewrite E in T.
  rewrite <- (app_nil_r (Rt.trace p)) in T at 1.
  apply app_inv_head in T. subst new. contradiction.
Qed.

End FailStop.

Create HintDb failstop.

#[local] Hint Resolve failStop_ret failStop_throw failStop_Date_now
  failStop_set_cached failStop_fetchJson : failstop.

(** Proves [failStop] for a computation built from the primitives with
    [bind] and case distinctions. *)
Ltac failstop :=
  repeat first
    [ progress eauto with failstop nocore
    | apply failStop_bind; [|intros ?]
    | match goal with
      | |- Claims.failStop (match ?x with _ => _ end) => destruct x
      | |- Claims.failStop (if ?b then _ else _) => destruct b
      end ].

(** ** The search revision with the debug flag: failures *)

Section SearchFailures.

Variable Date_parse : string -> Js.Num.
Variable cfg : Rt.Config.
Variable env : Env.

Lemma failStop_ytSearch (eventType : string) (maxResults : Z) :
  Claims.failStop (SearchApi.ytSearch env eventType maxResults).
Proof. unfold SearchApi.ytSearch. failstop. Qed.

Lemma failStop_firstVideoId (it : SearchList.Item) :
  Claims.failStop (SearchApi.firstVideoId it).
Proof. unfold SearchApi.firstVideoId. failstop. Qed.

Lemma failStop_pickSoonestUpcoming (limit : Z) :
  Claims.failStop (SearchApi.pickSoonestUpcoming Date_parse env limit).
Proof.
  unfold SearchApi.pickSoonestUpcoming.
  apply failStop_bind; [apply failStop_ytSearch|intros upcoming].
  failstop.
Qed.

Lemma failStop_replayOrNone : Claims.failStop (SearchApi.replayOrNone env).
Proof.
  unfold SearchApi.replayOrNone.
  apply failStop_bind; [apply failStop_ytSearch|intros completed].
  destruct (Js.or_nil _); [failstop|].
  apply failStop_bind; [apply failStop_firstVideoId|intros]. failstop.
Qed.

(** The search revision: a failed call ends in the [catch] block, which
    answers by the debug flag. *)
Lemma search_failure_response (req : Rt.Request) (p : Rt.Proc)
      (c : Rt.Call) (e : Js.Error) :
  Claims.failedDuring p (snd (SearchApi.handler Date_parse cfg env req p)) c e ->
  exists resp,
    fst (SearchApi.handler Date_parse cfg env req p) = Rt.Returned resp /\
    Rt.statusCode resp = 200 /\
    (SearchApi.debugFlag req = false ->
     resp = Rt.json 200 (SearchApi.state_body (Yt.mkResult Yt.none None None)) 600 /\
     Rt.header "Cache-Control" resp =
       Some "s-maxage=600, stale-while-revalidate=30") /\
    (SearchApi.debugFlag req = true ->
     Rt.body resp =
       Some (SearchApi.debug_body (Yt.mkResult Yt.none None None)
               (SearchApi.debugText e)) /\
     (Js.message e <> "" -> SearchApi.debugText e = Js.message e) /\
     Rt.header "Cache-Control" resp = Some "no-store").
Proof.
  unfold SearchApi.handler.
  destruct (String.eqb (Rt.method req) "OPTIONS").
  { intros F. exfalso. revert F. apply no_call_no_failure. reflexivity. }
  intros F. apply try_catch_failed in F.
  - destruct F as (q & ->).
    destruct (SearchApi.debugFlag req); simpl.
    + eexists. split; [reflexivity|]. split; [reflexivity|].
      split; [discriminate|]. intros _. split; [reflexivity|].
      split; [|reflexivity].
      intros Hm. unfold SearchApi.debugText.
      destruct (String.eqb_spec (Js.message e) ""); [contradiction|reflexivity].
    + eexists. split; [reflexivity|]. split; [reflexivity|].
      split; [|discriminate]. intros _. split; reflexivity.
  - destruct (_ || _); [failstop|].
    apply failStop_bind; [apply failStop_ytSearch|intros live].
    destruct (Js.or_nil _).
    + apply failStop_bind; [apply failStop_pickSoonestUpcoming|intros soonest].
      destruct soonest as [s|]; [|apply failStop_replayOrNone].
      destruct (negb _); [failstop|apply failStop_replayOrNone].
    + apply failStop_bind; [apply failStop_firstVideoId|intros]. failstop.
  - intros e' q. destruct (SearchApi.debugFlag req); reflexivity.
Qed.

End SearchFailures.

(** ** The grace-window revision: failures *)

Section GraceFailures.

Variable Date_parse : string -> Js.Num.
Variable cfg : Rt.Config.
Variable env : Env.

Lemma failStop_getUploadsPlaylistId :
  Claims.failStop (GraceApi.getUploadsPlaylistId env).
Proof.
  intros p. unfold GraceApi.getUploadsPlaylistId.
  destruct (Js.whenTruthy (Rt.cachedUploadsPlaylistId p)).
  - exists []. rewrite app_nil_r. split; [reflexivity | constructor].
  - revert p. change (Claims.failStop
      (data <- Rt.fetchJson Rt.channels_list (channels env) ;;
       match Js.whenTruthy (GraceApi.uploadsOf data) with
       | Some uploads => _ <- GraceApi.set_cached uploads ;; Rt.ret uploads
       | None =>
           Rt.throw (Js.mkError "Error" "Could not resolve uploads playlist ID")
       end)).
    failstop.
Qed.

Lemma failStop_listRecentUploadVideoIds (maxResults : Z) :
  Claims.failStop (GraceApi.listRecentUploadVideoIds env maxResults).
Proof.
  unfold GraceApi.listRecentUploadVideoIds.
  apply failStop_bind; [apply failStop_getUploadsPlaylistId|intros]. failstop.
Qed.

Lemma failStop_getLiveStreamingDetails (ids : list string) :
  Claims.failStop (GraceApi.getLiveStreamingDetails env ids).
Proof. unfold GraceApi.getLiveStreamingDetails. failstop. Qed.

Lemma failStop_pickStateFromVideos (vs : list Yt.Video) :
  Claims.failStop (GraceApi.pickStateFromVideos Date_parse cfg env vs).
Proof. unfold GraceApi.pickStateFromVideos. failstop. Qed.

(** The grace-window revision: a failed call ends in the [catch] block,
    which always answers with the cached default; the request's query is not
    read. *)
Lemma grace_failure_response (req : Rt.Request) (p : Rt.Proc)
      (c : Rt.Call) (e : Js.Error) :
  Claims.failedDuring p (snd (GraceApi.handler Date_parse cfg env req p)) c e ->
  fst (GraceApi.handler Date_parse cfg env req p) =
    Rt.Returned
      (Rt.json 200
         {| GraceApi.error := None;
            GraceApi.result := Yt.mkResult Yt.none None None;
            GraceApi.generatedAt := clock env (Rt.ticks p);
            GraceApi.youtubeFetchedAt := None |}
         600).
Proof.
  unfold GraceApi.handler.
  destruct (String.eqb (Rt.method req) "OPTIONS").
  { intros F. exfalso. revert F. apply no_call_no_failure. reflexivity. }
  intros F. apply stamped_try_catch_failed in F.
  - destruct F as (q & ->). reflexivity.
  - intros generatedAt. destruct (_ || _); [failstop|].
    apply failStop_bind; [apply failStop_listRecentUploadVideoIds|intros ids].
    apply failStop_bind; [failstop|intros fetchedAt].
    destruct ids; [failstop|].
    apply failStop_bind; [apply failStop_getLiveStreamingDetails|intros vs].
    apply failStop_bind; [apply failStop_pickStateFromVideos|intros result].
    unfold GraceApi.respond. failstop.
  - reflexivity.
Qed.

End GraceFailures.

(** C6, as the code has it.  Whenever an external call fails during a
    request, the handler answers with status 200 and the well-formed body
    [{state: none, videoId: null, upcomingStartMs: null}] cached with
    [s-maxage=600].  The search revision reads the debug flag: when it is set,
    the body carries the message of the failed call's error as [debugError]
    and the response is [no-store].  The grace-window revision reads no debug
    flag: its answer is the cached default (with its freshness stamps) for
    every request. *)
Theorem failure_gives_safe_default
        (Date_parse : string -> Js.Num) (cfg : Rt.Config) (env : Env)
        (req : Rt.Request) (p : Rt.Proc) (c : Rt.Call) (e : Js.Error) :
  (Claims.failedDuring p (snd (SearchApi.handler Date_parse cfg env req p)) c e ->
   exists resp,
     fst (SearchApi.handler Date_parse cfg env req p) = Rt.Returned resp /\
     Rt.statusCode resp = 200 /\
     (SearchApi.debugFlag req = false ->
      resp = Rt.json 200 (SearchApi.state_body (Yt.mkResult Yt.none None None)) 600 /\
      Rt.header "Cache-Control" resp =
        Some "s-maxage=600, stale-while-revalidate=30") /\
     (SearchApi.debugFlag req = true ->
      Rt.body resp =
        Some (SearchApi.debug_body (Yt.mkResult Yt.none None None)
                (SearchApi.debugText e)) /\
      (Js.message e <> "" -> SearchApi.debugText e = Js.message e) /\
      Rt.header "Cache-Control" resp = Some "no-store")) /\
  (Claims.failedDuring p (snd (GraceApi.handler Date_parse cfg env req p)) c e ->
   exists resp,
     fst (GraceApi.handler Date_parse cfg env req p) = Rt.Returned resp /\
     Rt.statusCode resp = 200 /\
     Rt.body resp =
       Some {| GraceApi.error := None;
               GraceApi.result := Yt.mkResult Yt.none None None;
               GraceApi.generatedAt := clock env (Rt.ticks p);
               GraceApi.youtubeFetchedAt := None |} /\
     Rt.header "Cache-Control" resp =
       Some "s-maxage=600, stale-while-revalidate=30").
Proof.
  split.
  - apply search_failure_response.
  - intros F. apply grace_failure_response in F.
    eexists. split; [exact F|]. repeat split.
Qed.

(** ** The properties on concrete inputs *)

Section Runs.

Import Samples.

Local Abbreviation graceCandidate := (Claims.graceCandidate IsoDate.parse tenMinutes now).
Local Abbreviation futureCandidate := (Claims.futureCandidate IsoDate.parse now).

(** Solves [parsesTo] and the bounds of a candidate on a concrete video. *)
Ltac parsed H :=
  let s := fresh "s" in
  let Hs := fresh "Hs" in
  let Hp := fresh "Hp" in
  destruct H as (s & Hs & Hp); injection Hs as <-; vm_compute in Hp;
  injection Hp as <-.

(** C1 on two broadcasts on air behind a scheduled one: the first one on air
    is selected. *)
Lemma live_first_candidate_wins_witness :
  (exists v, In v onAir /\ Claims.liveCandidate v) /\
  exists l1 v l2,
    onAir = l1 ++ v :: l2 /\ Claims.liveCandidate v /\
    (forall u, In u l1 -> ~ Claims.liveCandidate u) /\
    Grace.pickStateFromVideos IsoDate.parse tenMinutes now onAir = Yt.mkResult Yt.live (Some (Yt.id v)) None.
Proof.
  assert (H : exists v, In v onAir /\ Claims.liveCandidate v).
  { exists (video "c" (Some "2023-12-31T23:30:00Z")
                  (Some "2023-12-31T23:30:05Z") None).
    split; [simpl; auto | split; reflexivity]. }
  split; [exact H|].
  exact (live_first_candidate_wins IsoDate.parse tenMinutes now onAir H).
Defined.

(** C2 on a broadcast due four minutes ago and one in three hours: the due
    one is selected; and on a broadcast in two hours and one in ten minutes:
    the sooner one is selected. *)
Lemma upcoming_grace_then_future_witness :
  IsoDate.parse "" = None /\
  (forall v, In v lateStart -> ~ Claims.liveCandidate v) /\
  (forall v, In v twoScheduled -> ~ Claims.liveCandidate v) /\
  (exists v t, In v lateStart /\ graceCandidate v t /\
     (forall v' t', In v' lateStart -> graceCandidate v' t' -> t' <= t) /\
     Grace.pickStateFromVideos IsoDate.parse tenMinutes now lateStart =
       Yt.mkResult Yt.upcoming (Some (Yt.id v)) (Some t)) /\
  (exists v t, In v twoScheduled /\ futureCandidate v t /\
     (forall v' t', In v' twoScheduled -> futureCandidate v' t' -> t <= t') /\
     Grace.pickStateFromVideos IsoDate.parse tenMinutes now twoScheduled =
       Yt.mkResult Yt.upcoming (Some (Yt.id v)) (Some t)).
Proof.
  split; [reflexivity|].
  assert (Hnl : forall v, In v lateStart -> ~ Claims.liveCandidate v).
  { intros v [<-|[<-|[]]] [Hs _]; discriminate Hs. }
  assert (Hnl2 : forall v, In v twoScheduled -> ~ Claims.liveCandidate v).
  { intros v [<-|[<-|[]]] [Hs _]; discriminate Hs. }
  split; [exact Hnl|]. split; [exact Hnl2|]. split.
  - apply (proj1 (upcoming_grace_then_future IsoDate.parse tenMinutes now
                    eq_refl lateStart Hnl)).
    exists (video "due" (Some "2023-12-31T23:56:00Z") None None), 1704066960000.
    split; [simpl; auto|].
    split; [reflexivity|]. split; [reflexivity|].
    split; [exists "2023-12-31T23:56:00Z"; split; reflexivity|].
    unfold now, tenMinutes. lia.
  - apply (proj2 (upcoming_grace_then_future IsoDate.parse tenMinutes now
                    eq_refl twoScheduled Hnl2)).
    + intros (v & t & [<-|[<-|[]]] & _ & _ & Hp & H1 & _);
        parsed Hp; unfold now in H1; lia.
    + exists (video "soon" (Some "2024-01-01T00:10:00Z") None None), 1704067800000.
      split; [simpl; auto|]. split; [reflexivity|].
      split; [exists "2024-01-01T00:10:00Z"; split; reflexivity|].
      unfold now. lia.
Defined.

(** C3 on three ended broadcasts behind a missed one: the broadcast with the
    latest end is replayed, ahead of the earlier one and of the one whose end
    time does not parse. *)
Lemma replay_picks_latest_end_witness :
  IsoDate.parse "" = None /\
  (forall v, In v Scenarios.endedThrice -> ~ Claims.liveCandidate v) /\
  (forall v t, In v Scenarios.endedThrice -> ~ graceCandidate v t) /\
  (forall v t, In v Scenarios.endedThrice -> ~ futureCandidate v t) /\
  (forall v t, In v Scenarios.endedThrice -> Claims.present (Yt.actualEnd v) ->
     Grace.endTime IsoDate.parse v = Some t -> 0 < t) /\
  (exists v, In v Scenarios.endedThrice /\ Claims.present (Yt.actualEnd v)) /\
  Grace.endTime IsoDate.parse
    (video "broken" None (Some "2023-12-31T21:00:00Z") (Some "garbage")) = None /\
  Grace.pickStateFromVideos IsoDate.parse tenMinutes now Scenarios.endedThrice =
    Yt.mkResult Yt.replay (Some "latest") None /\
  exists v, In v Scenarios.endedThrice /\ Claims.present (Yt.actualEnd v) /\
    (forall u, In u Scenarios.endedThrice -> Claims.present (Yt.actualEnd u) ->
       Claims.endsNoLaterThan (Grace.endTime IsoDate.parse u)
                              (Grace.endTime IsoDate.parse v)) /\
    Grace.pickStateFromVideos IsoDate.parse tenMinutes now Scenarios.endedThrice =
      Yt.mkResult Yt.replay (Some (Yt.id v)) None.
Proof.
  split; [reflexivity|].
  assert (Hnl : forall v, In v Scenarios.endedThrice -> ~ Claims.liveCandidate v).
  { intros v [<-|[<-|[<-|[<-|[]]]]] [Hs He];
      first [discriminate Hs | discriminate He]. }
  assert (Hng : forall v t, In v Scenarios.endedThrice -> ~ graceCandidate v t).
  { intros v t [<-|[<-|[<-|[<-|[]]]]] (He & Hs & Hp & H1 & H2);
      try discriminate He.
    parsed Hp. unfold now, tenMinutes in H2. lia. }
  assert (Hnf : forall v t, In v Scenarios.endedThrice -> ~ futureCandidate v t).
  { intros v t [<-|[<-|[<-|[<-|[]]]]] (He & Hp & H1); try discriminate He.
    parsed Hp. unfold now in H1. lia. }
  assert (Hep : forall v t, In v Scenarios.endedThrice ->
            Claims.present (Yt.actualEnd v) ->
            Grace.endTime IsoDate.parse v = Some t -> 0 < t).
  { intros v t [<-|[<-|[<-|[<-|[]]]]] Hp Ht; vm_compute in Ht;
      try discriminate Ht; injection Ht as <-; lia. }
  assert (Hex : exists v, In v Scenarios.endedThrice /\
                          Claims.present (Yt.actualEnd v)).
  { exists (video "latest" None (Some "2023-12-31T22:30:00Z")
                  (Some "2023-12-31T23:00:00Z")).
    split; [simpl; auto 6 | reflexivity]. }
  split; [exact Hnl|]. split; [exact Hng|]. split; [exact Hnf|].
  split; [exact Hep|]. split; [exact Hex|].
  split; [reflexivity|]. split; [reflexivity|].
  exact (replay_picks_latest_end IsoDate.parse tenMinutes now
           eq_refl Scenarios.endedThrice Hnl Hng Hnf Hep Hex).
Defined.

(** The replay rule on a broadcast that missed its grace window and one that
    ended an hour ago: the ended one is replayed. *)
Lemma replay_latest_end_unparseable_as_zero_witness :
  IsoDate.parse "" = None /\
  (forall v, In v missedAndEnded -> ~ Claims.liveCandidate v) /\
  (forall v t, In v missedAndEnded -> ~ graceCandidate v t) /\
  (forall v t, In v missedAndEnded -> ~ futureCandidate v t) /\
  (exists v, In v missedAndEnded /\ Claims.present (Yt.actualEnd v)) /\
  exists v, In v missedAndEnded /\ Claims.present (Yt.actualEnd v) /\
    (forall u, In u missedAndEnded -> Claims.present (Yt.actualEnd u) ->
       Grace.finiteOr0 (Grace.endTime IsoDate.parse u) <=
       Grace.finiteOr0 (Grace.endTime IsoDate.parse v)) /\
    (forall u tu, In u missedAndEnded -> Claims.present (Yt.actualEnd u) ->
       Grace.endTime IsoDate.parse u = Some tu -> 0 < tu ->
       exists tv, Grace.endTime IsoDate.parse v = Some tv /\ tu <= tv) /\
    Grace.pickStateFromVideos IsoDate.parse tenMinutes now missedAndEnded = Yt.mkResult Yt.replay (Some (Yt.id v)) None.
Proof.
  split; [reflexivity|].
  assert (Hnl : forall v, In v missedAndEnded -> ~ Claims.liveCandidate v).
  { intros v [<-|[<-|[]]] [Hs He]; [discriminate Hs | discriminate He]. }
  assert (Hng : forall v t, In v missedAndEnded -> ~ graceCandidate v t).
  { intros v t [<-|[<-|[]]] (He & Hs & Hp & H1 & H2).
    - parsed Hp. unfold now, tenMinutes in H2. lia.
    - discriminate He. }
  assert (Hnf : forall v t, In v missedAndEnded -> ~ futureCandidate v t).
  { intros v t [<-|[<-|[]]] (He & Hp & H1).
    - parsed Hp. unfold now in H1. lia.
    - discriminate He. }
  assert (Hex : exists v, In v missedAndEnded /\ Claims.present (Yt.actualEnd v)).
  { exists (video "ended" (Some "2023-12-31T22:00:00Z")
                  (Some "2023-12-31T22:00:10Z") (Some "2023-12-31T23:00:00Z")).
    split; [simpl; auto | reflexivity]. }
  split; [exact Hnl|]. split; [exact Hng|]. split; [exact Hnf|].
  split; [exact Hex|].
  exact (replay_latest_end_unparseable_as_zero IsoDate.parse tenMinutes now
           eq_refl missedAndEnded Hnl Hng Hnf Hex).
Defined.

(** End times after the epoch are needed for that order: on an ended
    broadcast whose end time does not parse followed by one that ended
    before the epoch, no rule above replay matches, and the selected
    candidate is the unparseable one, although the other one has the only,
    hence the largest, parseable end time. *)
Lemma replay_unparseable_end_outranks_old_end :
  (forall v, In v brokenAndOld -> ~ Claims.liveCandidate v) /\
  (forall v t, In v brokenAndOld -> ~ graceCandidate v t) /\
  (forall v t, In v brokenAndOld -> ~ futureCandidate v t) /\
  (exists v, In v brokenAndOld /\ Claims.present (Yt.actualEnd v)) /\
  Grace.pickStateFromVideos IsoDate.parse tenMinutes now brokenAndOld = Yt.mkResult Yt.replay (Some "broken") None /\
  ~ (exists v, In v brokenAndOld /\ Claims.present (Yt.actualEnd v) /\
       (forall u, In u brokenAndOld -> Claims.present (Yt.actualEnd u) ->
          Claims.endsNoLaterThan (Grace.endTime IsoDate.parse u)
                                 (Grace.endTime IsoDate.parse v)) /\
       Grace.pickStateFromVideos IsoDate.parse tenMinutes now brokenAndOld = Yt.mkResult Yt.replay (Some (Yt.id v)) None).
Proof.
  split.
  { intros v [<-|[<-|[]]] [_ He]; discriminate He. }
  split.
  { intros v t [<-|[<-|[]]] (He & _); discriminate He. }
  split.
  { intros v t [<-|[<-|[]]] (He & _); discriminate He. }
  split.
  { exists (video "broken" None (Some "2023-12-31T22:00:00Z") (Some "garbage")).
    split; [simpl; auto | reflexivity]. }
  split; [reflexivity|].
  intros (v & Hin & _ & Hmax & Hpick).
  destruct Hin as [<-|[<-|[]]].
  - apply (Hmax (video "old" None (Some "1969-12-30T23:00:00Z")
                       (Some "1969-12-31T00:00:00Z"))).
    + simpl; auto.
    + reflexivity.
  - vm_compute in Hpick. discriminate Hpick.
Qed.

(** C4 fails on the playlist revision (src/api/livestream.js): a broadcast
    scheduled for 01:00 that has already ended is selected as [upcoming] at
    midnight, because the upcoming rule of that revision does not look at
    [actualEndTime]; the grace-window revision replays it. *)
Theorem playlist_revision_selects_ended_candidate :
  (forall v, In v endedEarly -> Claims.present (Yt.actualEnd v)) /\
  Playlist.pickStateFromVideos IsoDate.parse now endedEarly =
    Yt.mkResult Yt.upcoming (Some "early") (Some 1704070800000) /\
  Grace.pickStateFromVideos IsoDate.parse tenMinutes now endedEarly = Yt.mkResult Yt.replay (Some "early") None.
Proof.
  split; [|split; reflexivity].
  intros v [<-|[]]. reflexivity.
Qed.

(** The invariant of C4 on the grace-window revision, on a late start. *)
Lemma grace_selected_candidate_not_ended_witness :
  Yt.state (Grace.pickStateFromVideos IsoDate.parse tenMinutes now lateStart) = Yt.upcoming /\
  exists v, In v lateStart /\ Yt.videoId (Grace.pickStateFromVideos IsoDate.parse tenMinutes now lateStart) = Some (Yt.id v) /\
    Claims.absent (Yt.actualEnd v) /\
    (NoDup (map Yt.id lateStart) ->
     forall u, In u lateStart -> Claims.present (Yt.actualEnd u) ->
               Yt.videoId (Grace.pickStateFromVideos IsoDate.parse tenMinutes now lateStart) <> Some (Yt.id u)).
Proof.
  split; [reflexivity|].
  apply (grace_selected_candidate_not_ended IsoDate.parse tenMinutes now lateStart).
  right. reflexivity.
Defined.

(** C5 on a broadcast selected at midnight that starts in ninety minutes:
    five minutes of cache, the medium tier. *)
Lemma selected_state_lifetime_tiers_witness :
  0 <= tenMinutes < now /\
  Yt.state (Grace.pickStateFromVideos IsoDate.parse tenMinutes now
              Scenarios.inNinetyMinutes) = Yt.upcoming /\
  Yt.upcomingStartMs (Grace.pickStateFromVideos IsoDate.parse tenMinutes now
                        Scenarios.inNinetyMinutes) = Some (now + 90 * 60 * 1000) /\
  30 * 60 * 1000 < now + 90 * 60 * 1000 - (now + 1) <= 2 * 60 * 60 * 1000 /\
  Grace.cacheSeconds tenMinutes (now + 1)
    (Grace.pickStateFromVideos IsoDate.parse tenMinutes now
       Scenarios.inNinetyMinutes) = 300 /\
  Claims.minutes
    (Grace.cacheSeconds tenMinutes (now + 1)
       (Grace.pickStateFromVideos IsoDate.parse tenMinutes now
          Scenarios.inNinetyMinutes)).
Proof.
  assert (Hg : 0 <= tenMinutes < now) by (unfold tenMinutes, now; lia).
  assert (Hd : 30 * 60 * 1000 < now + 90 * 60 * 1000 - (now + 1)
               <= 2 * 60 * 60 * 1000) by lia.
  split; [exact Hg|]. split; [reflexivity|]. split; [reflexivity|].
  split; [exact Hd|].
  destruct (proj1 (selected_state_lifetime_tiers IsoDate.parse tenMinutes now
                     (now + 1) Scenarios.inNinetyMinutes Hg) eq_refl)
    as (start & Hs & T).
  vm_compute in Hs. injection Hs as <-.
  exact (proj1 (proj2 T) Hd).
Defined.

(** The derivation for a start in ninety minutes: five minutes of cache. *)
Lemma cache_lifetime_tiers_witness :
  let result := Yt.mkResult Yt.upcoming (Some "a") (Some (now + 90 * 60 * 1000)) in
  now + 90 * 60 * 1000 <> 0 /\
  30 * 60 * 1000 < now + 90 * 60 * 1000 - now <= 2 * 60 * 60 * 1000 /\
  Grace.cacheSeconds tenMinutes now result = 300 /\
  Claims.minutes (Grace.cacheSeconds tenMinutes now result).
Proof.
  intros result.
  assert (H0 : now + 90 * 60 * 1000 <> 0) by (unfold now; lia).
  assert (H1 : 30 * 60 * 1000 < now + 90 * 60 * 1000 - now <= 2 * 60 * 60 * 1000)
    by lia.
  split; [exact H0|]. split; [exact H1|].
  exact (proj1 (proj2 (proj1 (cache_lifetime_tiers tenMinutes now result)
                         (now + 90 * 60 * 1000) eq_refl eq_refl H0)) H1).
Defined.

(** The derivation on a start time at the epoch, which the selection returns
    only with a clock within the grace window of 1970: one minute after the
    epoch, with a grace window of ten minutes, the start is due and within
    the window, and the lifetime is 600 s, not a single-digit number of
    seconds. *)
Lemma upcoming_at_epoch_gets_long_lifetime :
  let result := Yt.mkResult Yt.upcoming (Some "a") (Some 0) in
  Yt.state result = Yt.upcoming /\
  0 - 60000 <= 0 /\ 60000 - 0 <= tenMinutes /\
  Grace.cacheSeconds tenMinutes 60000 result = 600 /\
  ~ Claims.singleDigitSeconds (Grace.cacheSeconds tenMinutes 60000 result).
Proof.
  simpl. unfold tenMinutes, Claims.singleDigitSeconds.
  repeat split; try reflexivity; try lia.
  vm_compute. intros [_ H]. apply H. reflexivity.
Qed.

(** C10 on a broadcast due exactly ten minutes ago. *)
Lemma upcoming_start_at_least_now_minus_grace_witness :
  0 <= tenMinutes /\
  Yt.state (Grace.pickStateFromVideos IsoDate.parse tenMinutes now dueTenMinutesAgo) = Yt.upcoming /\
  exists v t, In v dueTenMinutesAgo /\
    Grace.pickStateFromVideos IsoDate.parse tenMinutes now dueTenMinutesAgo = Yt.mkResult Yt.upcoming (Some (Yt.id v)) (Some t) /\
    now - tenMinutes <= t /\
    (t <= now <->
     Grace.upcomingGrace IsoDate.parse tenMinutes now dueTenMinutesAgo =
       Some (Grace.toScheduled IsoDate.parse v)).
Proof.
  assert (H0 : 0 <= tenMinutes) by (unfold tenMinutes; lia).
  split; [exact H0|]. split; [reflexivity|].
  exact (upcoming_start_at_least_now_minus_grace IsoDate.parse tenMinutes now
           dueTenMinutesAgo H0 eq_refl).
Defined.

(** C10 as stated fails on a broadcast due exactly ten minutes ago: it is
    selected as [upcoming], and its start time equals [now - graceMs]. *)
Lemma upcoming_start_can_equal_now_minus_grace :
  Grace.pickStateFromVideos IsoDate.parse tenMinutes now dueTenMinutesAgo =
    Yt.mkResult Yt.upcoming (Some "due") (Some 1704066600000) /\
  ~ (now - tenMinutes < 1704066600000).
Proof.
  split; [reflexivity|]. unfold now, tenMinutes. lia.
Qed.

(** C7 on a channel lookup that names no playlist, and on one that names the
    playlist [UU123]. *)
Lemma getUploadsPlaylistId_memoizes_witness :
  (Js.truthy (Rt.cachedUploadsPlaylistId fresh) = false /\
   channels noChannel = Rt.Responded true 200 "{}" (inr (Channels.mkData None)) /\
   Js.truthy (GraceApi.uploadsOf (Channels.mkData None)) = false /\
   exists p',
     GraceApi.getUploadsPlaylistId noChannel fresh =
       (Rt.Thrown (Js.mkError "Error" "Could not resolve uploads playlist ID"), p')
     /\ Rt.cachedUploadsPlaylistId p' = Rt.cachedUploadsPlaylistId fresh) /\
  (GraceApi.getUploadsPlaylistId withChannel fresh =
     (Rt.Returned "UU123",
      {| Rt.cachedUploadsPlaylistId := Some "UU123"; Rt.ticks := 0;
         Rt.trace := [(Rt.channels_list, None)] |}) /\
   forall env' q,
     Rt.cachedUploadsPlaylistId q = Some "UU123" ->
     GraceApi.getUploadsPlaylistId env' q = (Rt.Returned "UU123", q)).
Proof.
  split.
  - split; [reflexivity|]. split; [reflexivity|]. split; [reflexivity|].
    exact (proj1 (getUploadsPlaylistId_memoizes noChannel fresh)
             200 "{}" (Channels.mkData None) eq_refl eq_refl eq_refl).
  - split; [reflexivity|].
    exact (proj2 (proj2 (proj2 (proj2 (getUploadsPlaylistId_memoizes withChannel fresh))
                           "UU123" _ eq_refl))).
Defined.

(** C6 on a remote API that refuses every request, for a request with the
    debug flag: the search revision reports the error uncached, the
    grace-window revision answers with the cached default. *)
Lemma failure_gives_safe_default_witness :
  let e := Js.mkError "Error" "403 :: quotaExceeded" in
  (Claims.failedDuring fresh
     (snd (SearchApi.handler IsoDate.parse config failing getDebug fresh))
     (Rt.search_list "live" 1) e /\
   exists resp,
     fst (SearchApi.handler IsoDate.parse config failing getDebug fresh) =
       Rt.Returned resp /\
     Rt.statusCode resp = 200 /\
     (SearchApi.debugFlag getDebug = false ->
      resp = Rt.json 200 (SearchApi.state_body (Yt.mkResult Yt.none None None)) 600 /\
      Rt.header "Cache-Control" resp =
        Some "s-maxage=600, stale-while-revalidate=30") /\
     (SearchApi.debugFlag getDebug = true ->
      Rt.body resp =
        Some (SearchApi.debug_body (Yt.mkResult Yt.none None None)
                (SearchApi.debugText e)) /\
      (Js.message e <> "" -> SearchApi.debugText e = Js.message e) /\
      Rt.header "Cache-Control" resp = Some "no-store")) /\
  (Claims.failedDuring fresh
     (snd (GraceApi.handler IsoDate.parse config failing getDebug fresh))
     Rt.channels_list e /\
   exists resp,
     fst (GraceApi.handler IsoDate.parse config failing getDebug fresh) =
       Rt.Returned resp /\
     Rt.statusCode resp = 200 /\
     Rt.body resp =
       Some {| GraceApi.error := None;
               GraceApi.result := Yt.mkResult Yt.none None None;
               GraceApi.generatedAt := clock failing (Rt.ticks fresh);
               GraceApi.youtubeFetchedAt := None |} /\
     Rt.header "Cache-Control" resp =
       Some "s-maxage=600, stale-while-revalidate=30").
Proof.
  intros e.
  assert (F1 : Claims.failedDuring fresh
                 (snd (SearchApi.handler IsoDate.parse config failing getDebug fresh))
                 (Rt.search_list "live" 1) e).
  { exists [(Rt.search_list "live" 1, Some e)].
    split; [reflexivity | left; reflexivity]. }
  assert (F2 : Claims.failedDuring fresh
                 (snd (GraceApi.handler IsoDate.parse config failing getDebug fresh))
                 Rt.channels_list e).
  { exists [(Rt.channels_list, Some e)].
    split; [reflexivity | left; reflexivity]. }
  split.
  - split; [exact F1|].
    exact (proj1 (failure_gives_safe_default IsoDate.parse config failing
                    getDebug fresh (Rt.search_list "live" 1) e) F1).
  - split; [exact F2|].
    exact (proj2 (failure_gives_safe_default IsoDate.parse config failing
                    getDebug fresh Rt.channels_list e) F2).
Defined.

(** C6 as stated fails on the grace-window revision: for a request with the
    debug flag during which the channel lookup fails, the response is the
    default body, which carries no [debugError], and it is cacheable. *)
Lemma grace_handler_ignores_debug_flag :
  SearchApi.debugFlag getDebug = true /\
  Claims.failedDuring fresh
    (snd (GraceApi.handler IsoDate.parse config failing getDebug fresh))
    Rt.channels_list (Js.mkError "Error" "403 :: quotaExceeded") /\
  fst (GraceApi.handler IsoDate.parse config failing getDebug fresh) =
    fst (GraceApi.handler IsoDate.parse config failing get fresh) /\
  exists resp,
    fst (GraceApi.handler IsoDate.parse config failing getDebug fresh) =
      Rt.Returned resp /\
    Rt.body resp =
      Some {| GraceApi.error := None;
              GraceApi.result := Yt.mkResult Yt.none None None;
              GraceApi.generatedAt := now;
              GraceApi.youtubeFetchedAt := None |} /\
    Rt.header "Cache-Control" resp =
      Some "s-maxage=600, stale-while-revalidate=30" /\
    Rt.header "Cache-Control" resp <> Some "no-store".
Proof.
  split; [reflexivity|]. split.
  { eexists. split; [reflexivity | left; reflexivity]. }
  split; [reflexivity|].
  eexists. split; [reflexivity|]. split; [reflexivity|].
  split; [reflexivity | discriminate].
Qed.

End Runs.

(** * Further properties of the code *)

(** ** State selection of the grace-window revision: decision table *)

Section GraceDecision.

Variable Date_parse : string -> Js.Num.
Variable GRACE_MS : Z.
Variable now : Z.

Hypothesis Date_parse_empty : Date_parse "" = None.

Local Abbreviation liveCandidate := Claims.liveCandidate.
Local Abbreviation futureCandidate := (Claims.futureCandidate Date_parse now).
Local Abbreviation graceCandidate := (Claims.graceCandidate Date_parse GRACE_MS now).

Lemma find_live_iff (videos : list Yt.Video) :
  (exists v, In v videos /\ liveCandidate v) <->
  Js.find Grace.isLiveNow videos <> None.
Proof.
  split.
  - intros (v & Hv & Hl) E. apply isLiveNow_iff in Hl.
    rewrite (find_none _ _ E v Hv) in Hl. discriminate.
  - intros H. destruct (Js.find Grace.isLiveNow videos) as [x|] eqn:E; [|congruence].
    destruct (find_some _ _ _ E) as (l1 & l2 & -> & Hx & _).
    exists x. split; [apply in_elt | apply isLiveNow_iff; exact Hx].
Qed.

Lemma upcoming_pick_iff (videos : list Yt.Video) :
  (exists v t, In v videos /\ (graceCandidate v t \/ futureCandidate v t)) <->
  Js.or_else (Grace.upcomingGrace Date_parse GRACE_MS now videos)
             (Grace.upcomingFuture Date_parse now videos) <> None.
Proof.
  split.
  - intros (v & t & Hv & [Hg|Hf]) E.
    + destruct (Grace.upcomingGrace Date_parse GRACE_MS now videos) eqn:G;
        [discriminate|].
      exact (upcomingGrace_none _ _ _ Date_parse_empty _ G v t Hv Hg).
    + destruct (Grace.upcomingGrace Date_parse GRACE_MS now videos) eqn:G;
        [discriminate|]. simpl in E.
      exact (upcomingFuture_none _ _ Date_parse_empty _ E v t Hv Hf).
  - destruct (Grace.upcomingGrace Date_parse GRACE_MS now videos) as [x|] eqn:G.
    + intros _.
      destruct (upcomingGrace_some _ _ _ Date_parse_empty _ _ G)
        as (v & tv & Hv & _ & _ & Hg & _). eauto 6.
    + simpl.
      destruct (Grace.upcomingFuture Date_parse now videos) as [x|] eqn:F;
        [|congruence].
      intros _.
      destruct (upcomingFuture_some _ _ Date_parse_empty _ _ F)
        as (v & tv & Hv & _ & _ & Hf & _). eauto 6.
Qed.

Lemma completed_iff (videos : list Yt.Video) :
  (exists v, In v videos /\ Claims.present (Yt.actualEnd v)) <->
  Grace.completed Date_parse videos <> None.
Proof.
  split.
  - intros (v & Hv & Hp).
    destruct (completed_exists Date_parse _ _ Hv Hp) as (c & ->). discriminate.
  - destruct (Grace.completed Date_parse videos) as [c|] eqn:E; [|congruence].
    intros _. destruct (completed_some _ _ _ E) as (Hc & Hp & _). eauto.
Qed.

(** X1.  The state of the result is decided by the candidates alone: [live]
    exactly when some candidate is on air; [upcoming] exactly when none is on
    air and some candidate is within the grace window or scheduled in the
    future; [replay] exactly when neither holds and some candidate has ended;
    [none] exactly when no candidate matches any rule. *)
Theorem state_decision_table (videos : list Yt.Video) :
  (Yt.state (Grace.pickStateFromVideos Date_parse GRACE_MS now videos) = Yt.live <->
   exists v, In v videos /\ liveCandidate v) /\
  (Yt.state (Grace.pickStateFromVideos Date_parse GRACE_MS now videos) = Yt.upcoming <->
   ~ (exists v, In v videos /\ liveCandidate v) /\
   exists v t, In v videos /\ (graceCandidate v t \/ futureCandidate v t)) /\
  (Yt.state (Grace.pickStateFromVideos Date_parse GRACE_MS now videos) = Yt.replay <->
   ~ (exists v, In v videos /\ liveCandidate v) /\
   ~ (exists v t, In v videos /\ (graceCandidate v t \/ futureCandidate v t)) /\
   exists v, In v videos /\ Claims.present (Yt.actualEnd v)) /\
  (Yt.state (Grace.pickStateFromVideos Date_parse GRACE_MS now videos) = Yt.none <->
   ~ (exists v, In v videos /\ liveCandidate v) /\
   ~ (exists v t, In v videos /\ (graceCandidate v t \/ futureCandidate v t)) /\
   ~ (exists v, In v videos /\ Claims.present (Yt.actualEnd v))).
Proof.
  rewrite find_live_iff, upcoming_pick_iff, completed_iff.
  unfold Grace.pickStateFromVideos.
  destruct (Js.find Grace.isLiveNow videos); simpl.
  { repeat split; intros; try discriminate; try tauto;
      try (exfalso; intuition congruence). }
  destruct (Js.or_else _ _); simpl.
  { repeat split; intros; try discriminate; try tauto;
      try (exfalso; intuition congruence). }
  destruct (Grace.completed Date_parse videos); simpl;
    repeat split; intros; try discriminate; try tauto;
      try (exfalso; intuition congruence).
Qed.

End GraceDecision.

(** ** Arrays: related inputs give related outputs *)

Section ArrayRelations.

Context {A B : Type}.
Variable R : A -> B -> Prop.

Local Abbreviation related_option := (Behaviour.related_option R).

Lemma find_related (p : A -> bool) (q : B -> bool) (l : list A) (l' : list B) :
  (forall a b, R a b -> p a = q b) ->
  Forall2 R l l' -> related_option (Js.find p l) (Js.find q l').
Proof.
  intros Hpq H. induction H as [|a b l l' Hab _ IH]; simpl; [exact I|].
  rewrite <- (Hpq a b Hab). destruct (p a); [exact Hab | exact IH].
Qed.

Lemma filter_related (p : A -> bool) (q : B -> bool) (l : list A) (l' : list B) :
  (forall a b, R a b -> p a = q b) ->
  Forall2 R l l' -> Forall2 R (filter p l) (filter q l').
Proof.
  intros Hpq H. induction H as [|a b l l' Hab _ IH]; simpl; [constructor|].
  rewrite <- (Hpq a b Hab). destruct (p a); [constructor|]; assumption.
Qed.

Variable cmpA : A -> A -> Z.
Variable cmpB : B -> B -> Z.
Hypothesis cmp_related :
  forall a a' b b', R a b -> R a' b' -> cmpA a a' = cmpB b b'.

Lemma insert_related (a : A) (b : B) (l : list A) (l' : list B) :
  R a b -> Forall2 R l l' ->
  Forall2 R (Js.insert cmpA a l) (Js.insert cmpB b l').
Proof.
  intros Hab H. induction H as [|x y l l' Hxy Hl IH]; simpl.
  - repeat constructor. exact Hab.
  - rewrite <- (cmp_related a x b y Hab Hxy).
    destruct (cmpA a x <=? 0); repeat constructor; assumption.
Qed.

Lemma sort_related (l : list A) (l' : list B) :
  Forall2 R l l' -> Forall2 R (Js.sort cmpA l) (Js.sort cmpB l').
Proof.
  intros H. induction H as [|a b l l' Hab _ IH]; simpl; [constructor|].
  apply insert_related; assumption.
Qed.

Lemma first_related (l : list A) (l' : list B) :
  Forall2 R l l' -> related_option (Js.first l) (Js.first l').
Proof. intros [|a b l0 l0' Hab _]; simpl; [exact I | exact Hab]. Qed.

End ArrayRelations.

Section ArraySplits.

Context {A B : Type}.

(** Where an element of [l.map(f).filter(q)] comes from. *)
Lemma filter_map_split (f : A -> B) (q : B -> bool) (l : list A)
      (L1 : list B) (y : B) (L2 : list B) :
  filter q (map f l) = L1 ++ y :: L2 ->
  exists k1 x k2,
    l = k1 ++ x :: k2 /\ f x = y /\ q y = true /\
    filter q (map f k1) = L1 /\ filter q (map f k2) = L2.
Proof.
  revert L1. induction l as [|a l IH]; intros L1 H; simpl in H.
  - destruct L1; discriminate.
  - destruct (q (f a)) eqn:Q.
    + destruct L1 as [|z L1]; simpl in H.
      * injection H as Hy Hl. exists [], a, l. simpl. rewrite <- Hy. auto.
      * injection H as Hz Hl. destruct (IH _ Hl) as (k1 & x & k2 & -> & Hx & Hq & H1 & H2).
        exists (a :: k1), x, k2. simpl. rewrite Q, H1, Hz. auto.
    + destruct (IH _ H) as (k1 & x & k2 & -> & Hx & Hq & H1 & H2).
      exists (a :: k1), x, k2. simpl. rewrite Q. auto.
Qed.

End ArraySplits.

(** ** State selection: what the result does not depend on, ties, and the
    playlist revision *)

Section GraceSelectionMore.

Variable Date_parse : string -> Js.Num.
Variable GRACE_MS : Z.
Variable now : Z.

Local Abbreviation toScheduled := (Grace.toScheduled Date_parse).
Local Abbreviation scheduled := (Grace.scheduled Date_parse).

Lemma filter_cons_eq {A : Type} (p : A -> bool) (x : A) (l : list A) :
  filter p (x :: l) = if p x then x :: filter p l else filter p l.
Proof. reflexivity. Qed.

(** A rule that rejects ended entries sees the same entries on two lists
    that differ only in the schedules of ended candidates. *)
Lemma scheduled_without_ended (q : Grace.Scheduled -> bool)
      (videos videos' : list Yt.Video) :
  (forall x, Grace.hasActualEnd x = true -> q x = false) ->
  Forall2 (fun v v' =>
             Yt.id v = Yt.id v' /\ Yt.actualStart v = Yt.actualStart v' /\
             Yt.actualEnd v = Yt.actualEnd v' /\
             (Claims.absent (Yt.actualEnd v) ->
              Yt.scheduledStart v = Yt.scheduledStart v'))
          videos videos' ->
  filter q (scheduled videos) = filter q (scheduled videos').
Proof.
  intros Hq H. unfold Grace.scheduled.
  induction H as [|v v' l l' (Hid & Hs & He & Hsch) _ IH]; [reflexivity|].
  rewrite !map_cons.
  rewrite (filter_cons_eq _ (toScheduled v)), (filter_cons_eq _ (toScheduled v')).
  destruct (Js.truthy (Yt.actualEnd v)) eqn:E.
  - assert (E' : Js.truthy (Yt.actualEnd v') = true) by (rewrite <- He; exact E).
    destruct (Js.isFinite (Grace.t (toScheduled v)));
      destruct (Js.isFinite (Grace.t (toScheduled v')));
      rewrite ?filter_cons_eq, ?(Hq (toScheduled v) E), ?(Hq (toScheduled v') E');
      exact IH.
  - assert (T : toScheduled v = toScheduled v').
    { unfold Grace.toScheduled. rewrite Hid, Hs, He, (Hsch E). reflexivity. }
    rewrite T.
    destruct (Js.isFinite (Grace.t (toScheduled v')));
      rewrite ?filter_cons_eq, IH; reflexivity.
Qed.

(** X2.  The result does not depend on the scheduled start time of
    candidates that have ended: two candidate lists that agree on ids, actual
    start and end times, and on the schedule of every candidate that has not
    ended, give the same result. *)
Theorem schedule_of_ended_candidates_is_ignored (videos videos' : list Yt.Video) :
  Forall2 (fun v v' =>
             Yt.id v = Yt.id v' /\ Yt.actualStart v = Yt.actualStart v' /\
             Yt.actualEnd v = Yt.actualEnd v' /\
             (Claims.absent (Yt.actualEnd v) ->
              Yt.scheduledStart v = Yt.scheduledStart v'))
          videos videos' ->
  Grace.pickStateFromVideos Date_parse GRACE_MS now videos =
  Grace.pickStateFromVideos Date_parse GRACE_MS now videos'.
Proof.
  intros H. unfold Grace.pickStateFromVideos.
  assert (Hlive : Behaviour.related_option
                    (fun v v' => Yt.id v = Yt.id v' /\
                                 Yt.actualStart v = Yt.actualStart v' /\
                                 Yt.actualEnd v = Yt.actualEnd v' /\
                                 (Claims.absent (Yt.actualEnd v) ->
                                  Yt.scheduledStart v = Yt.scheduledStart v'))
                    (Js.find Grace.isLiveNow videos)
                    (Js.find Grace.isLiveNow videos')).
  { apply find_related; [|exact H].
    intros a b (_ & Hs & He & _). unfold Grace.isLiveNow.
    rewrite Hs, He. reflexivity. }
  destruct (Js.find Grace.isLiveNow videos), (Js.find Grace.isLiveNow videos');
    simpl in Hlive; try contradiction.
  { destruct Hlive as (-> & _). reflexivity. }
  unfold Grace.upcomingGrace, Grace.upcomingFuture.
  rewrite (scheduled_without_ended (Grace.isGrace GRACE_MS now) videos videos'),
          (scheduled_without_ended (Grace.isFuture now) videos videos'); auto.
  2: { intros x Hx. unfold Grace.isFuture. rewrite Hx. reflexivity. }
  2: { intros x Hx. unfold Grace.isGrace. rewrite Hx. reflexivity. }
  destruct (Js.or_else _ _); [reflexivity|].
  unfold Grace.completed.
  assert (Hc : Behaviour.related_option
                 (fun v v' => Yt.id v = Yt.id v' /\ Yt.actualEnd v = Yt.actualEnd v')
                 (Js.first (Js.sort (Grace.mostRecentEndFirst Date_parse)
                    (filter (fun v => Js.truthy (Yt.actualEnd v)) videos)))
                 (Js.first (Js.sort (Grace.mostRecentEndFirst Date_parse)
                    (filter (fun v => Js.truthy (Yt.actualEnd v)) videos')))).
  { apply first_related, sort_related.
    - intros a a' b b' (_ & Ea) (_ & Eb).
      unfold Grace.mostRecentEndFirst, Grace.endTime. rewrite Ea, Eb. reflexivity.
    - apply filter_related.
      + intros a b (_ & E). rewrite E. reflexivity.
      + eapply Forall2_impl; [|exact H]. cbv beta. tauto. }
  destruct (Js.first _), (Js.first _); simpl in Hc; try contradiction.
  - destruct Hc as (-> & _). reflexivity.
  - reflexivity.
Qed.

End GraceSelectionMore.

Section GraceTies.

Variable Date_parse : string -> Js.Num.
Variable GRACE_MS : Z.
Variable now : Z.

Hypothesis Date_parse_empty : Date_parse "" = None.

Local Abbreviation toScheduled := (Grace.toScheduled Date_parse).
Local Abbreviation scheduled := (Grace.scheduled Date_parse).
Local Abbreviation futureCandidate := (Claims.futureCandidate Date_parse now).
Local Abbreviation graceCandidate := (Claims.graceCandidate Date_parse GRACE_MS now).
Local Abbreviation endRank v := (Grace.finiteOr0 (Grace.endTime Date_parse v)).

Lemma filter_twice {A : Type} (p q : A -> bool) (l : list A) :
  filter p (filter q l) = filter (fun a => q a && p a) l.
Proof.
  induction l as [|a l IH]; simpl; [reflexivity|].
  destruct (q a); simpl; [destruct (p a)|]; rewrite IH; reflexivity.
Qed.

(** Where [scheduled.filter(p).sort(cmp)[0]] sits in the input: every
    earlier candidate that passes the filter has a strictly larger key. *)
Lemma chosen_split (p : Grace.Scheduled -> bool)
      (cmp : Grace.Scheduled -> Grace.Scheduled -> Z)
      (key : Grace.Scheduled -> Z) (videos : list Yt.Video) (x : Grace.Scheduled) :
  (forall a b, Js.isFinite (Grace.t a) = true -> Js.isFinite (Grace.t b) = true ->
               (cmp a b <= 0 <-> key a <= key b)) ->
  Js.first (Js.sort cmp (filter p (scheduled videos))) = Some x ->
  exists k1 v k2,
    videos = k1 ++ v :: k2 /\ x = toScheduled v /\
    forall u tu, In u k1 -> Grace.t (toScheduled u) = Some tu ->
                 p (toScheduled u) = true -> key x < key (toScheduled u).
Proof.
  intros Hkey H.
  destruct (first_sort_least cmp key (fun a => Js.isFinite (Grace.t a) = true)
              Hkey (filter p (scheduled videos)) x) as (L1 & L2 & E & Hlt & _).
  - apply Forall_forall. intros a Ha.
    apply filter_In in Ha. destruct Ha as (Ha & _).
    apply filter_In in Ha. tauto.
  - exact H.
  - unfold Grace.scheduled in E. rewrite filter_twice in E.
    destruct (filter_map_split _ _ _ _ _ _ E) as (k1 & v & k2 & -> & Hv & _ & H1 & _).
    exists k1, v, k2. split; [reflexivity|]. split; [symmetry; exact Hv|].
    intros u tu Hu Ht Hp. apply Hlt. rewrite <- H1.
    apply filter_In. split; [apply in_map; exact Hu|].
    rewrite Ht, Hp. reflexivity.
Qed.

(** Where the replayed candidate sits in the input. *)
Lemma completed_split (videos : list Yt.Video) (c : Yt.Video) :
  Grace.completed Date_parse videos = Some c ->
  exists k1 k2,
    videos = k1 ++ c :: k2 /\
    forall u, In u k1 -> Claims.present (Yt.actualEnd u) -> endRank u < endRank c.
Proof.
  intros H. unfold Grace.completed in H.
  destruct (first_sort_least _ (fun v => - endRank v) (fun _ => True)
              (mostRecentEndFirst_key Date_parse)
              (filter (fun v => Js.truthy (Yt.actualEnd v)) videos) c)
    as (L1 & L2 & E & Hlt & _).
  - apply Forall_forall. auto.
  - exact H.
  - rewrite <- (map_id videos) in E.
    destruct (filter_map_split _ _ _ _ _ _ E) as (k1 & v & k2 & Hs & Hv & _ & H1 & _).
    cbv beta in Hv. subst v. rewrite map_id in H1.
    exists k1, k2. split; [exact Hs|].
    intros u Hu Hp.
    assert (- endRank c < - endRank u); [|lia].
    apply Hlt. rewrite <- H1. apply filter_In. auto.
Qed.

(** X3.  Ties go to the candidate that comes first in the input (the most
    recent upload).  An [upcoming] result names a grace candidate that every
    earlier grace candidate is due strictly before, or else a future
    candidate that every earlier future candidate starts strictly after; a
    [replay] result names an ended candidate whose end time ranks strictly
    above that of every earlier ended candidate. *)
Theorem ties_go_to_the_earlier_candidate (videos : list Yt.Video) :
  (Yt.state (Grace.pickStateFromVideos Date_parse GRACE_MS now videos) = Yt.upcoming ->
   exists l1 v l2 t,
     videos = l1 ++ v :: l2 /\
     Grace.pickStateFromVideos Date_parse GRACE_MS now videos =
       Yt.mkResult Yt.upcoming (Some (Yt.id v)) (Some t) /\
     ((graceCandidate v t /\
       forall u tu, In u l1 -> graceCandidate u tu -> tu < t) \/
      (futureCandidate v t /\
       forall u tu, In u l1 -> futureCandidate u tu -> t < tu))) /\
  (Yt.state (Grace.pickStateFromVideos Date_parse GRACE_MS now videos) = Yt.replay ->
   exists l1 v l2,
     videos = l1 ++ v :: l2 /\
     Grace.pickStateFromVideos Date_parse GRACE_MS now videos =
       Yt.mkResult Yt.replay (Some (Yt.id v)) None /\
     Claims.present (Yt.actualEnd v) /\
     forall u, In u l1 -> Claims.present (Yt.actualEnd u) ->
               endRank u < endRank v).
Proof.
  unfold Grace.pickStateFromVideos.
  destruct (Js.find Grace.isLiveNow videos); [split; discriminate|].
  destruct (Grace.upcomingGrace Date_parse GRACE_MS now videos) as [x|] eqn:G;
    simpl.
  { split; [intros _|discriminate].
    destruct (chosen_in _ _ _ _ _ G) as (v0 & t & _ & _ & Ht & Hp).
    destruct (chosen_split _ _ _ _ _ (latestFirst_key) G)
      as (k1 & v & k2 & Hs & -> & Hlt).
    exists k1, v, k2, t. split; [exact Hs|]. split; [rewrite Ht; reflexivity|].
    left. split.
    - apply (isGrace_iff _ _ _ Date_parse_empty). auto.
    - intros u tu Hu Hc.
      apply (isGrace_iff _ _ _ Date_parse_empty) in Hc. destruct Hc as (Htu & Hpu).
      specialize (Hlt u tu Hu Htu Hpu). cbv beta in Hlt.
      rewrite Ht, Htu in Hlt. simpl in Hlt. lia. }
  destruct (Grace.upcomingFuture Date_parse now videos) as [x|] eqn:F; simpl.
  { split; [intros _|discriminate].
    destruct (chosen_in _ _ _ _ _ F) as (v0 & t & _ & _ & Ht & Hp).
    destruct (chosen_split _ _ _ _ _ (soonestFirst_key) F)
      as (k1 & v & k2 & Hs & -> & Hlt).
    exists k1, v, k2, t. split; [exact Hs|]. split; [rewrite Ht; reflexivity|].
    right. split.
    - apply (isFuture_iff _ _ Date_parse_empty). auto.
    - intros u tu Hu Hc.
      apply (isFuture_iff _ _ Date_parse_empty) in Hc. destruct Hc as (Htu & Hpu).
      specialize (Hlt u tu Hu Htu Hpu). cbv beta in Hlt.
      rewrite Ht, Htu in Hlt. simpl in Hlt. lia. }
  destruct (Grace.completed Date_parse videos) as [c|] eqn:C; simpl;
    [|split; discriminate].
  split; [discriminate|intros _].
  destruct (completed_split _ _ C) as (k1 & k2 & Hs & Hlt).
  destruct (completed_some _ _ _ C) as (_ & Hp & _).
  exists k1, c, k2. auto.
Qed.

End GraceTies.

(** ** State selection of the playlist revision *)

Section PlaylistSelection.

Variable Date_parse : string -> Js.Num.
Variable GRACE_MS : Z.
Variable now : Z.

Hypothesis Date_parse_empty : Date_parse "" = None.

Local Abbreviation graceCandidate := (Claims.graceCandidate Date_parse GRACE_MS now).

(** The entries the two revisions keep for the future rule, side by side. *)
Lemma future_entries_related (videos : list Yt.Video) :
  (forall v t, In v videos -> Claims.present (Yt.actualEnd v) ->
               Claims.parsesTo Date_parse (Yt.scheduledStart v) t -> t <= now) ->
  Forall2 (fun u x => Playlist.id u = Grace.id x /\ Playlist.t u = Grace.t x)
    (filter (fun x => Js.isFinite (Playlist.t x) && Js.gt (Playlist.t x) (Some now))
            (map (Playlist.toUpcoming Date_parse) videos))
    (filter (Grace.isFuture now) (Grace.scheduled Date_parse videos)).
Proof.
  unfold Grace.scheduled. rewrite filter_twice.
  induction videos as [|v l IH]; intros H; [constructor|].
  assert (IH' := IH (fun u t Hu => H u t (or_intror Hu))). clear IH.
  rewrite !map_cons, !filter_cons_eq.
  unfold Grace.isFuture at 1.
  change (Grace.hasActualEnd (Grace.toScheduled Date_parse v))
    with (Js.truthy (Yt.actualEnd v)).
  change (Grace.t (Grace.toScheduled Date_parse v))
    with (Date_parse (Js.or_empty (Yt.scheduledStart v))).
  change (Playlist.t (Playlist.toUpcoming Date_parse v))
    with (Date_parse (Js.or_empty (Yt.scheduledStart v))).
  destruct (Date_parse (Js.or_empty (Yt.scheduledStart v))) as [t|] eqn:T;
    [|exact IH'].
  cbn [Js.isFinite Js.gt andb].
  destruct (Js.truthy (Yt.actualEnd v)) eqn:E; cbn [negb andb].
  - assert (t <= now).
    { apply (H v t (or_introl eq_refl) E).
      apply (parsesTo_iff _ Date_parse_empty). exact T. }
    destruct (Z.gtb_spec t now); [lia|]. exact IH'.
  - destruct (t >? now); [|exact IH'].
    constructor; [|exact IH']. simpl. rewrite T. auto.
Qed.

(** X4.  The playlist revision and the grace-window revision select the
    same result whenever no candidate is within the grace window and no
    ended candidate is scheduled after [now]. *)
Theorem playlist_agrees_outside_the_fixes (videos : list Yt.Video) :
  (forall v t, In v videos -> ~ graceCandidate v t) ->
  (forall v t, In v videos -> Claims.present (Yt.actualEnd v) ->
               Claims.parsesTo Date_parse (Yt.scheduledStart v) t -> t <= now) ->
  Playlist.pickStateFromVideos Date_parse now videos =
  Grace.pickStateFromVideos Date_parse GRACE_MS now videos.
Proof.
  intros Hng Hended.
  unfold Playlist.pickStateFromVideos, Grace.pickStateFromVideos.
  change Playlist.isLiveNow with Grace.isLiveNow.
  destruct (Js.find Grace.isLiveNow videos); [reflexivity|].
  rewrite (no_grace_pick _ _ _ Date_parse_empty _ Hng). simpl.
  assert (R : Behaviour.related_option
                (fun u x => Playlist.id u = Grace.id x /\ Playlist.t u = Grace.t x)
                (Playlist.upcoming Date_parse now videos)
                (Grace.upcomingFuture Date_parse now videos)).
  { apply first_related, sort_related.
    - intros a a' b b' (_ & Ea) (_ & Eb).
      unfold Playlist.soonestFirst, Grace.soonestFirst. rewrite Ea, Eb. reflexivity.
    - apply future_entries_related. exact Hended. }
  destruct (Playlist.upcoming Date_parse now videos),
           (Grace.upcomingFuture Date_parse now videos);
    simpl in R; try contradiction.
  - destruct R as (-> & ->). reflexivity.
  - reflexivity.
Qed.

(** X5.  In the playlist revision an [upcoming] result always reports a
    start time strictly after [now], and it is the smallest parseable
    scheduled time after [now] among all candidates, ended or not. *)
Theorem playlist_upcoming_is_soonest_future (videos : list Yt.Video) :
  Yt.state (Playlist.pickStateFromVideos Date_parse now videos) = Yt.upcoming ->
  exists v t, In v videos /\
    Playlist.pickStateFromVideos Date_parse now videos =
      Yt.mkResult Yt.upcoming (Some (Yt.id v)) (Some t) /\
    Claims.parsesTo Date_parse (Yt.scheduledStart v) t /\ now < t /\
    forall u tu, In u videos ->
                 Claims.parsesTo Date_parse (Yt.scheduledStart u) tu ->
                 now < tu -> t <= tu.
Proof.
  unfold Playlist.pickStateFromVideos.
  destruct (Js.find Playlist.isLiveNow videos); [discriminate|].
  destruct (Playlist.upcoming Date_parse now videos) as [x|] eqn:U.
  2: { destruct (Playlist.completed Date_parse videos); discriminate. }
  intros _. unfold Playlist.upcoming in U.
  pose proof (first_sort_In _ _ _ U) as Hin.
  apply filter_In in Hin. destruct Hin as (Hin & Hk).
  apply in_map_iff in Hin. destruct Hin as (v & <- & Hv).
  simpl in Hk.
  destruct (Date_parse (Js.or_empty (Yt.scheduledStart v))) as [t|] eqn:T;
    [|discriminate].
  simpl in Hk. rewrite Z.gtb_ltb, Z.ltb_lt in Hk.
  exists v, t. split; [exact Hv|]. split; [simpl; rewrite T; reflexivity|].
  split; [apply (parsesTo_iff _ Date_parse_empty); exact T|]. split; [exact Hk|].
  intros u tu Hu Hp Hlt.
  apply (parsesTo_iff _ Date_parse_empty) in Hp.
  assert (Hkey : forall a b, Js.isFinite (Playlist.t a) = true ->
                   Js.isFinite (Playlist.t b) = true ->
                   (Playlist.soonestFirst a b <= 0 <->
                    Js.value (Playlist.t a) <= Js.value (Playlist.t b))).
  { intros a b. unfold Playlist.soonestFirst.
    destruct (Playlist.t a), (Playlist.t b); simpl; try discriminate. lia. }
  assert (Hok : Forall (fun x => Js.isFinite (Playlist.t x) = true)
                  (filter (fun x => Js.isFinite (Playlist.t x)
                                    && Js.gt (Playlist.t x) (Some now))
                          (map (Playlist.toUpcoming Date_parse) videos))).
  { apply Forall_forall. intros a Ha. apply filter_In in Ha.
    destruct Ha as (_ & Ha). apply andb_true_iff in Ha. tauto. }
  pose proof (first_sort_min Playlist.soonestFirst
                (fun x => Js.value (Playlist.t x))
                (fun x => Js.isFinite (Playlist.t x) = true)
                Hkey _ _ Hok U (Playlist.toUpcoming Date_parse u)) as L.
  cbv beta in L. simpl in L. rewrite T, Hp in L. simpl in L. apply L.
  apply filter_In. split; [apply in_map; exact Hu|].
  simpl. rewrite Hp. simpl. rewrite Z.gtb_ltb. apply Z.ltb_lt. exact Hlt.
Qed.

End PlaylistSelection.

(** ** Cache lifetime of the grace-window revision: bounds and monotonicity *)

Section CacheLifetimeMore.

Variable GRACE_MS : Z.
Variable now : Z.

(** The lifetime of an [upcoming] result with a non-zero start time, by
    the sign of the time to start. *)
Lemma lifetime_when_due (vid : option string) (start : Z) :
  start <> 0 -> start - now <= 0 -> now - start <= GRACE_MS ->
  Grace.cacheSeconds GRACE_MS now (Yt.mkResult Yt.upcoming vid (Some start)) = 5.
Proof.
  intros Hz Hd Hg.
  unfold Grace.cacheSeconds, Grace.isUpcomingWithStart,
    Grace.upcomingCacheSeconds. simpl.
  destruct (Z.eqb_spec start 0); [contradiction|]. simpl.
  destruct (Z.leb_spec (start - now) 0); [|lia]. simpl.
  destruct (Z.ltb_spec (start - now) 0);
    [destruct (Z.leb_spec (Z.abs (start - now)) GRACE_MS)
    |destruct (Z.leb_spec 0 GRACE_MS)]; try reflexivity; lia.
Qed.

Lemma lifetime_when_ahead (vid : option string) (start : Z) :
  start <> 0 -> 0 < start - now ->
  Grace.cacheSeconds GRACE_MS now (Yt.mkResult Yt.upcoming vid (Some start)) =
  if 7200000 <? start - now then 1800
  else if 1800000 <? start - now then 300 else 20.
Proof.
  intros Hz Hd.
  unfold Grace.cacheSeconds, Grace.isUpcomingWithStart,
    Grace.upcomingCacheSeconds. simpl.
  destruct (Z.eqb_spec start 0); [contradiction|]. simpl.
  destruct (Z.leb_spec (start - now) 0); [lia|]. simpl.
  rewrite !Z.gtb_ltb. reflexivity.
Qed.

Lemma lifetime_values (result : Yt.StateResult) :
  In (Grace.cacheSeconds GRACE_MS now result) [5; 10; 20; 300; 600; 1800].
Proof.
  unfold Grace.cacheSeconds, Grace.upcomingCacheSeconds, Grace.otherCacheSeconds.
  repeat match goal with
    | |- context [if ?b then _ else _] => destruct b
    end; simpl; tauto.
Qed.

(** X6.  The lifetime that the handler derives from a selected state is
    always one of 5, 10, 20, 300, 600 and 1800 seconds; and for an [upcoming]
    result whose non-zero start time is more than twenty seconds away, a
    response cached for that lifetime expires before the start.  (The
    handler's answers that do not come from this derivation, on a preflight
    request and on a missing configuration, are not covered here.) *)
Theorem cache_lifetime_values_and_expiry (result : Yt.StateResult) :
  In (Grace.cacheSeconds GRACE_MS now result) [5; 10; 20; 300; 600; 1800] /\
  (forall start,
     Yt.state result = Yt.upcoming ->
     Yt.upcomingStartMs result = Some start ->
     start <> 0 ->
     20 * 1000 < start - now ->
     1000 * Grace.cacheSeconds GRACE_MS now result < start - now).
Proof.
  split; [apply lifetime_values|].
  intros start Hs Ht Hz Hd. destruct result as [st vid ms]. simpl in *. subst.
  rewrite lifetime_when_ahead by lia.
  destruct (Z.ltb_spec 7200000 (start - now));
    [|destruct (Z.ltb_spec 1800000 (start - now))]; lia.
Qed.

(** X7.  The nearer the start, the shorter the lifetime: of two [upcoming]
    results with non-zero start times, neither due longer ago than the grace
    window, the one that starts earlier never gets the longer lifetime. *)
Theorem cache_lifetime_monotone (r1 r2 : Yt.StateResult) (s1 s2 : Z) :
  Yt.state r1 = Yt.upcoming -> Yt.upcomingStartMs r1 = Some s1 -> s1 <> 0 ->
  Yt.state r2 = Yt.upcoming -> Yt.upcomingStartMs r2 = Some s2 -> s2 <> 0 ->
  now - GRACE_MS <= s1 -> s1 <= s2 ->
  Grace.cacheSeconds GRACE_MS now r1 <= Grace.cacheSeconds GRACE_MS now r2.
Proof.
  intros H1 T1 Z1 H2 T2 Z2 Hg Hle.
  destruct r1 as [st1 v1 m1], r2 as [st2 v2 m2]. simpl in *. subst.
  destruct (Z.le_gt_cases (s1 - now) 0) as [D1|D1].
  - rewrite (lifetime_when_due v1 s1) by lia.
    pose proof (lifetime_values (Yt.mkResult Yt.upcoming v2 (Some s2))) as V.
    simpl in V. lia.
  - rewrite (lifetime_when_ahead v1 s1), (lifetime_when_ahead v2 s2) by lia.
    destruct (Z.ltb_spec 7200000 (s1 - now));
      destruct (Z.ltb_spec 1800000 (s1 - now));
      destruct (Z.ltb_spec 7200000 (s2 - now));
      destruct (Z.ltb_spec 1800000 (s2 - now)); lia.
Qed.

End CacheLifetimeMore.

(** ** The handlers: no error escapes, and every answer has the cross-origin headers *)

Section Answers.

Lemma yields_ret {A : Type} (a : A) (Q : A -> Prop) :
  Q a -> Behaviour.yields (Rt.ret a) Q.
Proof. intros H p b [= <-]. exact H. Qed.

Lemma yields_throw {A : Type} (e : Js.Error) (Q : A -> Prop) :
  Behaviour.yields (Rt.throw e) Q.
Proof. intros p b [=]. Qed.

Lemma yields_bind {A B : Type} (m : Rt.M A) (k : A -> Rt.M B) (Q : B -> Prop) :
  (forall a, Behaviour.yields (k a) Q) -> Behaviour.yields (Rt.bind m k) Q.
Proof.
  intros Hk p b. unfold Rt.bind.
  destruct (m p) as [[a|e] p1]; [apply Hk | discriminate].
Qed.

Lemma returns_ret {A : Type} (a : A) (Q : A -> Prop) :
  Q a -> Behaviour.returns (Rt.ret a) Q.
Proof. intros H p. exists a. auto. Qed.

Lemma returns_try_catch {A : Type} (m : Rt.M A) (h : Js.Error -> Rt.M A)
      (Q : A -> Prop) :
  Behaviour.yields m Q -> (forall e, Behaviour.returns (h e) Q) ->
  Behaviour.returns (Rt.try_catch m h) Q.
Proof.
  intros Hm Hh p. unfold Rt.try_catch.
  specialize (Hm p). destruct (m p) as [[a|e] p1]; simpl in *.
  - exists a. auto.
  - apply Hh.
Qed.

Lemma returns_after_clock {A : Type} (clock : nat -> Z) (k : Z -> Rt.M A)
      (Q : A -> Prop) :
  (forall g, Behaviour.returns (k g) Q) ->
  Behaviour.returns (Rt.bind (Rt.Date_now clock) k) Q.
Proof. intros Hk p. unfold Rt.bind, Rt.Date_now. apply Hk. Qed.

(** What every response of the handlers has. *)
Local Abbreviation wellFormed r :=
  (Behaviour.hasCors r /\ In (Rt.statusCode r) [200; 204; 500]).

Lemma wellFormed_json {B : Type} (status : Z) (b : B) (cacheSeconds : Z) :
  In status [200; 204; 500] -> wellFormed (Rt.json status b cacheSeconds).
Proof. intros H. split; [repeat split | exact H]. Qed.

Lemma wellFormed_preflight {B : Type} : wellFormed (@Rt.preflight B).
Proof. split; [repeat split | simpl; tauto]. Qed.

End Answers.

(** Proves that a computation built from the primitives yields only
    responses made by [json]. *)
Ltac yields_json :=
  repeat first
    [ apply yields_bind; intros ?
    | apply yields_throw
    | apply yields_ret; apply wellFormed_json; simpl; tauto
    | match goal with
      | |- Behaviour.yields (match ?x with _ => _ end) _ => destruct x
      | |- Behaviour.yields (if ?b then _ else _) _ => destruct b
      end ].

Section AnswersOfHandlers.

Variable Date_parse : string -> Js.Num.
Variable cfg : Rt.Config.
Variable env : Env.
Variable req : Rt.Request.

(** X8.  No error escapes a handler.  Whenever every external call settles,
    whether it resolves, rejects, answers with an error status or with text
    that is not JSON, each of the four handlers returns a response and does
    not throw; that response carries the three cross-origin headers, and its
    status is 200, 204 or 500.  A call that never settles is outside
    [Rt.Fetch], and of such a request nothing is said. *)
Theorem handlers_contain_errors :
  Behaviour.returns (GraceApi.handler Date_parse cfg env req)
    (fun r => Behaviour.hasCors r /\ In (Rt.statusCode r) [200; 204; 500]) /\
  Behaviour.returns (PlaylistApi.handler Date_parse cfg env req)
    (fun r => Behaviour.hasCors r /\ In (Rt.statusCode r) [200; 204; 500]) /\
  Behaviour.returns (SearchApi.handler Date_parse cfg env req)
    (fun r => Behaviour.hasCors r /\ In (Rt.statusCode r) [200; 204; 500]) /\
  Behaviour.returns (SearchApi2.handler Date_parse cfg env req)
    (fun r => Behaviour.hasCors r /\ In (Rt.statusCode r) [200; 204; 500]).
Proof.
  split; [|split; [|split]].
  - unfold GraceApi.handler.
    destruct (String.eqb _ _); [apply returns_ret, wellFormed_preflight|].
    apply returns_after_clock. intros g. apply returns_try_catch.
    + unfold GraceApi.respond. yields_json.
    + intros e. apply returns_ret, wellFormed_json. simpl; tauto.
  - unfold PlaylistApi.handler.
    destruct (String.eqb _ _); [apply returns_ret, wellFormed_preflight|].
    apply returns_try_catch.
    + unfold PlaylistApi.respond. yields_json.
    + intros e. apply returns_ret, wellFormed_json. simpl; tauto.
  - unfold SearchApi.handler.
    destruct (String.eqb _ _); [apply returns_ret, wellFormed_preflight|].
    apply returns_try_catch.
    + unfold SearchApi.replayOrNone. yields_json.
    + intros e. destruct (SearchApi.debugFlag req).
      * apply returns_ret. split; [repeat split | simpl; tauto].
      * apply returns_ret, wellFormed_json. simpl; tauto.
  - unfold SearchApi2.handler.
    destruct (String.eqb _ _); [apply returns_ret, wellFormed_preflight|].
    apply returns_try_catch.
    + unfold SearchApi2.replayOrNone. yields_json.
    + intros e. apply returns_ret, wellFormed_json. simpl; tauto.
Qed.

End AnswersOfHandlers.

(** ** The handlers: how many external calls, and which *)

Section CallBudget.

(** A property of the process that only reads the memo. *)
Variable J : option string -> Prop.
Variable allowed : Rt.Call -> Prop.

Local Abbreviation I := (fun p => J (Rt.cachedUploadsPlaylistId p)).
Local Abbreviation calls n m := (Behaviour.callsUnder I n allowed m).

Lemma calls_quiet {A : Type} (m : Rt.M A) :
  (forall p, Rt.trace (snd (m p)) = Rt.trace p /\
             Rt.cachedUploadsPlaylistId (snd (m p)) = Rt.cachedUploadsPlaylistId p) ->
  calls 0%nat m.
Proof.
  intros H p Hp. destruct (H p) as (T & C). rewrite C. split; [exact Hp|].
  exists []. rewrite app_nil_r. repeat split; auto.
Qed.

Lemma calls_ret {A : Type} (a : A) : calls 0%nat (Rt.ret a).
Proof. apply calls_quiet. intros p. split; reflexivity. Qed.

Lemma calls_throw {A : Type} (e : Js.Error) : calls 0%nat (@Rt.throw A e).
Proof. apply calls_quiet. intros p. split; reflexivity. Qed.

Lemma calls_Date_now (clock : nat -> Z) : calls 0%nat (Rt.Date_now clock).
Proof. apply calls_quiet. intros p. split; reflexivity. Qed.

Lemma calls_fetchJson {A : Type} (c : Rt.Call) (r : Rt.Fetch A) :
  allowed c -> calls 1%nat (Rt.fetchJson c r).
Proof.
  intros Hc p Hp. unfold Rt.fetchJson.
  destruct r as [e|ok status text [e|a]]; try destruct ok; simpl;
    (split; [exact Hp|]); eexists; (split; [reflexivity|]);
    (split; [simpl; lia | repeat constructor; exact Hc]).
Qed.

Lemma calls_weaken {A : Type} (n n' : nat) (m : Rt.M A) :
  calls n m -> (n <= n')%nat -> calls n' m.
Proof.
  intros H Hle p Hp. destruct (H p Hp) as (Hi & new & T & L & F).
  split; [exact Hi|]. exists new. repeat split; auto. lia.
Qed.

Lemma calls_bind {A B : Type} (n1 n2 : nat) (m : Rt.M A) (k : A -> Rt.M B) :
  calls n1 m -> (forall a, calls n2 (k a)) -> calls (n1 + n2)%nat (Rt.bind m k).
Proof.
  intros Hm Hk p Hp. unfold Rt.bind.
  destruct (Hm p Hp) as (Hi & new1 & T1 & L1 & F1).
  destruct (m p) as [[a|e] p1]; simpl in *.
  - destruct (Hk a p1 Hi) as (Hi2 & new2 & T2 & L2 & F2).
    split; [exact Hi2|]. exists (new1 ++ new2).
    rewrite T2, T1, app_assoc, length_app.
    repeat split; [lia | apply Forall_app; auto].
  - split; [exact Hi|]. exists new1. repeat split; auto. lia.
Qed.

Lemma calls_try_catch {A : Type} (n1 n2 : nat) (m : Rt.M A)
      (h : Js.Error -> Rt.M A) :
  calls n1 m -> (forall e, calls n2 (h e)) ->
  calls (n1 + n2)%nat (Rt.try_catch m h).
Proof.
  intros Hm Hh p Hp. unfold Rt.try_catch.
  destruct (Hm p Hp) as (Hi & new1 & T1 & L1 & F1).
  destruct (m p) as [[a|e] p1]; simpl in *.
  - split; [exact Hi|]. exists new1. repeat split; auto. lia.
  - destruct (Hh e p1 Hi) as (Hi2 & new2 & T2 & L2 & F2).
    split; [exact Hi2|]. exists (new1 ++ new2).
    rewrite T2, T1, app_assoc, length_app.
    repeat split; [lia | apply Forall_app; auto].
Qed.

End CallBudget.

(** Proves a call budget of a computation without external calls. *)
Ltac no_calls :=
  repeat first
    [ apply calls_ret | apply calls_throw | apply calls_Date_now
    | apply (calls_bind _ _ 0 0); [|intros ?]
    | match goal with
      | |- Behaviour.callsUnder _ _ _ (match ?x with _ => _ end) => destruct x
      | |- Behaviour.callsUnder _ _ _ (if ?b then _ else _) => destruct b
      end ].

Section CallBudgetOfHandlers.

Variable Date_parse : string -> Js.Num.
Variable cfg : Rt.Config.
Variable env : Env.

(** The calls of the playlist-based revisions: never [search.list]. *)
Local Abbreviation uploads c := (~ Behaviour.isSearch c).

(** The calls of a warm process: neither [search.list] nor [channels.list]. *)
Local Abbreviation warm c := (~ Behaviour.isSearch c /\ ~ Behaviour.isChannels c).

Lemma calls_getUploadsPlaylistId_cold :
  Behaviour.callsUnder (fun _ => True) 1 (fun c => uploads c)
    (GraceApi.getUploadsPlaylistId env).
Proof.
  intros p _. split; [exact I|]. unfold GraceApi.getUploadsPlaylistId.
  destruct (Js.whenTruthy (Rt.cachedUploadsPlaylistId p)).
  - exists []. rewrite app_nil_r. repeat split; auto.
  - unfold Rt.bind, Rt.fetchJson.
    destruct (channels env) as [e|ok status text [e|data]]; try destruct ok;
      simpl; try destruct (Js.whenTruthy (GraceApi.uploadsOf data)); simpl;
      eexists; (split; [reflexivity|]);
      (split; [simpl; lia | repeat constructor; simpl; tauto]).
Qed.

Lemma calls_getUploadsPlaylistId_warm (id : string) :
  Js.truthy (Some id) = true ->
  Behaviour.callsUnder (Behaviour.memoIs id) 0 (fun c => warm c)
    (GraceApi.getUploadsPlaylistId env).
Proof.
  intros Ht p Hp. rewrite (getUploadsPlaylistId_hit env p id Hp Ht). simpl.
  split; [exact Hp|]. exists []. rewrite app_nil_r. repeat split; auto.
Qed.

Lemma calls_listRecentUploadVideoIds_cold (maxResults : Z) :
  Behaviour.callsUnder (fun _ => True) 2 (fun c => uploads c)
    (GraceApi.listRecentUploadVideoIds env maxResults).
Proof.
  unfold GraceApi.listRecentUploadVideoIds.
  apply (calls_bind (fun _ => True) _ 1 1);
    [apply calls_getUploadsPlaylistId_cold | intros pid].
  apply (calls_bind (fun _ => True) _ 1 0); [|intros; apply (calls_ret (fun _ => True))].
  apply (calls_fetchJson (fun _ => True)). simpl. tauto.
Qed.

Lemma calls_listRecentUploadVideoIds_warm (id : string) (maxResults : Z) :
  Js.truthy (Some id) = true ->
  Behaviour.callsUnder (Behaviour.memoIs id) 1 (fun c => warm c)
    (GraceApi.listRecentUploadVideoIds env maxResults).
Proof.
  intros Ht. unfold GraceApi.listRecentUploadVideoIds.
  apply (calls_bind (fun o => o = Some id) _ 0 1);
    [apply calls_getUploadsPlaylistId_warm; exact Ht | intros pid].
  apply (calls_bind (fun o => o = Some id) _ 1 0); [|intros; apply (calls_ret (fun o => o = Some id))].
  apply (calls_fetchJson (fun o => o = Some id)). simpl. tauto.
Qed.

Lemma calls_getLiveStreamingDetails (J : option string -> Prop)
      (allowed : Rt.Call -> Prop) (ids : list string) :
  (forall l, allowed (Rt.videos_list l)) ->
  Behaviour.callsUnder (fun p => J (Rt.cachedUploadsPlaylistId p)) 1 allowed
    (GraceApi.getLiveStreamingDetails env ids).
Proof.
  intros Ha. unfold GraceApi.getLiveStreamingDetails. destruct ids.
  - apply (calls_weaken J _ 0); [apply calls_ret | lia].
  - apply (calls_bind J _ 1 0); [|intros; apply calls_ret].
    apply calls_fetchJson. apply Ha.
Qed.

(** The part of the grace-window handler after the uploads listing. *)
Lemma calls_grace_tail (J : option string -> Prop) (allowed : Rt.Call -> Prop)
      (generatedAt : Z) (ids : list string) :
  (forall l, allowed (Rt.videos_list l)) ->
  Behaviour.callsUnder (fun p => J (Rt.cachedUploadsPlaylistId p)) 1 allowed
    (youtubeFetchedAt <- Rt.Date_now (clock env) ;;
     match ids with
     | [] =>
         Rt.ret (Rt.json 200
                   {| GraceApi.error := None;
                      GraceApi.result := GraceApi.noneResult;
                      GraceApi.generatedAt := generatedAt;
                      GraceApi.youtubeFetchedAt := Some youtubeFetchedAt |}
                   600)
     | _ :: _ =>
         vs <- GraceApi.getLiveStreamingDetails env ids ;;
         result <- GraceApi.pickStateFromVideos Date_parse cfg env vs ;;
         GraceApi.respond cfg env
           {| GraceApi.error := None; GraceApi.result := result;
              GraceApi.generatedAt := generatedAt;
              GraceApi.youtubeFetchedAt := Some youtubeFetchedAt |}
     end).
Proof.
  intros Ha.
  apply (calls_bind J _ 0 1); [apply calls_Date_now | intros fetchedAt].
  destruct ids.
  - apply (calls_weaken J _ 0); [apply calls_ret | lia].
  - apply (calls_bind J _ 1 0);
      [apply calls_getLiveStreamingDetails; exact Ha | intros vs].
    unfold GraceApi.pickStateFromVideos, GraceApi.respond. no_calls.
Qed.

Lemma calls_grace_handler_cold (req : Rt.Request) :
  Behaviour.callsUnder (fun _ => True) 3 (fun c => uploads c)
    (GraceApi.handler Date_parse cfg env req).
Proof.
  unfold GraceApi.handler. destruct (String.eqb _ _).
  { apply (calls_weaken (fun _ => True) _ 0); [apply (calls_ret (fun _ => True)) | lia]. }
  apply (calls_bind (fun _ => True) _ 0 3); [apply (calls_Date_now (fun _ => True)) | intros g].
  apply (calls_try_catch (fun _ => True) _ 3 0); [|intros; apply (calls_ret (fun _ => True))].
  destruct (_ || _).
  { apply (calls_weaken (fun _ => True) _ 0); [apply (calls_ret (fun _ => True)) | lia]. }
  apply (calls_bind (fun _ => True) _ 2 1);
    [apply calls_listRecentUploadVideoIds_cold | intros ids].
  apply (calls_grace_tail (fun _ => True)). simpl. tauto.
Qed.

Lemma calls_grace_handler_warm (id : string) (req : Rt.Request) :
  Js.truthy (Some id) = true ->
  Behaviour.callsUnder (Behaviour.memoIs id) 2 (fun c => warm c)
    (GraceApi.handler Date_parse cfg env req).
Proof.
  intros Ht. unfold GraceApi.handler. destruct (String.eqb _ _).
  { apply (calls_weaken (fun o => o = Some id) _ 0); [apply (calls_ret (fun o => o = Some id)) | lia]. }
  apply (calls_bind (fun o => o = Some id) _ 0 2); [apply (calls_Date_now (fun o => o = Some id)) | intros g].
  apply (calls_try_catch (fun o => o = Some id) _ 2 0); [|intros; apply (calls_ret (fun o => o = Some id))].
  destruct (_ || _).
  { apply (calls_weaken (fun o => o = Some id) _ 0); [apply (calls_ret (fun o => o = Some id)) | lia]. }
  apply (calls_bind (fun o => o = Some id) _ 1 1);
    [apply calls_listRecentUploadVideoIds_warm; exact Ht | intros ids].
  apply (calls_grace_tail (fun o => o = Some id)). simpl. tauto.
Qed.

Lemma calls_playlist_tail (J : option string -> Prop) (allowed : Rt.Call -> Prop)
      (vs : list Yt.Video) :
  Behaviour.callsUnder (fun p => J (Rt.cachedUploadsPlaylistId p)) 0 allowed
    (result <- PlaylistApi.pickStateFromVideos Date_parse env vs ;;
     PlaylistApi.respond env result).
Proof. unfold PlaylistApi.pickStateFromVideos, PlaylistApi.respond. no_calls. Qed.

Lemma calls_playlist_handler (req : Rt.Request) :
  Behaviour.callsUnder (fun _ => True) 3 (fun c => uploads c)
    (PlaylistApi.handler Date_parse cfg env req).
Proof.
  unfold PlaylistApi.handler. destruct (String.eqb _ _).
  { apply (calls_weaken (fun _ => True) _ 0); [apply (calls_ret (fun _ => True)) | lia]. }
  apply (calls_try_catch (fun _ => True) _ 3 0); [|intros; apply (calls_ret (fun _ => True))].
  destruct (_ || _).
  { apply (calls_weaken (fun _ => True) _ 0); [apply (calls_ret (fun _ => True)) | lia]. }
  apply (calls_bind (fun _ => True) _ 2 1);
    [apply calls_listRecentUploadVideoIds_cold | intros ids].
  destruct ids.
  { apply (calls_weaken (fun _ => True) _ 0); [apply (calls_ret (fun _ => True)) | lia]. }
  apply (calls_bind (fun _ => True) _ 1 0).
  - apply (calls_getLiveStreamingDetails (fun _ => True)). simpl. tauto.
  - intros vs. apply (calls_playlist_tail (fun _ => True)).
Qed.

(** X9.  The playlist-based handlers perform at most three external calls
    per request and never call [search.list]; once the uploads playlist is
    memoized, the grace-window handler performs at most two, neither
    [search.list] nor [channels.list], and leaves the memo as it is. *)
Theorem uploads_handlers_call_budget (req : Rt.Request) (id : string) :
  Behaviour.callsUnder (fun _ => True) 3 (fun c => ~ Behaviour.isSearch c)
    (GraceApi.handler Date_parse cfg env req) /\
  Behaviour.callsUnder (fun _ => True) 3 (fun c => ~ Behaviour.isSearch c)
    (PlaylistApi.handler Date_parse cfg env req) /\
  (Js.truthy (Some id) = true ->
   Behaviour.callsUnder (Behaviour.memoIs id) 2
     (fun c => ~ Behaviour.isSearch c /\ ~ Behaviour.isChannels c)
     (GraceApi.handler Date_parse cfg env req)).
Proof.
  split; [apply calls_grace_handler_cold|].
  split; [apply calls_playlist_handler|].
  apply calls_grace_handler_warm.
Qed.

End CallBudgetOfHandlers.

Section CallBudgetOfSearchHandlers.

Variable Date_parse : string -> Js.Num.
Variable cfg : Rt.Config.
Variable env : Env.

Local Abbreviation anyState := (fun _ : option string => True).
Local Abbreviation searching c := (Behaviour.isSearch c \/ Behaviour.isVideos c).

Lemma calls_ytSearch (eventType : string) (maxResults : Z) :
  Behaviour.callsUnder (fun _ => True) 1 (fun c => searching c)
    (SearchApi.ytSearch env eventType maxResults).
Proof.
  unfold SearchApi.ytSearch. apply (calls_fetchJson anyState). simpl. tauto.
Qed.

Lemma calls_firstVideoId (it : SearchList.Item) :
  Behaviour.callsUnder (fun _ => True) 0 (fun c => searching c)
    (SearchApi.firstVideoId it).
Proof.
  unfold SearchApi.firstVideoId.
  destruct (SearchList.id it); [apply (calls_ret anyState) | apply (calls_throw anyState)].
Qed.

Lemma calls_pickSoonestUpcoming (limit : Z) :
  Behaviour.callsUnder (fun _ => True) 2 (fun c => searching c)
    (SearchApi.pickSoonestUpcoming Date_parse env limit).
Proof.
  unfold SearchApi.pickSoonestUpcoming.
  apply (calls_bind anyState _ 1 1); [apply calls_ytSearch | intros upcoming].
  destruct (Js.filterBoolean _).
  - apply (calls_weaken anyState _ 0); [apply (calls_ret anyState) | lia].
  - apply (calls_bind anyState _ 1 0).
    + apply (calls_fetchJson anyState). simpl. tauto.
    + intros details. apply (calls_bind anyState _ 0 0);
        [apply (calls_Date_now anyState) | intros; apply (calls_ret anyState)].
Qed.

(** A search for one item followed by a response built from it. *)
Lemma calls_search_then_respond (eventType : string)
      (k : SearchList.Data -> Rt.M (Rt.Response SearchApi.Body)) :
  (forall d, Behaviour.callsUnder (fun _ => True) 0 (fun c => searching c) (k d)) ->
  Behaviour.callsUnder (fun _ => True) 1 (fun c => searching c)
    (Rt.bind (SearchApi.ytSearch env eventType 1) k).
Proof.
  intros Hk. apply (calls_bind anyState _ 1 0); [apply calls_ytSearch | exact Hk].
Qed.

Lemma calls_replayOrNone :
  Behaviour.callsUnder (fun _ => True) 1 (fun c => searching c)
    (SearchApi.replayOrNone env) /\
  Behaviour.callsUnder (fun _ => True) 1 (fun c => searching c)
    (SearchApi2.replayOrNone env).
Proof.
  split; apply calls_search_then_respond; intros d;
    (destruct (Js.or_nil _); [apply (calls_ret anyState)|]);
    (apply (calls_bind anyState _ 0 0);
       [apply calls_firstVideoId | intros; apply (calls_ret anyState)]).
Qed.

(** X10.  The search-based handlers perform at most four external calls per
    request, all of them [search.list] or [videos.list]. *)
Theorem search_handlers_call_budget (req : Rt.Request) :
  Behaviour.callsUnder (fun _ => True) 4
    (fun c => Behaviour.isSearch c \/ Behaviour.isVideos c)
    (SearchApi.handler Date_parse cfg env req) /\
  Behaviour.callsUnder (fun _ => True) 4
    (fun c => Behaviour.isSearch c \/ Behaviour.isVideos c)
    (SearchApi2.handler Date_parse cfg env req).
Proof.
  destruct calls_replayOrNone as (R1 & R2).
  split.
  - unfold SearchApi.handler. destruct (String.eqb _ _).
    { apply (calls_weaken anyState _ 0); [apply (calls_ret anyState) | lia]. }
    apply (calls_try_catch anyState _ 4 0).
    2: { intros e. destruct (SearchApi.debugFlag req); apply (calls_ret anyState). }
    destruct (_ || _).
    { apply (calls_weaken anyState _ 0); [apply (calls_ret anyState) | lia]. }
    apply (calls_bind anyState _ 1 3); [apply calls_ytSearch | intros live].
    destruct (Js.or_nil _).
    + apply (calls_bind anyState _ 2 1); [apply calls_pickSoonestUpcoming|].
      intros [s|]; [|exact R1].
      destruct (negb _); [|exact R1].
      apply (calls_weaken anyState _ 0); [|lia].
      apply (calls_bind anyState _ 0 0);
        [apply (calls_Date_now anyState) | intros; apply (calls_ret anyState)].
    + apply (calls_weaken anyState _ 0); [|lia].
      apply (calls_bind anyState _ 0 0);
        [apply calls_firstVideoId | intros; apply (calls_ret anyState)].
  - unfold SearchApi2.handler. destruct (String.eqb _ _).
    { apply (calls_weaken anyState _ 0); [apply (calls_ret anyState) | lia]. }
    apply (calls_try_catch anyState _ 4 0); [|intros; apply (calls_ret anyState)].
    destruct (_ || _).
    { apply (calls_weaken anyState _ 0); [apply (calls_ret anyState) | lia]. }
    apply (calls_bind anyState _ 1 3); [apply calls_ytSearch | intros live].
    destruct (Js.or_nil _).
    + apply (calls_bind anyState _ 2 1); [apply calls_pickSoonestUpcoming|].
      intros [s|]; [|exact R2].
      destruct (negb _); [|exact R2].
      apply (calls_weaken anyState _ 0); [|lia].
      apply (calls_bind anyState _ 0 0);
        [apply (calls_Date_now anyState) | intros; apply (calls_ret anyState)].
    + apply (calls_weaken anyState _ 0); [|lia].
      apply (calls_bind anyState _ 0 0);
        [apply calls_firstVideoId | intros; apply (calls_ret anyState)].
Qed.

End CallBudgetOfSearchHandlers.

(** ** The memo over the lifetime of the process *)

Section WarmProcess.

Variable Date_parse : string -> Js.Num.
Variable cfg : Rt.Config.

(** X11.  Once the uploads playlist is memoized, the process keeps it for
    good: after serving any sequence of requests, against whatever the remote
    API answers, the memo holds the same identifier, at most two external
    calls were made per request, and none of them is [channels.list]. *)
Theorem warm_process_never_looks_up_again
        (id : string) (reqs : list (Env * Rt.Request)) (p : Rt.Proc) :
  Js.truthy (Some id) = true ->
  Behaviour.memoIs id p ->
  Behaviour.memoIs id (Behaviour.serve Date_parse cfg reqs p) /\
  exists new,
    Rt.trace (Behaviour.serve Date_parse cfg reqs p) = Rt.trace p ++ new /\
    (List.length new <= 2 * List.length reqs)%nat /\
    Forall (fun ce => ~ Behaviour.isChannels (fst ce)) new.
Proof.
  intros Ht. revert p. unfold Behaviour.serve.
  induction reqs as [|[env req] reqs IH]; intros p Hp; simpl fold_left.
  - split; [exact Hp|]. exists []. rewrite app_nil_r. repeat split; auto.
  - destruct (calls_grace_handler_warm Date_parse cfg env id req Ht p Hp)
      as (Hp1 & new1 & T1 & L1 & F1).
    destruct (IH _ Hp1) as (Hp2 & new2 & T2 & L2 & F2).
    split; [exact Hp2|]. exists (new1 ++ new2). simpl fst in *. simpl snd in *.
    rewrite T2, T1, app_assoc, length_app. split; [reflexivity|].
    split; [simpl List.length; lia|].
    apply Forall_app. split; [|exact F2].
    eapply Forall_impl; [|exact F1]. cbv beta. tauto.
Qed.

End WarmProcess.

(** ** The grace-window handler on a warm process, end to end *)

Section GraceEndToEnd.

Variable Date_parse : string -> Js.Num.
Variable cfg : Rt.Config.
Variable env : Env.

(** The ids [listRecentUploadVideoIds] reads off a [playlistItems.list]
    response. *)
Local Abbreviation idsOf data :=
  (Js.filterBoolean
     (map (fun it => Js.chain (PlaylistItems.contentDetails it) PlaylistItems.videoId)
          (Js.or_nil (PlaylistItems.items data)))).

Lemma listRecentUploadVideoIds_warm (q : Rt.Proc) (pid : string)
      (status : Z) (text : string) (data : PlaylistItems.Data) :
  Behaviour.memoIs pid q -> Js.truthy (Some pid) = true ->
  playlistItems env pid 20 = Rt.Responded true status text (inr data) ->
  GraceApi.listRecentUploadVideoIds env 20 q =
    (Rt.Returned (idsOf data),
     Rt.record_call (Rt.playlistItems_list pid 20) None q).
Proof.
  intros Hmemo Ht Hpl. unfold GraceApi.listRecentUploadVideoIds, Rt.bind.
  rewrite (getUploadsPlaylistId_hit env q pid Hmemo Ht).
  unfold Rt.fetchJson. rewrite Hpl. reflexivity.
Qed.

Lemma respond_trace (body : GraceApi.Body) (q : Rt.Proc) :
  Rt.trace (snd (GraceApi.respond cfg env body q)) = Rt.trace q.
Proof.
  unfold GraceApi.respond.
  destruct (Grace.isUpcomingWithStart _); reflexivity.
Qed.

Section Run.

Variable req : Rt.Request.
Variable p : Rt.Proc.
Variable pid : string.
Variable status : Z.
Variable text : string.
Variable data : PlaylistItems.Data.

Hypothesis not_preflight : String.eqb (Rt.method req) "OPTIONS" = false.
Hypothesis has_key : Js.truthy (Rt.API_KEY cfg) = true.
Hypothesis has_channel : Js.truthy (Rt.CHANNEL_ID cfg) = true.
Hypothesis warm : Behaviour.memoIs pid p.
Hypothesis warm_truthy : Js.truthy (Some pid) = true.
Hypothesis listed :
  playlistItems env pid 20 = Rt.Responded true status text (inr data).

Lemma run_without_ids :
  idsOf data = [] ->
  exists q,
    GraceApi.handler Date_parse cfg env req p =
      (Rt.Returned
         (Rt.json 200
            {| GraceApi.error := None;
               GraceApi.result := Yt.mkResult Yt.none None None;
               GraceApi.generatedAt := clock env (Rt.ticks p);
               GraceApi.youtubeFetchedAt := Some (clock env (1 + Rt.ticks p)) |}
            600), q) /\
    Rt.trace q = Rt.trace p ++ [(Rt.playlistItems_list pid 20, None)].
Proof.
  intros E.
  unfold GraceApi.handler. rewrite not_preflight, has_key, has_channel.
  cbn [negb orb]. unfold Rt.bind at 1. unfold Rt.Date_now at 1. cbv beta iota.
  unfold Rt.try_catch. unfold Rt.bind at 1.
  match goal with
  | |- context [GraceApi.listRecentUploadVideoIds env 20 ?q] =>
      rewrite (listRecentUploadVideoIds_warm q pid status text data
                 warm warm_truthy listed)
  end.
  rewrite E. eexists. split; reflexivity.
Qed.

Lemma run_with_ids (status' : Z) (text' : string) (vdata : Videos.Data) :
  idsOf data <> [] ->
  videos env (idsOf data) = Rt.Responded true status' text' (inr vdata) ->
  exists q,
    GraceApi.handler Date_parse cfg env req p =
      (Rt.Returned
         (Rt.json 200
            {| GraceApi.error := None;
               GraceApi.result :=
                 Grace.pickStateFromVideos Date_parse (GraceApi.GRACE_MS cfg)
                   (clock env (2 + Rt.ticks p)) (Js.or_nil (Videos.items vdata));
               GraceApi.generatedAt := clock env (Rt.ticks p);
               GraceApi.youtubeFetchedAt := Some (clock env (1 + Rt.ticks p)) |}
            (Grace.cacheSeconds (GraceApi.GRACE_MS cfg)
               (clock env (3 + Rt.ticks p))
               (Grace.pickStateFromVideos Date_parse (GraceApi.GRACE_MS cfg)
                  (clock env (2 + Rt.ticks p)) (Js.or_nil (Videos.items vdata))))),
       q) /\
    Rt.trace q = Rt.trace p ++ [(Rt.playlistItems_list pid 20, None);
                                (Rt.videos_list (idsOf data), None)].
Proof.
  intros Hne Hv.
  unfold GraceApi.handler. rewrite not_preflight, has_key, has_channel.
  cbn [negb orb]. unfold Rt.bind at 1. unfold Rt.Date_now at 1. cbv beta iota.
  unfold Rt.try_catch. unfold Rt.bind at 1.
  match goal with
  | |- context [GraceApi.listRecentUploadVideoIds env 20 ?q] =>
      rewrite (listRecentUploadVideoIds_warm q pid status text data
                 warm warm_truthy listed)
  end.
  destruct (idsOf data) as [|i ids] eqn:E; [congruence|].
  unfold Rt.bind at 1. unfold Rt.Date_now at 1. cbv beta iota.
  unfold Rt.bind at 1. unfold GraceApi.getLiveStreamingDetails.
  unfold Rt.bind at 1. unfold Rt.fetchJson at 1. rewrite Hv.
  cbn [negb]. cbv beta iota. unfold Rt.ret at 1. cbv beta iota.
  unfold Rt.bind at 1. unfold GraceApi.pickStateFromVideos.
  unfold Rt.bind at 1. unfold Rt.Date_now at 1. unfold Rt.ret at 1.
  cbv beta iota.
  match goal with
  | |- context [GraceApi.respond cfg env ?b ?q] =>
      pose proof (respond_lifetime cfg env b q) as L;
      pose proof (respond_trace b q) as T;
      destruct (GraceApi.respond cfg env b q) as [o q']
  end.
  simpl fst in *. simpl snd in *. subst o.
  eexists. split; [reflexivity|]. rewrite T. simpl. rewrite <- app_assoc.
  reflexivity.
Qed.

End Run.

(** X12.  On a process with the uploads playlist memoized and a complete
    configuration, when [playlistItems.list] succeeds: if it yields no valid
    video id, the handler answers [none], cached 600 s, without calling
    [videos.list]; otherwise, when [videos.list] succeeds, the body holds the
    state selected from the returned videos at the third clock reading, and
    the lifetime is the one derived from that state at the fourth. *)
Theorem grace_handler_end_to_end
        (req : Rt.Request) (p : Rt.Proc) (pid : string)
        (status : Z) (text : string) (data : PlaylistItems.Data) :
  String.eqb (Rt.method req) "OPTIONS" = false ->
  Js.truthy (Rt.API_KEY cfg) = true ->
  Js.truthy (Rt.CHANNEL_ID cfg) = true ->
  Behaviour.memoIs pid p -> Js.truthy (Some pid) = true ->
  playlistItems env pid 20 = Rt.Responded true status text (inr data) ->
  (idsOf data = [] ->
   fst (GraceApi.handler Date_parse cfg env req p) =
     Rt.Returned
       (Rt.json 200
          {| GraceApi.error := None;
             GraceApi.result := Yt.mkResult Yt.none None None;
             GraceApi.generatedAt := clock env (Rt.ticks p);
             GraceApi.youtubeFetchedAt := Some (clock env (1 + Rt.ticks p)) |}
          600) /\
   Rt.trace (snd (GraceApi.handler Date_parse cfg env req p)) =
     Rt.trace p ++ [(Rt.playlistItems_list pid 20, None)]) /\
  (forall status' text' vdata,
     idsOf data <> [] ->
     videos env (idsOf data) = Rt.Responded true status' text' (inr vdata) ->
     let result :=
       Grace.pickStateFromVideos Date_parse (GraceApi.GRACE_MS cfg)
         (clock env (2 + Rt.ticks p)) (Js.or_nil (Videos.items vdata)) in
     fst (GraceApi.handler Date_parse cfg env req p) =
       Rt.Returned
         (Rt.json 200
            {| GraceApi.error := None;
               GraceApi.result := result;
               GraceApi.generatedAt := clock env (Rt.ticks p);
               GraceApi.youtubeFetchedAt := Some (clock env (1 + Rt.ticks p)) |}
            (Grace.cacheSeconds (GraceApi.GRACE_MS cfg)
               (clock env (3 + Rt.ticks p)) result)) /\
     Rt.trace (snd (GraceApi.handler Date_parse cfg env req p)) =
       Rt.trace p ++ [(Rt.playlistItems_list pid 20, None);
                      (Rt.videos_list (idsOf data), None)]).
Proof.
  intros Hm Hk Hc Hmemo Ht Hpl. split.
  - intros E.
    destruct (run_without_ids req p pid status text data Hm Hk Hc Hmemo Ht Hpl E)
      as (q & -> & T). auto.
  - intros status' text' vdata Hne Hv result.
    destruct (run_with_ids req p pid status text data Hm Hk Hc Hmemo Ht Hpl
                status' text' vdata Hne Hv) as (q & -> & T). auto.
Qed.

End GraceEndToEnd.

(** ** The two search revisions *)

Section SearchRevisions.

Variable Date_parse : string -> Js.Num.
Variable cfg : Rt.Config.
Variable env : Env.

Lemma replayOrNone_agree (p : Rt.Proc) :
  snd (SearchApi.replayOrNone env p) = snd (SearchApi2.replayOrNone env p) /\
  match fst (SearchApi.replayOrNone env p), fst (SearchApi2.replayOrNone env p) with
  | Rt.Returned r1, Rt.Returned r2 =>
      Rt.statusCode r1 = Rt.statusCode r2 /\ Rt.body r1 = Rt.body r2
  | Rt.Thrown e1, Rt.Thrown e2 => e1 = e2
  | _, _ => False
  end.
Proof.
  unfold SearchApi.replayOrNone, SearchApi2.replayOrNone, SearchApi.ytSearch,
    SearchApi.firstVideoId, Rt.bind, Rt.fetchJson, Rt.ret, Rt.throw.
  destruct (search env "completed" 1) as [e|ok status text [e|d]];
    try destruct ok; simpl; auto.
  destruct (Js.or_nil (SearchList.items d)) as [|it l]; simpl; auto.
  destruct (SearchList.id it); simpl; auto.
Qed.

(** X13.  Without the debug flag the two search revisions behave alike: for
    every request and every behaviour of the remote API they leave the
    process in the same state and answer with the same status and the same
    body; only the cache lifetime may differ. *)
Theorem search_revisions_agree (req : Rt.Request) (p : Rt.Proc) :
  SearchApi.debugFlag req = false ->
  Behaviour.sameAnswer (SearchApi.handler Date_parse cfg env req p)
                       (SearchApi2.handler Date_parse cfg env req p).
Proof.
  intros Hd. unfold SearchApi.handler, SearchApi2.handler. rewrite Hd.
  assert (Same : forall (r1 r2 : Rt.Response SearchApi.Body) q,
            Rt.statusCode r1 = Rt.statusCode r2 -> Rt.body r1 = Rt.body r2 ->
            Behaviour.sameAnswer (Rt.Returned r1, q) (Rt.Returned r2, q)).
  { intros r1 r2 q Hs Hb. split; [reflexivity|]. exists r1, r2. auto. }
  destruct (String.eqb _ _); [apply Same; reflexivity|].
  unfold Rt.try_catch.
  destruct (_ || _); [apply Same; reflexivity|].
  unfold Rt.bind, SearchApi.ytSearch, Rt.fetchJson.
  destruct (search env "live" 1) as [e|ok status text [e|d]];
    try destruct ok; cbn [negb]; try (apply Same; reflexivity).
  destruct (Js.or_nil (SearchList.items d)) as [|it l].
  2: { unfold SearchApi.firstVideoId, Rt.ret, Rt.throw.
       destruct (SearchList.id it); apply Same; reflexivity. }
  destruct (SearchApi.pickSoonestUpcoming Date_parse env 10 _) as [[[s|]|e] q].
  - destruct (negb _).
    + unfold Rt.Date_now, Rt.ret. apply Same; reflexivity.
    + destruct (replayOrNone_agree q) as (S & O).
      destruct (SearchApi.replayOrNone env q) as [[r1|e1] q1],
               (SearchApi2.replayOrNone env q) as [[r2|e2] q2];
        simpl in *; subst; try contradiction; apply Same; tauto.
  - destruct (replayOrNone_agree q) as (S & O).
    destruct (SearchApi.replayOrNone env q) as [[r1|e1] q1],
             (SearchApi2.replayOrNone env q) as [[r2|e2] q2];
      simpl in *; subst; try contradiction; apply Same; tauto.
  - apply Same; reflexivity.
Qed.

(** X14.  When the live search finds a broadcast, both search revisions
    answer [live] with the id of the first item after that single external
    call, cached 30 s by the revision with the debug flag and 60 s by the
    other. *)
Theorem search_live_wins_after_one_call
        (req : Rt.Request) (p : Rt.Proc) (status : Z) (text : string)
        (d : SearchList.Data) (it : SearchList.Item) (rest : list SearchList.Item)
        (i : SearchList.Id) :
  String.eqb (Rt.method req) "OPTIONS" = false ->
  Js.truthy (Rt.API_KEY cfg) = true ->
  Js.truthy (Rt.CHANNEL_ID cfg) = true ->
  search env "live" 1 = Rt.Responded true status text (inr d) ->
  SearchList.items d = Some (it :: rest) ->
  SearchList.id it = Some i ->
  SearchApi.handler Date_parse cfg env req p =
    (Rt.Returned
       (Rt.json 200
          (SearchApi.state_body
             (Yt.mkResult Yt.live (SearchList.videoId i) None)) 30),
     Rt.record_call (Rt.search_list "live" 1) None p) /\
  SearchApi2.handler Date_parse cfg env req p =
    (Rt.Returned
       (Rt.json 200
          (SearchApi.state_body
             (Yt.mkResult Yt.live (SearchList.videoId i) None)) 60),
     Rt.record_call (Rt.search_list "live" 1) None p).
Proof.
  intros Hm Hk Hc Hs Hi Hid.
  unfold SearchApi.handler, SearchApi2.handler.
  rewrite Hm, Hk, Hc. cbn [negb orb].
  unfold Rt.try_catch, Rt.bind, SearchApi.ytSearch, Rt.fetchJson.
  rewrite Hs. cbn [negb]. rewrite Hi. cbn [Js.or_nil].
  unfold SearchApi.firstVideoId. rewrite Hid. simpl.
  split; reflexivity.
Qed.

End SearchRevisions.

(** ** The uploads listing *)

Section UploadsListing.

Variable env : Env.

Lemma filterBoolean_truthy (l : list (option string)) :
  map Some (Js.filterBoolean l) = filter Js.truthy l /\
  Forall (fun i => i <> "") (Js.filterBoolean l).
Proof.
  unfold Js.filterBoolean. induction l as [|[x|] l (IH1 & IH2)]; simpl;
    [split; constructor | | split; assumption].
  destruct (String.eqb_spec x ""); simpl; [split; assumption|].
  rewrite IH1. split; [reflexivity | constructor; assumption].
Qed.

Lemma getUploadsPlaylistId_returned (p p' : Rt.Proc) (id : string) :
  GraceApi.getUploadsPlaylistId env p = (Rt.Returned id, p') ->
  Rt.cachedUploadsPlaylistId p' = Some id.
Proof.
  unfold GraceApi.getUploadsPlaylistId.
  destruct (Js.whenTruthy (Rt.cachedUploadsPlaylistId p)) as [c|] eqn:C.
  - intros [= <- <-]. apply whenTruthy_some in C. tauto.
  - unfold Rt.bind, Rt.fetchJson.
    destruct (channels env) as [e|ok status text [e|data]]; try destruct ok;
      simpl; try discriminate.
    destruct (Js.whenTruthy (GraceApi.uploadsOf data)) as [u|] eqn:U; simpl;
      [|discriminate].
    intros [= <- <-]. reflexivity.
Qed.

(** X15.  When [listRecentUploadVideoIds] returns, the memo holds the
    playlist it asked for, the [playlistItems.list] call for that playlist
    succeeded, and the result is exactly the non-empty video ids of the items
    of the response, in the order of the response: items without
    [contentDetails] or without a [videoId] are dropped. *)
Theorem listRecentUploadVideoIds_returns_valid_ids
        (maxResults : Z) (p p' : Rt.Proc) (ids : list string) :
  GraceApi.listRecentUploadVideoIds env maxResults p = (Rt.Returned ids, p') ->
  Forall (fun i => i <> "") ids /\
  exists pid status text data,
    Rt.cachedUploadsPlaylistId p' = Some pid /\
    playlistItems env pid maxResults = Rt.Responded true status text (inr data) /\
    In (Rt.playlistItems_list pid maxResults, None) (Rt.trace p') /\
    map Some ids =
      filter Js.truthy
        (map (fun it => Js.chain (PlaylistItems.contentDetails it)
                                 PlaylistItems.videoId)
             (Js.or_nil (PlaylistItems.items data))).
Proof.
  unfold GraceApi.listRecentUploadVideoIds, Rt.bind.
  destruct (GraceApi.getUploadsPlaylistId env p) as [[pid|e] p1] eqn:G;
    [|discriminate].
  apply getUploadsPlaylistId_returned in G.
  unfold Rt.fetchJson.
  destruct (playlistItems env pid maxResults) as [e|ok status text [e|data]] eqn:P;
    try destruct ok; simpl; try discriminate.
  intros [= <- <-].
  destruct (filterBoolean_truthy
              (map (fun it => Js.chain (PlaylistItems.contentDetails it)
                                       PlaylistItems.videoId)
                   (Js.or_nil (PlaylistItems.items data)))) as (M & F).
  split; [exact F|]. exists pid, status, text, data.
  split; [exact G|]. split; [exact P|].
  split; [simpl; apply in_or_app; right; left; reflexivity | exact M].
Qed.

End UploadsListing.

(** ** A grace setting that is not positive *)

Section GraceOff.

Variable Date_parse : string -> Js.Num.
Variable now : Z.

(** X16.  With [YT_LATE_START_GRACE_MINUTES] at zero or below the grace
    window is empty: an [upcoming] result never reports a start before [now]. *)
Theorem no_grace_minutes_no_past_start (GRACE_MINUTES : Z) (videos : list Yt.Video) :
  GRACE_MINUTES <= 0 ->
  Yt.state (Grace.pickStateFromVideos Date_parse
              (Grace.GRACE_MS_of GRACE_MINUTES) now videos) = Yt.upcoming ->
  exists v t, In v videos /\
    Grace.pickStateFromVideos Date_parse (Grace.GRACE_MS_of GRACE_MINUTES) now videos =
      Yt.mkResult Yt.upcoming (Some (Yt.id v)) (Some t) /\
    now <= t.
Proof.
  intros Hm Hs.
  assert (G : Grace.GRACE_MS_of GRACE_MINUTES = 0)
    by (unfold Grace.GRACE_MS_of; lia).
  rewrite G in *. unfold Grace.pickStateFromVideos in *.
  destruct (Js.find Grace.isLiveNow videos); [discriminate|].
  destruct (Js.or_else _ _) as [x|] eqn:U.
  - destruct (upcoming_pick_cases _ _ _ _ _ U) as (v & t & Hv & -> & Ht & Hrule).
    exists v, t. split; [exact Hv|]. split; [rewrite Ht; reflexivity|].
    unfold Grace.isGrace, Grace.isFuture in Hrule. rewrite Ht in Hrule.
    simpl in Hrule. destruct Hrule as [(_ & R)|(_ & R)].
    + rewrite !andb_true_iff, !Z.leb_le in R. lia.
    + rewrite andb_true_iff, Z.gtb_ltb, Z.ltb_lt in R. lia.
  - destruct (Grace.completed Date_parse videos); discriminate.
Qed.

End GraceOff.

(** ** Preflight and missing configuration *)

Section NoNeedToCall.

Variable Date_parse : string -> Js.Num.
Variable cfg : Rt.Config.
Variable env : Env.

(** X17.  A preflight request is answered by every handler with status 204,
    no body and no [Cache-Control] header, and the process is left untouched.
    Any other request on a configuration without API key or channel id is
    answered with status 500 and the error [Missing env vars], cached 60 s,
    without any external call; only the grace-window handler reads the clock,
    for its [generatedAt] stamp. *)
Theorem preflight_and_missing_configuration (req : Rt.Request) (p : Rt.Proc) :
  (String.eqb (Rt.method req) "OPTIONS" = true ->
   GraceApi.handler Date_parse cfg env req p = (Rt.Returned Rt.preflight, p) /\
   PlaylistApi.handler Date_parse cfg env req p = (Rt.Returned Rt.preflight, p) /\
   SearchApi.handler Date_parse cfg env req p = (Rt.Returned Rt.preflight, p) /\
   SearchApi2.handler Date_parse cfg env req p = (Rt.Returned Rt.preflight, p) /\
   Rt.statusCode (@Rt.preflight SearchApi.Body) = 204 /\
   Rt.body (@Rt.preflight SearchApi.Body) = None /\
   Rt.header "Cache-Control" (@Rt.preflight SearchApi.Body) = None) /\
  (String.eqb (Rt.method req) "OPTIONS" = false ->
   Js.truthy (Rt.API_KEY cfg) = false \/ Js.truthy (Rt.CHANNEL_ID cfg) = false ->
   GraceApi.handler Date_parse cfg env req p =
     (Rt.Returned
        (Rt.json 500
           {| GraceApi.error := Some "Missing env vars";
              GraceApi.result := Yt.mkResult Yt.none None None;
              GraceApi.generatedAt := clock env (Rt.ticks p);
              GraceApi.youtubeFetchedAt := None |} 60),
      {| Rt.cachedUploadsPlaylistId := Rt.cachedUploadsPlaylistId p;
         Rt.ticks := S (Rt.ticks p);
         Rt.trace := Rt.trace p |}) /\
   PlaylistApi.handler Date_parse cfg env req p =
     (Rt.Returned (Rt.json 500 (SearchApi.error_body "Missing env vars") 60), p) /\
   SearchApi.handler Date_parse cfg env req p =
     (Rt.Returned (Rt.json 500 (SearchApi.error_body "Missing env vars") 60), p) /\
   SearchApi2.handler Date_parse cfg env req p =
     (Rt.Returned (Rt.json 500 (SearchApi.error_body "Missing env vars") 60), p)).
Proof.
  unfold GraceApi.handler, PlaylistApi.handler, SearchApi.handler,
    SearchApi2.handler.
  split; intros Hm; rewrite Hm.
  - repeat split.
  - intros Hmissing.
    assert (M : negb (Js.truthy (Rt.API_KEY cfg))
                || negb (Js.truthy (Rt.CHANNEL_ID cfg)) = true).
    { destruct Hmissing as [-> | ->]; [reflexivity | apply orb_true_r]. }
    unfold Rt.try_catch, Rt.bind, Rt.Date_now. rewrite M.
    repeat split.
Qed.

End NoNeedToCall.

(** ** The lifetimes of the two playlist-based revisions *)

Section LifetimesCompared.

Variable GRACE_MS : Z.
Variable now : Z.

(** X18.  The lifetime derivations of the two playlist-based revisions,
    applied to one and the same result at the same instant, differ in exactly
    two cases: an [upcoming] start that is due within the grace window (5 s in
    the grace-window revision, 20 s in the playlist revision) and [live]
    (10 s against 60 s).  So on the same result the grace-window revision
    never derives the longer lifetime.  This compares the derivations only:
    from the same videos the two revisions may select different results. *)
Theorem same_result_lifetimes_compared (result : Yt.StateResult) :
  (Grace.isUpcomingWithStart result = true ->
   Grace.cacheSeconds GRACE_MS now result <=
     PlaylistApi.upcomingCacheSeconds now (Yt.upcomingStartMs result) /\
   (Grace.cacheSeconds GRACE_MS now result <>
      PlaylistApi.upcomingCacheSeconds now (Yt.upcomingStartMs result) <->
    Js.value (Yt.upcomingStartMs result) <= now /\
    now - Js.value (Yt.upcomingStartMs result) <= GRACE_MS) /\
   (Js.value (Yt.upcomingStartMs result) <= now ->
    now - Js.value (Yt.upcomingStartMs result) <= GRACE_MS ->
    Grace.cacheSeconds GRACE_MS now result = 5 /\
    PlaylistApi.upcomingCacheSeconds now (Yt.upcomingStartMs result) = 20)) /\
  (Grace.isUpcomingWithStart result = false ->
   Grace.cacheSeconds GRACE_MS now result <= PlaylistApi.otherCacheSeconds result /\
   (Grace.cacheSeconds GRACE_MS now result <> PlaylistApi.otherCacheSeconds result <->
    Yt.state result = Yt.live) /\
   (Yt.state result = Yt.live ->
    Grace.cacheSeconds GRACE_MS now result = 10 /\
    PlaylistApi.otherCacheSeconds result = 60)).
Proof.
  unfold Grace.cacheSeconds. split; intros H; rewrite H.
  - unfold Grace.upcomingCacheSeconds, PlaylistApi.upcomingCacheSeconds.
    cbv zeta. set (d := Js.value (Yt.upcomingStartMs result) - now).
    change (2 * 60 * 60 * 1000) with 7200000.
    change (30 * 60 * 1000) with 1800000.
    rewrite !Z.gtb_ltb.
    assert (Hd : Js.value (Yt.upcomingStartMs result) = d + now) by (unfold d; lia).
    rewrite Hd. clearbody d.
    destruct (Z.leb_spec d 0);
      [destruct (Z.ltb_spec d 0);
         [destruct (Z.leb_spec (Z.abs d) GRACE_MS)
         |destruct (Z.leb_spec 0 GRACE_MS)]|];
      cbn [andb];
      destruct (Z.ltb_spec 7200000 d); destruct (Z.ltb_spec 1800000 d);
      (split; [lia|]); (split; [split|]); intros; try lia;
      try (split; lia); exfalso; auto.
  - unfold Grace.otherCacheSeconds, PlaylistApi.otherCacheSeconds.
    destruct (Yt.state result); simpl;
      (split; [lia|]); (split; [split|]); intros; try lia;
      try discriminate; try reflexivity; try (split; reflexivity);
      exfalso; auto.
Qed.

End LifetimesCompared.

(** ** The further properties on sample inputs *)

Section FurtherRuns.

Import Samples.
Import Scenarios.

(** Reads the instant off a [parsesTo] fact about a concrete video. *)
Ltac instant H :=
  let s := fresh "s" in
  let Hs := fresh "Hs" in
  let Hp := fresh "Hp" in
  destruct H as (s & Hs & Hp); injection Hs as <-; vm_compute in Hp;
  injection Hp as <-.

(** X1 on a broadcast due four minutes ago and one in three hours. *)
Lemma state_decision_table_witness :
  IsoDate.parse "" = None /\
  (Yt.state (Grace.pickStateFromVideos IsoDate.parse tenMinutes now lateStart) =
     Yt.upcoming <->
   ~ (exists v, In v lateStart /\ Claims.liveCandidate v) /\
   exists v t, In v lateStart /\
     (Claims.graceCandidate IsoDate.parse tenMinutes now v t \/
      Claims.futureCandidate IsoDate.parse now v t)).
Proof.
  split; [reflexivity|].
  exact (proj1 (proj2 (state_decision_table IsoDate.parse tenMinutes now
                         eq_refl lateStart))).
Defined.

(** X2 on an ended broadcast with and without its schedule. *)
Lemma schedule_of_ended_candidates_is_ignored_witness :
  Forall2
    (fun v v' =>
       Yt.id v = Yt.id v' /\
       Yt.actualStart v = Yt.actualStart v' /\
       Yt.actualEnd v = Yt.actualEnd v' /\
       (Claims.absent (Yt.actualEnd v) ->
        Yt.scheduledStart v = Yt.scheduledStart v'))
    endedEarly endedEarlyUnscheduled /\
  Grace.pickStateFromVideos IsoDate.parse tenMinutes now endedEarly =
  Grace.pickStateFromVideos IsoDate.parse tenMinutes now endedEarlyUnscheduled.
Proof.
  assert (H : Forall2
    (fun v v' =>
       Yt.id v = Yt.id v' /\
       Yt.actualStart v = Yt.actualStart v' /\
       Yt.actualEnd v = Yt.actualEnd v' /\
       (Claims.absent (Yt.actualEnd v) ->
        Yt.scheduledStart v = Yt.scheduledStart v'))
    endedEarly endedEarlyUnscheduled).
  { repeat constructor. intros E. discriminate E. }
  split; [exact H|].
  exact (schedule_of_ended_candidates_is_ignored IsoDate.parse tenMinutes now
           endedEarly endedEarlyUnscheduled H).
Defined.

(** X3 on two broadcasts scheduled for the same instant. *)
Lemma ties_go_to_the_earlier_candidate_witness :
  IsoDate.parse "" = None /\
  Yt.state (Grace.pickStateFromVideos IsoDate.parse tenMinutes now sameHour) =
    Yt.upcoming /\
  exists l1 v l2 t,
    sameHour = l1 ++ v :: l2 /\
    Grace.pickStateFromVideos IsoDate.parse tenMinutes now sameHour =
      Yt.mkResult Yt.upcoming (Some (Yt.id v)) (Some t) /\
    (Claims.graceCandidate IsoDate.parse tenMinutes now v t /\
     (forall u tu, In u l1 ->
        Claims.graceCandidate IsoDate.parse tenMinutes now u tu -> tu < t) \/
     Claims.futureCandidate IsoDate.parse now v t /\
     (forall u tu, In u l1 ->
        Claims.futureCandidate IsoDate.parse now u tu -> t < tu)).
Proof.
  split; [reflexivity|]. split; [reflexivity|].
  exact (proj1 (ties_go_to_the_earlier_candidate IsoDate.parse tenMinutes now
                  eq_refl sameHour) eq_refl).
Defined.

(** X4 on a broadcast in two hours and one in ten minutes. *)
Lemma playlist_agrees_outside_the_fixes_witness :
  IsoDate.parse "" = None /\
  (forall v t, In v twoScheduled ->
     ~ Claims.graceCandidate IsoDate.parse tenMinutes now v t) /\
  (forall v t, In v twoScheduled -> Claims.present (Yt.actualEnd v) ->
     Claims.parsesTo IsoDate.parse (Yt.scheduledStart v) t -> t <= now) /\
  Playlist.pickStateFromVideos IsoDate.parse now twoScheduled =
  Grace.pickStateFromVideos IsoDate.parse tenMinutes now twoScheduled.
Proof.
  assert (H1 : forall v t, In v twoScheduled ->
     ~ Claims.graceCandidate IsoDate.parse tenMinutes now v t).
  { intros v t [<-|[<-|[]]] (_ & _ & P & L & _); instant P;
      unfold now in L; lia. }
  assert (H2 : forall v t, In v twoScheduled -> Claims.present (Yt.actualEnd v) ->
     Claims.parsesTo IsoDate.parse (Yt.scheduledStart v) t -> t <= now).
  { intros v t [<-|[<-|[]]] E; discriminate E. }
  split; [reflexivity|]. split; [exact H1|]. split; [exact H2|].
  exact (playlist_agrees_outside_the_fixes IsoDate.parse tenMinutes now
           eq_refl twoScheduled H1 H2).
Defined.

(** X5 on a broadcast in two hours and one in ten minutes. *)
Lemma playlist_upcoming_is_soonest_future_witness :
  IsoDate.parse "" = None /\
  Yt.state (Playlist.pickStateFromVideos IsoDate.parse now twoScheduled) =
    Yt.upcoming /\
  exists v t, In v twoScheduled /\
    Playlist.pickStateFromVideos IsoDate.parse now twoScheduled =
      Yt.mkResult Yt.upcoming (Some (Yt.id v)) (Some t) /\
    Claims.parsesTo IsoDate.parse (Yt.scheduledStart v) t /\
    now < t /\
    (forall u tu, In u twoScheduled ->
       Claims.parsesTo IsoDate.parse (Yt.scheduledStart u) tu ->
       now < tu -> t <= tu).
Proof.
  split; [reflexivity|]. split; [reflexivity|].
  exact (playlist_upcoming_is_soonest_future IsoDate.parse now eq_refl
           twoScheduled eq_refl).
Defined.

(** X6 on a start ten minutes ahead: the response expires before the start. *)
Lemma cache_lifetime_values_and_expiry_witness :
  Yt.state soonResult = Yt.upcoming /\
  Yt.upcomingStartMs soonResult = Some 1704067800000 /\
  1704067800000 <> 0 /\
  1000 * 20 < 1704067800000 - now /\
  In (Grace.cacheSeconds tenMinutes now soonResult) [5; 10; 20; 300; 600; 1800] /\
  1000 * Grace.cacheSeconds tenMinutes now soonResult < 1704067800000 - now.
Proof.
  assert (N : 1704067800000 <> 0) by discriminate.
  assert (L : 1000 * 20 < 1704067800000 - now) by (unfold now; lia).
  split; [reflexivity|]. split; [reflexivity|]. split; [exact N|].
  split; [exact L|].
  exact (conj
           (proj1 (cache_lifetime_values_and_expiry tenMinutes now soonResult))
           (proj2 (cache_lifetime_values_and_expiry tenMinutes now soonResult)
              1704067800000 eq_refl eq_refl N L)).
Defined.

(** X7 on a start four minutes ago and a start ten minutes ahead. *)
Lemma cache_lifetime_monotone_witness :
  1704066960000 <> 0 /\ 1704067800000 <> 0 /\
  now - tenMinutes <= 1704066960000 /\ 1704066960000 <= 1704067800000 /\
  Grace.cacheSeconds tenMinutes now dueResult <=
  Grace.cacheSeconds tenMinutes now soonResult.
Proof.
  assert (N1 : 1704066960000 <> 0) by discriminate.
  assert (N2 : 1704067800000 <> 0) by discriminate.
  assert (L1 : now - tenMinutes <= 1704066960000)
    by (unfold now, tenMinutes; lia).
  assert (L2 : 1704066960000 <= 1704067800000) by lia.
  split; [exact N1|]. split; [exact N2|]. split; [exact L1|].
  split; [exact L2|].
  exact (cache_lifetime_monotone tenMinutes now dueResult soonResult
           1704066960000 1704067800000
           eq_refl eq_refl N1 eq_refl eq_refl N2 L1 L2).
Defined.

(** X9 on a warm process: at most two calls, none of them the channel
    lookup. *)
Lemma uploads_handlers_call_budget_witness :
  Js.truthy (Some "UU123") = true /\
  Behaviour.memoIs "UU123" warm /\
  Behaviour.memoIs "UU123"
    (snd (GraceApi.handler IsoDate.parse config serving get warm)) /\
  exists new,
    Rt.trace (snd (GraceApi.handler IsoDate.parse config serving get warm)) =
      Rt.trace warm ++ new /\
    (List.length new <= 2)%nat /\
    Forall (fun ce => ~ Behaviour.isSearch (fst ce) /\
                      ~ Behaviour.isChannels (fst ce)) new.
Proof.
  split; [reflexivity|]. split; [reflexivity|].
  exact (proj2 (proj2 (uploads_handlers_call_budget IsoDate.parse config
                         serving get "UU123")) eq_refl warm eq_refl).
Defined.

(** X11 on a warm process serving two requests, the second against a remote
    API that refuses every call. *)
Lemma warm_process_never_looks_up_again_witness :
  Js.truthy (Some "UU123") = true /\
  Behaviour.memoIs "UU123" warm /\
  Behaviour.memoIs "UU123"
    (Behaviour.serve IsoDate.parse config [(serving, get); (failing, get)] warm) /\
  exists new,
    Rt.trace (Behaviour.serve IsoDate.parse config
                [(serving, get); (failing, get)] warm) =
      Rt.trace warm ++ new /\
    (List.length new <= 2 * List.length [(serving, get); (failing, get)])%nat /\
    Forall (fun ce => ~ Behaviour.isChannels (fst ce)) new.
Proof.
  split; [reflexivity|]. split; [reflexivity|].
  exact (warm_process_never_looks_up_again IsoDate.parse config "UU123"
           [(serving, get); (failing, get)] warm eq_refl eq_refl).
Defined.

(** X12 on a warm process: the broadcast due four minutes ago is reported
    as [upcoming] and cached for five seconds. *)
Lemma grace_handler_end_to_end_witness :
  String.eqb (Rt.method get) "OPTIONS" = false /\
  Js.truthy (Rt.API_KEY config) = true /\
  Js.truthy (Rt.CHANNEL_ID config) = true /\
  Behaviour.memoIs "UU123" warm /\
  Js.truthy (Some "UU123") = true /\
  playlistItems serving "UU123" 20 =
    Rt.Responded true 200 "{...}" (inr uploads) /\
  ["far"; "due"] <> [] /\
  videos serving ["far"; "due"] = Rt.Responded true 200 "{...}" (inr details) /\
  fst (GraceApi.handler IsoDate.parse config serving get warm) =
    Rt.Returned
      (Rt.json 200
         {| GraceApi.error := None;
            GraceApi.result := dueResult;
            GraceApi.generatedAt := now;
            GraceApi.youtubeFetchedAt := Some (now + 1) |}
         5) /\
  Rt.trace (snd (GraceApi.handler IsoDate.parse config serving get warm)) =
    Rt.trace warm ++
    [(Rt.playlistItems_list "UU123" 20, None);
     (Rt.videos_list ["far"; "due"], None)].
Proof.
  assert (N : ["far"; "due"] <> @nil string) by discriminate.
  do 6 (split; [reflexivity|]). split; [exact N|]. split; [reflexivity|].
  exact (proj2 (grace_handler_end_to_end IsoDate.parse config serving get warm
                  "UU123" 200 "{...}" uploads
                  eq_refl eq_refl eq_refl eq_refl eq_refl eq_refl)
           200 "{...}" details N eq_refl).
Defined.

(** X13 on a remote API that refuses every call. *)
Lemma search_revisions_agree_witness :
  SearchApi.debugFlag get = false /\
  Behaviour.sameAnswer
    (SearchApi.handler IsoDate.parse config failing get fresh)
    (SearchApi2.handler IsoDate.parse config failing get fresh).
Proof.
  split; [reflexivity|].
  exact (search_revisions_agree IsoDate.parse config failing get fresh eq_refl).
Defined.

(** X14 on a remote API whose search finds a broadcast on air. *)
Lemma search_live_wins_after_one_call_witness :
  String.eqb (Rt.method get) "OPTIONS" = false /\
  Js.truthy (Rt.API_KEY config) = true /\
  Js.truthy (Rt.CHANNEL_ID config) = true /\
  search streaming "live" 1 =
    Rt.Responded true 200 "{...}"
      (inr (SearchList.mkData
              (Some [SearchList.mkItem (Some (SearchList.mkId (Some "vid")))]))) /\
  SearchApi.handler IsoDate.parse config streaming get fresh =
    (Rt.Returned
       (Rt.json 200
          (SearchApi.state_body (Yt.mkResult Yt.live (Some "vid") None)) 30),
     Rt.record_call (Rt.search_list "live" 1) None fresh) /\
  SearchApi2.handler IsoDate.parse config streaming get fresh =
    (Rt.Returned
       (Rt.json 200
          (SearchApi.state_body (Yt.mkResult Yt.live (Some "vid") None)) 60),
     Rt.record_call (Rt.search_list "live" 1) None fresh).
Proof.
  do 4 (split; [reflexivity|]).
  exact (search_live_wins_after_one_call IsoDate.parse config streaming get
           fresh 200 "{...}"
           (SearchList.mkData
              (Some [SearchList.mkItem (Some (SearchList.mkId (Some "vid")))]))
           (SearchList.mkItem (Some (SearchList.mkId (Some "vid")))) []
           (SearchList.mkId (Some "vid"))
           eq_refl eq_refl eq_refl eq_refl eq_refl eq_refl).
Defined.

(** X15 on the sample uploads playlist: the item without [contentDetails]
    and the item with an empty [videoId] are dropped. *)
Lemma listRecentUploadVideoIds_returns_valid_ids_witness :
  GraceApi.listRecentUploadVideoIds serving 20 warm =
    (Rt.Returned ["far"; "due"],
     Rt.record_call (Rt.playlistItems_list "UU123" 20) None warm) /\
  Forall (fun i => i <> "") ["far"; "due"] /\
  exists pid status text data,
    Rt.cachedUploadsPlaylistId
      (Rt.record_call (Rt.playlistItems_list "UU123" 20) None warm) = Some pid /\
    playlistItems serving pid 20 = Rt.Responded true status text (inr data) /\
    In (Rt.playlistItems_list pid 20, None)
       (Rt.trace (Rt.record_call (Rt.playlistItems_list "UU123" 20) None warm)) /\
    map Some ["far"; "due"] =
      filter Js.truthy
        (map (fun it => Js.chain (PlaylistItems.contentDetails it)
                                 PlaylistItems.videoId)
             (Js.or_nil (PlaylistItems.items data))).
Proof.
  split; [reflexivity|].
  exact (listRecentUploadVideoIds_returns_valid_ids serving 20 warm
           (Rt.record_call (Rt.playlistItems_list "UU123" 20) None warm)
           ["far"; "due"] eq_refl).
Defined.

(** X16 with a grace setting of minus five minutes. *)
Lemma no_grace_minutes_no_past_start_witness :
  -5 <= 0 /\
  Yt.state (Grace.pickStateFromVideos IsoDate.parse (Grace.GRACE_MS_of (-5))
              now twoScheduled) = Yt.upcoming /\
  exists v t, In v twoScheduled /\
    Grace.pickStateFromVideos IsoDate.parse (Grace.GRACE_MS_of (-5)) now
      twoScheduled = Yt.mkResult Yt.upcoming (Some (Yt.id v)) (Some t) /\
    now <= t.
Proof.
  assert (L : -5 <= 0) by lia.
  split; [exact L|]. split; [reflexivity|].
  exact (no_grace_minutes_no_past_start IsoDate.parse now (-5) twoScheduled
           L eq_refl).
Defined.

(** X17 on a preflight request, and on a deployment without API key. *)
Lemma preflight_and_missing_configuration_witness :
  String.eqb (Rt.method options) "OPTIONS" = true /\
  GraceApi.handler IsoDate.parse config failing options fresh =
    (Rt.Returned Rt.preflight, fresh) /\
  String.eqb (Rt.method get) "OPTIONS" = false /\
  Js.truthy (Rt.API_KEY unconfigured) = false /\
  SearchApi.handler IsoDate.parse unconfigured failing get fresh =
    (Rt.Returned (Rt.json 500 (SearchApi.error_body "Missing env vars") 60),
     fresh).
Proof.
  split; [reflexivity|]. split.
  - exact (proj1 (proj1 (preflight_and_missing_configuration IsoDate.parse
                           config failing options fresh) eq_refl)).
  - split; [reflexivity|]. split; [reflexivity|].
    exact (proj1 (proj2 (proj2 (proj2
             (preflight_and_missing_configuration IsoDate.parse unconfigured
                failing get fresh) eq_refl (or_introl eq_refl))))).
Defined.

(** X18 on a start four minutes ago: five seconds against twenty. *)
Lemma same_result_lifetimes_compared_witness :
  Grace.isUpcomingWithStart dueResult = true /\
  Js.value (Yt.upcomingStartMs dueResult) <= now /\
  now - Js.value (Yt.upcomingStartMs dueResult) <= tenMinutes /\
  Grace.cacheSeconds tenMinutes now dueResult = 5 /\
  PlaylistApi.upcomingCacheSeconds now (Yt.upcomingStartMs dueResult) = 20.
Proof.
  assert (L1 : Js.value (Yt.upcomingStartMs dueResult) <= now)
    by (vm_compute; discriminate).
  assert (L2 : now - Js.value (Yt.upcomingStartMs dueResult) <= tenMinutes)
    by (vm_compute; discriminate).
  split; [reflexivity|]. split; [exact L1|]. split; [exact L2|].
  exact (proj2 (proj2 (proj1 (same_result_lifetimes_compared tenMinutes now
                                dueResult) eq_refl)) L1 L2).
Defined.

End FurtherRuns.
